(** * WcofunDownloader: the scraper's URL checks, the record store and the
    download engine, embedded from the TypeScript sources.

    - [JsString]   : the string primitives of the platform the code calls
                     ([toLowerCase], [includes], [startsWith], [split],
                     the two regular-expression replacements, [URLSearchParams]).
    - [Scraper]    : [isValidVideoUrl] and [determineUrlType].
    - [JsNumber]   : IEEE-754 binary64 arithmetic for the progress and speed
                     computations.
    - [Storage]    : [MemStorage], the in-memory record store.
    - [Downloader] : [sanitizePathName], start / pause / resume / cancel
                     and [downloadFile] over an explicit world (record store,
                     active-download map, file system), and the runs of the
                     engine as lists of events.
    - [Routes]     : [POST /api/downloads] (single episode and series) and
                     the control route.
    - [EpisodeList]: [Scraper.parseEpisodeList] over the anchors a page
                     selects.
    - [SeriesInfo] : [Scraper.parseSeriesInfo] over the texts and attributes
                     a page selects.
    - [Rclone]     : the upload service over an explicit command runner.

    Strings are sequences of code units below 256 (the Latin-1 range of a
    JavaScript string); on that range the case mapping and the whitespace
    class below are the ones of ECMAScript. *)

From Stdlib Require Import ZArith NArith String Ascii Bool List DecimalString.
From Stdlib Require Import DecimalPos.
From Stdlib Require Import Floats.SpecFloat.
From stdpp Require Import gmap strings sorting.
Import ListNotations.
Open Scope string_scope.

(* ===================================================================== *)
(** ** String primitives *)
(* ===================================================================== *)

Module JsString.

(** A string is truthy when it is not empty. *)
Definition truthy (s : string) : bool :=
  match s with EmptyString => false | String _ _ => true end.

(** [a || b] on strings. *)
Definition or_else (a b : string) : string := if truthy a then a else b.

(** [String.prototype.toLowerCase] on one code unit: A-Z, and the Latin-1
    capitals U+00C0..U+00DE except the multiplication sign U+00D7. *)
Definition lower_char (c : ascii) : ascii :=
  let n := N_of_ascii c in
  if (((65 <=? n) && (n <=? 90)) ||
      ((192 <=? n) && (n <=? 222) && negb (n =? 215)))%N
  then ascii_of_N (n + 32) else c.

Fixpoint toLowerCase (s : string) : string :=
  match s with
  | EmptyString => EmptyString
  | String c r => String (lower_char c) (toLowerCase r)
  end.

Fixpoint startsWith (s p : string) : bool :=
  match p, s with
  | EmptyString, _ => true
  | String _ _, EmptyString => false
  | String a p', String b s' => Ascii.eqb a b && startsWith s' p'
  end.

Fixpoint includes (s p : string) : bool :=
  match s with
  | EmptyString => startsWith EmptyString p
  | String _ r => startsWith s p || includes r p
  end.

(** [s.split(sep)] for a one-character separator: the list is never
    empty. *)
Fixpoint split (sep : ascii) (s : string) : list string :=
  match s with
  | EmptyString => [EmptyString]
  | String c r =>
      if Ascii.eqb c sep then EmptyString :: split sep r
      else match split sep r with
           | [] => [String c EmptyString]
           | h :: t => String c h :: t
           end
  end.

Fixpoint map_chars (f : ascii -> ascii) (s : string) : string :=
  match s with
  | EmptyString => EmptyString
  | String c r => String (f c) (map_chars f r)
  end.

Fixpoint all_chars (p : ascii -> bool) (s : string) : bool :=
  match s with
  | EmptyString => true
  | String c r => p c && all_chars p r
  end.

(** The class [\s] restricted to code units below 256: TAB, LF, VT, FF,
    CR, SPACE and NO-BREAK SPACE. *)
Definition is_space (c : ascii) : bool :=
  let n := N_of_ascii c in
  (((9 <=? n) && (n <=? 13)) || (n =? 32) || (n =? 160))%N.

(** [s.replace(/\s+/g, "-")]: every maximal run of whitespace becomes one
    hyphen.  [in_run] tells that the previous code unit was whitespace. *)
Fixpoint replace_space_runs (in_run : bool) (s : string) : string :=
  match s with
  | EmptyString => EmptyString
  | String c r =>
      if is_space c then
        if in_run then replace_space_runs true r
        else String "-" (replace_space_runs true r)
      else String c (replace_space_runs false r)
  end.

Definition is_hex (c : ascii) : bool :=
  let n := N_of_ascii c in
  (((48 <=? n) && (n <=? 57)) || ((65 <=? n) && (n <=? 70)) ||
   ((97 <=? n) && (n <=? 102)))%N.

Definition hex_val (c : ascii) : N :=
  let n := N_of_ascii c in
  (if n <=? 57 then n - 48 else if n <=? 70 then n - 55 else n - 87)%N.

(** Percent-decoding of the URL standard: [%XY] with two hexadecimal
    digits is one byte, anything else stands for itself.  (The platform then
    reads the bytes as UTF-8; a name equals an ASCII word after that step
    exactly when its bytes are that word, which is all [has] is asked.) *)
Fixpoint percent_decode (s : string) : string :=
  match s with
  | String "%" (String a (String b r as rb) as ra) =>
      if is_hex a && is_hex b
      then String (ascii_of_N (hex_val a * 16 + hex_val b)) (percent_decode r)
      else String "%" (percent_decode ra)
  | String c r => String c (percent_decode r)
  | EmptyString => EmptyString
  end.

(** The name of one [name=value] sequence of a query string: the text
    before the first [=], with [+] read as a space, percent-decoded. *)
Definition param_name (piece : string) : string :=
  let raw := match split "=" piece with h :: _ => h | [] => EmptyString end in
  percent_decode
    (map_chars (fun c => if Ascii.eqb c "+" then " "%char else c) raw).

(** [new URLSearchParams(init)]: a leading [?] is dropped, the rest is cut at
    every [&], and empty sequences are skipped.  Only the names are kept,
    which is all [has] looks at. *)
Definition URLSearchParams_names (init : string) : list string :=
  let body := match init with String "?" r => r | _ => init end in
  List.map param_name (List.filter truthy (split "&" body)).

Definition URLSearchParams_has (init name : string) : bool :=
  existsb (String.eqb name) (URLSearchParams_names init).

End JsString.

(* ===================================================================== *)
(** ** The scraper: URL validation and classification *)
(* ===================================================================== *)

Module Scraper.
Import JsString.

Inductive UrlType := series | episode.

Record UrlKind := { type : UrlType; url : string }.

Definition validExtensions : list string :=
  [".mp4"; ".m3u8"; ".flv"; ".webm"; ".mov"; ".mkv"].

Definition hasValidExtension (url : string) : bool :=
  existsb (fun ext => includes (toLowerCase url) ext) validExtensions.

(** [new URLSearchParams(url.split('?')[1] || '')] queried for [file],
    [source] and [video]. *)
Definition hasVideoParams (url : string) : bool :=
  let urlParams :=
    or_else (match split "?" url with _ :: q :: _ => q | _ => EmptyString end)
            EmptyString in
  URLSearchParams_has urlParams "file" ||
  URLSearchParams_has urlParams "source" ||
  URLSearchParams_has urlParams "video".

Definition hasProtocol (url : string) : bool :=
  startsWith url "http://" || startsWith url "https://".

Section Validation.

(** [URL_parses u] tells whether the platform's [new URL(u)] returns
    rather than throws. *)
Variable URL_parses : string -> bool.

Definition isValidVideoUrl (url : string) : bool :=
  if negb (truthy url) then false
  else if (String.length url <? 10)%nat then false
  else if negb (startsWith url "http://") && negb (startsWith url "https://")
  then false
  else if negb (hasValidExtension url) && negb (hasVideoParams url)
  then false
  else if URL_parses url then true else false.

End Validation.

Definition determineUrlType (url : string) : UrlKind :=
  let normalizedUrl := toLowerCase url in
  if includes normalizedUrl "/anime/" ||
     includes normalizedUrl "/category/" ||
     includes normalizedUrl "/series/" ||
     includes normalizedUrl "/cartoon/" ||
     (negb (includes normalizedUrl "/episode") &&
      negb (includes normalizedUrl "/watch/") &&
      negb (includes normalizedUrl "/video/"))
  then {| type := series; url := url |}
  else {| type := episode; url := url |}.

(** The lowered URL holds one of the collection markers. *)
Definition collectionMarker (u : string) : bool :=
  includes (toLowerCase u) "/anime/" || includes (toLowerCase u) "/category/" ||
  includes (toLowerCase u) "/series/" || includes (toLowerCase u) "/cartoon/".

(** The lowered URL holds one of the item markers. *)
Definition itemMarker (u : string) : bool :=
  includes (toLowerCase u) "/episode" || includes (toLowerCase u) "/watch/" ||
  includes (toLowerCase u) "/video/".

(** *** A fragment of the URL parser

    [http_url_parses] accepts a part of what the platform's parser accepts
    for an [http(s)://] address: a host made of dot-separated labels of
    letters, digits and hyphens whose last label starts with a letter (so it
    is neither an IPv4 address nor empty), none of them in punycode form, an
    optional decimal port up to 65535, and then any path, query or
    fragment without spaces or control characters. *)

Definition is_alpha (c : ascii) : bool :=
  let n := N_of_ascii (lower_char c) in ((97 <=? n) && (n <=? 122))%N.

Definition is_digit (c : ascii) : bool :=
  let n := N_of_ascii c in ((48 <=? n) && (n <=? 57))%N.

Definition is_label_char (c : ascii) : bool :=
  is_alpha c || is_digit c || Ascii.eqb c "-".

Definition is_printable (c : ascii) : bool :=
  let n := N_of_ascii c in ((33 <=? n) && (n <=? 126))%N.

Fixpoint drop_prefix (p s : string) : option string :=
  match p, s with
  | EmptyString, _ => Some s
  | String a p', String b s' =>
      if Ascii.eqb a b then drop_prefix p' s' else None
  | String _ _, EmptyString => None
  end.

(** The authority: everything before the first [/], [?] or [#]. *)
Fixpoint authority (s : string) : string :=
  match s with
  | EmptyString => EmptyString
  | String c r =>
      if Ascii.eqb c "/" || Ascii.eqb c "?" || Ascii.eqb c "#"
      then EmptyString else String c (authority r)
  end.

Fixpoint decimal (acc : N) (s : string) : option N :=
  match s with
  | EmptyString => Some acc
  | String c r =>
      if is_digit c then decimal (acc * 10 + (N_of_ascii c - 48)) r else None
  end.

Definition label_ok (l : string) : bool :=
  truthy l && all_chars is_label_char l && negb (startsWith (toLowerCase l) "xn--").

Definition host_ok (h : string) : bool :=
  let labels := split "." h in
  forallb label_ok labels &&
  match List.last labels EmptyString with
  | String c _ => is_alpha c
  | EmptyString => false
  end.

Definition port_ok (p : string) : bool :=
  match decimal 0 p with Some n => (n <=? 65535)%N | None => false end.

Definition http_url_parses (u : string) : bool :=
  all_chars is_printable u &&
  match (match drop_prefix "http://" u with
         | Some r => Some r
         | None => drop_prefix "https://" u
         end) with
  | None => false
  | Some rest =>
      match split ":" (authority rest) with
      | [h] => host_ok h
      | [h; p] => host_ok h && port_ok p
      | _ => false
      end
  end.

End Scraper.

(* ===================================================================== *)
(** ** Numbers *)
(* ===================================================================== *)

(** Byte counts, identifiers and clock readings are integers and are kept
    in [Z]; the quotients the engine computes ([progress], [speed]) are
    binary64 values, computed with the operations of [SpecFloat]. *)
Module JsNumber.

Definition Number := spec_float.

Definition of_Z (z : Z) : Number := binary_normalize 53 1024 z 0 false.

Definition div (x y : Number) : Number := SFdiv 53 1024 x y.
Definition mul (x y : Number) : Number := SFmul 53 1024 x y.

(** [Math.floor]: zeros, infinities and NaN are returned as they are. *)
Definition floor (x : Number) : Number :=
  match x with
  | S754_finite s m e =>
      if (0 <=? e)%Z then x
      else of_Z (Z.div (cond_Zopp s (Z.pos m)) (2 ^ (- e)))
  | _ => x
  end.

(** The integer a finite number stands for, when it stands for one. *)
Definition to_Z (x : Number) : option Z :=
  match x with
  | S754_zero _ => Some 0%Z
  | S754_finite s m e =>
      if (0 <=? e)%Z then Some (cond_Zopp s (Z.pos m) * 2 ^ e)%Z
      else if (Z.pos m mod 2 ^ (- e) =? 0)%Z
           then Some (cond_Zopp s (Z.pos m / 2 ^ (- e)))%Z
           else None
  | _ => None
  end.

End JsNumber.

(* ===================================================================== *)
(** ** The record store (server/storage.ts, shared/schema.ts) *)
(* ===================================================================== *)

Module Storage.
Import JsString JsNumber.

(** A [Date] is its reading in milliseconds. *)
Definition Date := Z.

Record Series := {
  s_id : Z;
  s_title : string;
  s_description : option string;
  s_totalEpisodes : option Z;
  s_imageUrl : option string;
  s_sourceUrl : string;
  s_createdAt : option Date
}.

Record Episode := {
  e_id : Z;
  seriesId : Z;
  title : string;
  episodeNumber : option Z;
  season : option Z;
  duration : option string;
  sourceUrl : string;
  downloadUrl : option string;
  e_createdAt : option Date
}.

(** A row of the [downloads] table; [None] is [null]. *)
Record Download := {
  id : Z;
  episodeId : Z;
  status : string;
  progress : option Number;
  totalSize : option Z;
  downloadedSize : option Z;
  speed : option Number;
  filePath : option string;
  error : option string;
  startedAt : option Date;
  completedAt : option Date;
  createdAt : option Date
}.

(** [InsertDownload]: the table's columns without [id] and [createdAt];
    only [episodeId] is required, [None] is an absent or [null] field. *)
Record InsertDownload := {
  i_episodeId : Z;
  i_status : option string;
  i_progress : option Number;
  i_totalSize : option Z;
  i_downloadedSize : option Z;
  i_speed : option Number;
  i_filePath : option string;
  i_error : option string;
  i_startedAt : option Date;
  i_completedAt : option Date
}.

(** One [key: value] of an object literal of type [Partial<Download>]. *)
Inductive Field :=
| f_status (v : string)
| f_progress (v : option Number)
| f_totalSize (v : option Z)
| f_downloadedSize (v : option Z)
| f_speed (v : option Number)
| f_filePath (v : option string)
| f_error (v : option string)
| f_startedAt (v : option Date)
| f_completedAt (v : option Date).

Definition assign (d : Download) (f : Field) : Download :=
  match f with
  | f_status v =>
      {| id := id d; episodeId := episodeId d; status := v;
         progress := progress d; totalSize := totalSize d;
         downloadedSize := downloadedSize d; speed := speed d;
         filePath := filePath d; error := error d; startedAt := startedAt d;
         completedAt := completedAt d; createdAt := createdAt d |}
  | f_progress v =>
      {| id := id d; episodeId := episodeId d; status := status d;
         progress := v; totalSize := totalSize d;
         downloadedSize := downloadedSize d; speed := speed d;
         filePath := filePath d; error := error d; startedAt := startedAt d;
         completedAt := completedAt d; createdAt := createdAt d |}
  | f_totalSize v =>
      {| id := id d; episodeId := episodeId d; status := status d;
         progress := progress d; totalSize := v;
         downloadedSize := downloadedSize d; speed := speed d;
         filePath := filePath d; error := error d; startedAt := startedAt d;
         completedAt := completedAt d; createdAt := createdAt d |}
  | f_downloadedSize v =>
      {| id := id d; episodeId := episodeId d; status := status d;
         progress := progress d; totalSize := totalSize d;
         downloadedSize := v; speed := speed d;
         filePath := filePath d; error := error d; startedAt := startedAt d;
         completedAt := completedAt d; createdAt := createdAt d |}
  | f_speed v =>
      {| id := id d; episodeId := episodeId d; status := status d;
         progress := progress d; totalSize := totalSize d;
         downloadedSize := downloadedSize d; speed := v;
         filePath := filePath d; error := error d; startedAt := startedAt d;
         completedAt := completedAt d; createdAt := createdAt d |}
  | f_filePath v =>
      {| id := id d; episodeId := episodeId d; status := status d;
         progress := progress d; totalSize := totalSize d;
         downloadedSize := downloadedSize d; speed := speed d;
         filePath := v; error := error d; startedAt := startedAt d;
         completedAt := completedAt d; createdAt := createdAt d |}
  | f_error v =>
      {| id := id d; episodeId := episodeId d; status := status d;
         progress := progress d; totalSize := totalSize d;
         downloadedSize := downloadedSize d; speed := speed d;
         filePath := filePath d; error := v; startedAt := startedAt d;
         completedAt := completedAt d; createdAt := createdAt d |}
  | f_startedAt v =>
      {| id := id d; episodeId := episodeId d; status := status d;
         progress := progress d; totalSize := totalSize d;
         downloadedSize := downloadedSize d; speed := speed d;
         filePath := filePath d; error := error d; startedAt := v;
         completedAt := completedAt d; createdAt := createdAt d |}
  | f_completedAt v =>
      {| id := id d; episodeId := episodeId d; status := status d;
         progress := progress d; totalSize := totalSize d;
         downloadedSize := downloadedSize d; speed := speed d;
         filePath := filePath d; error := error d; startedAt := startedAt d;
         completedAt := v; createdAt := createdAt d |}
  end.

(** [{ ...download, ...data }]: the keys of [data] overwrite, in order. *)
Definition spread (d : Download) (data : list Field) : Download :=
  fold_left assign data d.

Record MemStorage := {
  seriesMap : gmap Z Series;
  episodesMap : gmap Z Episode;
  downloadsMap : gmap Z Download;
  seriesCurrentId : Z;
  episodeCurrentId : Z;
  downloadCurrentId : Z
}.

Definition with_downloads (st : MemStorage) (m : gmap Z Download) (next : Z)
  : MemStorage :=
  {| seriesMap := seriesMap st; episodesMap := episodesMap st;
     downloadsMap := m; seriesCurrentId := seriesCurrentId st;
     episodeCurrentId := episodeCurrentId st; downloadCurrentId := next |}.

Definition with_episodes (st : MemStorage) (m : gmap Z Episode) : MemStorage :=
  {| seriesMap := seriesMap st; episodesMap := m;
     downloadsMap := downloadsMap st; seriesCurrentId := seriesCurrentId st;
     episodeCurrentId := episodeCurrentId st;
     downloadCurrentId := downloadCurrentId st |}.

Definition getSeries (st : MemStorage) (i : Z) : option Series :=
  seriesMap st !! i.

Definition getEpisode (st : MemStorage) (i : Z) : option Episode :=
  episodesMap st !! i.

Definition getDownload (st : MemStorage) (i : Z) : option Download :=
  downloadsMap st !! i.

(** [Array.from(map.values())]: a [Map] iterates in insertion order, and
    the store inserts under the next value of a counter, so that is the
    order of the ids. *)
Definition values {A} (m : gmap Z A) : list A :=
  List.map snd
    (merge_sort (fun x y : Z * A => (fst x <= fst y)%Z)
       (H := fun x y => decide (fst x <= fst y)%Z) (map_to_list m)).

Definition getEpisodesBySeriesId (st : MemStorage) (sid : Z) : list Episode :=
  List.filter (fun episode => (seriesId episode =? sid)%Z) (values (episodesMap st)).

(** [a || null] on an optional string. *)
Definition or_null (a : option string) : option string :=
  match a with
  | Some s => if truthy s then Some s else None
  | None => None
  end.

Definition createDownload (st : MemStorage) (insertDownload : InsertDownload)
    (now : Date) : MemStorage * Download :=
  let id := downloadCurrentId st in
  let download :=
    {| id := id;
       episodeId := i_episodeId insertDownload;
       status := "queued";
       progress := Some (of_Z 0);
       totalSize := None;
       downloadedSize := Some 0%Z;
       speed := None;
       filePath := or_null (i_filePath insertDownload);
       error := None;
       startedAt := None;
       completedAt := None;
       createdAt := Some now |} in
  (with_downloads st (<[id := download]> (downloadsMap st)) (id + 1), download).

Definition updateDownload (st : MemStorage) (i : Z) (data : list Field)
  : MemStorage * option Download :=
  match downloadsMap st !! i with
  | None => (st, None)
  | Some download =>
      let updatedDownload := spread download data in
      (with_downloads st (<[i := updatedDownload]> (downloadsMap st))
         (downloadCurrentId st),
       Some updatedDownload)
  end.

(** [updateEpisode(id, { downloadUrl })], the one shape the routes use. *)
Definition updateEpisode_downloadUrl (st : MemStorage) (i : Z) (u : string)
  : MemStorage * option Episode :=
  match episodesMap st !! i with
  | None => (st, None)
  | Some episode =>
      let updatedEpisode :=
        {| e_id := e_id episode; seriesId := seriesId episode;
           title := title episode; episodeNumber := episodeNumber episode;
           season := season episode; duration := duration episode;
           sourceUrl := sourceUrl episode; downloadUrl := Some u;
           e_createdAt := e_createdAt episode |} in
      (with_episodes st (<[i := updatedEpisode]> (episodesMap st)),
       Some updatedEpisode)
  end.

(** *** The rest of the store *)

(** [InsertSeries]: [title] and [sourceUrl] are required. *)
Record InsertSeries := {
  is_title : string;
  is_description : option string;
  is_totalEpisodes : option Z;
  is_imageUrl : option string;
  is_sourceUrl : string
}.

(** [Partial<InsertSeries>]: the outer [None] is an absent key
    ([undefined]), [Some None] is [null]. *)
Record PartialSeries := {
  ps_title : option string;
  ps_description : option (option string);
  ps_totalEpisodes : option (option Z);
  ps_imageUrl : option (option string);
  ps_sourceUrl : option string
}.

(** [InsertEpisode]: [seriesId], [title] and [sourceUrl] are required. *)
Record InsertEpisode := {
  ie_seriesId : Z;
  ie_title : string;
  ie_episodeNumber : option Z;
  ie_season : option Z;
  ie_duration : option string;
  ie_sourceUrl : string;
  ie_downloadUrl : option string
}.

(** [n || null] on an optional number: 0 is falsy. *)
Definition num_or_null (n : option Z) : option Z :=
  match n with
  | Some z => if (z =? 0)%Z then None else Some z
  | None => None
  end.

Definition with_series (st : MemStorage) (m : gmap Z Series) (next : Z) : MemStorage :=
  {| seriesMap := m; episodesMap := episodesMap st;
     downloadsMap := downloadsMap st; seriesCurrentId := next;
     episodeCurrentId := episodeCurrentId st;
     downloadCurrentId := downloadCurrentId st |}.

Definition with_episodes_next (st : MemStorage) (m : gmap Z Episode) (next : Z)
  : MemStorage :=
  {| seriesMap := seriesMap st; episodesMap := m;
     downloadsMap := downloadsMap st; seriesCurrentId := seriesCurrentId st;
     episodeCurrentId := next;
     downloadCurrentId := downloadCurrentId st |}.

Definition getSeriesBySourceUrl (st : MemStorage) (url : string) : option Series :=
  List.find (fun series => String.eqb (s_sourceUrl series) url) (values (seriesMap st)).

Definition getAllSeries (st : MemStorage) : list Series := values (seriesMap st).

Definition createSeries (st : MemStorage) (insertSeries : InsertSeries) (now : Date)
  : MemStorage * Series :=
  let id := seriesCurrentId st in
  let series :=
    {| s_id := id;
       s_title := is_title insertSeries;
       s_description := or_null (is_description insertSeries);
       s_totalEpisodes := num_or_null (is_totalEpisodes insertSeries);
       s_imageUrl := or_null (is_imageUrl insertSeries);
       s_sourceUrl := is_sourceUrl insertSeries;
       s_createdAt := Some now |} in
  (with_series st (<[id := series]> (seriesMap st)) (id + 1), series).

Definition updateSeries (st : MemStorage) (i : Z) (data : PartialSeries)
  : MemStorage * option Series :=
  match seriesMap st !! i with
  | None => (st, None)
  | Some series =>
      let updatedSeries :=
        {| s_id := s_id series;
           s_title := match ps_title data with Some t => t | None => s_title series end;
           s_description :=
             match ps_description data with
             | Some v => or_null v
             | None => s_description series
             end;
           s_totalEpisodes :=
             match ps_totalEpisodes data with
             | Some v => num_or_null v
             | None => s_totalEpisodes series
             end;
           s_imageUrl :=
             match ps_imageUrl data with
             | Some v => or_null v
             | None => s_imageUrl series
             end;
           s_sourceUrl :=
             match ps_sourceUrl data with Some u => u | None => s_sourceUrl series end;
           s_createdAt := s_createdAt series |} in
      (with_series st (<[i := updatedSeries]> (seriesMap st)) (seriesCurrentId st),
       Some updatedSeries)
  end.

(** [Map.prototype.delete] tells whether the key was there. *)
Definition deleteSeries (st : MemStorage) (i : Z) : MemStorage * bool :=
  (with_series st (delete i (seriesMap st)) (seriesCurrentId st),
   match seriesMap st !! i with Some _ => true | None => false end).

Definition getEpisodeBySourceUrl (st : MemStorage) (url : string) : option Episode :=
  List.find (fun episode => String.eqb (sourceUrl episode) url) (values (episodesMap st)).

Definition createEpisode (st : MemStorage) (insertEpisode : InsertEpisode) (now : Date)
  : MemStorage * Episode :=
  let id := episodeCurrentId st in
  let episode :=
    {| e_id := id;
       title := ie_title insertEpisode;
       sourceUrl := ie_sourceUrl insertEpisode;
       seriesId := ie_seriesId insertEpisode;
       episodeNumber := num_or_null (ie_episodeNumber insertEpisode);
       season := num_or_null (ie_season insertEpisode);
       duration := or_null (ie_duration insertEpisode);
       downloadUrl := or_null (ie_downloadUrl insertEpisode);
       e_createdAt := Some now |} in
  (with_episodes_next st (<[id := episode]> (episodesMap st)) (id + 1), episode).

Definition deleteEpisode (st : MemStorage) (i : Z) : MemStorage * bool :=
  (with_episodes st (delete i (episodesMap st)),
   match episodesMap st !! i with Some _ => true | None => false end).

Definition getDownloadsByStatus (st : MemStorage) (wanted : string) : list Download :=
  List.filter (fun download => String.eqb (status download) wanted)
    (values (downloadsMap st)).

Definition getAllDownloads (st : MemStorage) : list Download :=
  values (downloadsMap st).

Definition deleteDownload (st : MemStorage) (i : Z) : MemStorage * bool :=
  (with_downloads st (delete i (downloadsMap st)) (downloadCurrentId st),
   match downloadsMap st !! i with Some _ => true | None => false end).

(** The store a fresh [MemStorage] is. *)
Definition emptyStorage : MemStorage :=
  {| seriesMap := ∅; episodesMap := ∅; downloadsMap := ∅;
     seriesCurrentId := 1; episodeCurrentId := 1; downloadCurrentId := 1 |}.

(** Every stored key lies below the counter that hands out the next one. *)
Definition counters_ahead (st : MemStorage) : Prop :=
  (forall i, is_Some (seriesMap st !! i) -> (i < seriesCurrentId st)%Z) /\
  (forall i, is_Some (episodesMap st !! i) -> (i < episodeCurrentId st)%Z) /\
  (forall i, is_Some (downloadsMap st !! i) -> (i < downloadCurrentId st)%Z).

End Storage.

(* ===================================================================== *)
(** ** The download engine (server/services/downloader.ts) *)
(* ===================================================================== *)

Module Downloader.
Import JsString JsNumber Storage.

(** An [fs.WriteStream]: the file it writes and whether it was closed. *)
Record WriteStream := { ws_path : string; ws_closed : bool }.

(** An entry of [activeDownloads].  [aborted] is the state of the entry's
    [AbortController]. *)
Record Handle := {
  aborted : bool;
  resumePosition : Z;
  stream : option WriteStream
}.

(** What the engine reads and writes: the record store, the module-level
    map [activeDownloads], and the regular files of the disk with their
    sizes in bytes. *)
Record World := {
  storage : MemStorage;
  activeDownloads : gmap Z Handle;
  files : gmap string Z
}.

Definition existsSync (fs : gmap string Z) (p : string) : bool :=
  match fs !! p with Some _ => true | None => false end.

Definition statSync_size (fs : gmap string Z) (p : string) : Z :=
  match fs !! p with Some n => n | None => 0 end.

Definition unlinkSync (fs : gmap string Z) (p : string) : gmap string Z :=
  delete p fs.

(** [fs.createWriteStream(p, { flags })]: ['a'] keeps what the file holds
    and creates it when missing, ['w'] leaves an empty file. *)
Definition createWriteStream (fs : gmap string Z) (p : string) (append : bool)
  : gmap string Z :=
  if append then (if existsSync fs p then fs else <[p := 0%Z]> fs)
  else <[p := 0%Z]> fs.

(** [stream.write(chunk)]: the file grows by the chunk's length. *)
Definition write (fs : gmap string Z) (p : string) (len : Z) : gmap string Z :=
  match fs !! p with Some n => <[p := (n + len)%Z]> fs | None => fs end.

(** The character class of the first replacement, by code unit: slash,
    backslash, question mark, percent, star, colon, bar, double quote,
    less-than and greater-than. *)
Definition is_hostile (c : ascii) : bool :=
  existsb (N.eqb (N_of_ascii c)) [47; 92; 63; 37; 42; 58; 124; 34; 60; 62]%N.

(** The first replacement, on one code unit. *)
Definition hyphenate (c : ascii) : ascii := if is_hostile c then "-"%char else c.

Definition sanitizePathName (name : string) : string :=
  toLowerCase (replace_space_runs false (map_chars hyphenate name)).

(** Neither hostile nor whitespace. *)
Definition plain (c : ascii) : bool := negb (is_hostile c) && negb (is_space c).

(** Left alone by all three passes. *)
Definition settled (c : ascii) : bool := plain c && Ascii.eqb (lower_char c) c.

Definition string_of_Z (z : Z) : string :=
  DecimalString.NilZero.string_of_int (Z.to_int z).

Definition opt_truthy (s : option string) : bool :=
  match s with Some t => truthy t | None => false end.

Definition setStorage (w : World) (r : MemStorage * option Download) : World :=
  {| storage := fst r; activeDownloads := activeDownloads w; files := files w |}.

Definition setActive (w : World) (m : gmap Z Handle) : World :=
  {| storage := storage w; activeDownloads := m; files := files w |}.

Definition setFiles (w : World) (fs : gmap string Z) : World :=
  {| storage := storage w; activeDownloads := activeDownloads w; files := fs |}.

Definition close (s : WriteStream) : WriteStream :=
  {| ws_path := ws_path s; ws_closed := true |}.

(** What a call returns, or the message of the error it throws. *)
Inductive Outcome :=
| Returned (success : bool)
| Threw (message : string).

(** The outer [catch] of [downloadFile]. *)
Definition downloadFile_catch (w : World) (downloadId : Z) (text : string) : World :=
  let w1 := setActive w (delete downloadId (activeDownloads w)) in
  setStorage w1
    (updateDownload (storage w1) downloadId [f_status "error"; f_error (Some text)]).

(** *** pauseDownload and cancelDownload

    [downloadFile] registers a handle right before its [fetch], and the code
    that runs when the [fetch] settles removes it: an id has a handle while
    its [fetch] is pending.  [abort()] on the handle's controller rejects
    that [fetch], and the rejection goes to the outer [catch] of
    [downloadFile], which has run by the time the caller of the [async]
    function goes on.  [pauseDownload_body] and [cancelDownload_body] are
    the statements of the two functions themselves; [pauseDownload] and
    [cancelDownload] are the awaited calls, that [catch] included. *)

Definition pauseDownload_body (w : World) (downloadId : Z) : World * bool :=
  match activeDownloads w !! downloadId with
  | None => (w, false)
  | Some activeDownload =>
      let activeDownload' :=
        {| aborted := true;
           resumePosition := resumePosition activeDownload;
           stream := option_map close (stream activeDownload) |} in
      let w1 := setActive w (<[downloadId := activeDownload']> (activeDownloads w)) in
      (setStorage w1 (updateDownload (storage w1) downloadId [f_status "paused"]),
       true)
  end.

(** The three fields a cancel writes. *)
Definition cancelled : list Field :=
  [f_status "cancelled"; f_progress (Some (of_Z 0)); f_downloadedSize (Some 0%Z)].

Section Control.

(** [`${error}`] for the [AbortError] an aborted [fetch] rejects with. *)
Variable abortError : string.

(** [fs.unlinkSync(p)]: the message of the error it throws where the
    platform refuses to remove [p], [None] where it removes it. *)
Variable unlinkSync_error : string -> option string.

Definition cancelDownload_body (w : World) (downloadId : Z) : World * Outcome :=
  let w1 :=
    match activeDownloads w !! downloadId with
    | Some _ => setActive w (delete downloadId (activeDownloads w))
    | None => w
    end in
  let finish (w2 : World) : World * Outcome :=
    (setStorage w2 (updateDownload (storage w2) downloadId cancelled), Returned true) in
  match getDownload (storage w1) downloadId with
  | Some download =>
      match filePath download with
      | Some p =>
          if truthy p && existsSync (files w1) p then
            match unlinkSync_error p with
            | Some message => (w1, Threw message)
            | None => finish (setFiles w1 (unlinkSync (files w1) p))
            end
          else finish w1
      | None => finish w1
      end
  | None => finish w1
  end.

Definition pauseDownload (w : World) (downloadId : Z) : World * bool :=
  let '(w1, success) := pauseDownload_body w downloadId in
  (if success then downloadFile_catch w1 downloadId abortError else w1, success).

Definition cancelDownload (w : World) (downloadId : Z) : World * Outcome :=
  let '(w1, outcome) := cancelDownload_body w downloadId in
  (match activeDownloads w !! downloadId with
   | Some _ => downloadFile_catch w1 downloadId abortError
   | None => w1
   end, outcome).

End Control.

(** The disk after a cancel that removed the file. *)
Definition filesAfterCancel (w : World) (i : Z) : gmap string Z :=
  match getDownload (storage w) i with
  | Some d =>
      match filePath d with
      | Some p => if truthy p && existsSync (files w) p
                  then unlinkSync (files w) p else files w
      | None => files w
      end
  | None => files w
  end.

(** The path [cancelDownload] hands to [fs.unlinkSync], if any. *)
Definition unlinked (w : World) (i : Z) : option string :=
  match getDownload (storage w) i with
  | Some d =>
      match filePath d with
      | Some p => if truthy p && existsSync (files w) p then Some p else None
      | None => None
      end
  | None => None
  end.

(** *** downloadFile

    The function runs in two stretches, cut where it waits for the
    network: up to the [fetch] call ([downloadFile]), and from the settled
    [fetch] on ([onResponse]).  [processChunk] is the closure the code
    would hand to every result of a read. *)

Record Request := {
  req_url : option string;
  req_range : option Z          (* [Range: bytes=N-] *)
}.

(** The locals alive across the [fetch]. *)
Record Fetching := {
  fe_downloadId : Z;
  fe_filePath : string;
  fe_download : Download;
  fe_resumePosition : Z;
  fe_request : Request
}.

(** The outcome of [fetch]: a rejection with the error's text, or a
    response.  [content_length] is the header's decimal value. *)
Inductive FetchResult :=
| Rejected (text : string)
| Response (status_code : Z) (statusText : string) (content_length : option Z).

(** The locals alive across the reads. *)
Record Task := {
  t_downloadId : Z;
  t_filePath : string;
  t_totalSize : Z;
  t_downloadedBytes : Z;
  t_lastUpdate : Z;
  t_lastBytes : Z
}.

(** What [reader.read()] settles to, with the clock reading then. *)
Inductive ReadResult :=
| Done (now : Z)
| Chunk (length : Z) (now : Z)
| ReadRejected (name text : string).

Definition downloadFile (w : World) (downloadId : Z) (episode : Episode)
    (filePath : string) : World * option Fetching :=
  match getDownload (storage w) downloadId with
  | None => (downloadFile_catch w downloadId "Error: Download not found", None)
  | Some download =>
      let resumePosition :=
        if String.eqb (status download) "paused" && existsSync (files w) filePath
        then statSync_size (files w) filePath else 0%Z in
      let w1 :=
        setActive w
          (<[downloadId := {| aborted := false; resumePosition := resumePosition;
                              stream := None |}]> (activeDownloads w)) in
      let headers := if (0 <? resumePosition)%Z then Some resumePosition else None in
      (w1, Some {| fe_downloadId := downloadId; fe_filePath := filePath;
                   fe_download := download; fe_resumePosition := resumePosition;
                   fe_request := {| req_url := downloadUrl episode;
                                    req_range := headers |} |})
  end.

(** [!download.totalSize] *)
Definition totalSize_unset (d : Download) : bool :=
  match totalSize d with None => true | Some n => (n =? 0)%Z end.

(** [`${error}`] for what [response.body!.getReader()] throws: the body of
    a [node-fetch] response is a Node stream, which has no [getReader]. *)
Definition getReader_error : string :=
  "TypeError: response.body.getReader is not a function".

(** From the settled [fetch] on.  A response that is taken gets as far as
    the [getReader()] call, which throws into the outer [catch]: no task
    comes out of any response, and the reads below it are never made. *)
Definition onResponse (w : World) (f : Fetching) (r : FetchResult) (now : Z)
  : World * option Task :=
  let downloadId := fe_downloadId f in
  match r with
  | Rejected text => (downloadFile_catch w downloadId text, None)
  | Response status_code statusText content_length =>
      let ok := ((200 <=? status_code) && (status_code <=? 299))%Z in
      if negb ok && negb (status_code =? 206)%Z then
        (downloadFile_catch w downloadId
           ("Error: Failed to download: " ++ string_of_Z status_code ++ " " ++ statusText),
         None)
      else
        let contentLength := match content_length with Some n => n | None => 0%Z end in
        let totalSize := (fe_resumePosition f + contentLength)%Z in
        let w1 :=
          if totalSize_unset (fe_download f)
          then setStorage w (updateDownload (storage w) downloadId [f_totalSize (Some totalSize)])
          else w in
        let w2 :=
          setFiles w1 (createWriteStream (files w1) (fe_filePath f)
                         (0 <? fe_resumePosition f)%Z) in
        let w3 :=
          setActive w2
            (<[downloadId := {| aborted := false;
                                resumePosition := fe_resumePosition f;
                                stream := Some {| ws_path := fe_filePath f;
                                                  ws_closed := false |} |}]>
               (activeDownloads w2)) in
        (downloadFile_catch w3 downloadId getReader_error, None)
  end.

(** [Math.floor((downloadedBytes / totalSize) * 100)] *)
Definition progress_of (downloadedBytes totalSize : Z) : Number :=
  floor (mul (div (of_Z downloadedBytes) (of_Z totalSize)) (of_Z 100)).

(** [Math.floor(bytesDiff / (timeDiff / 1000))] *)
Definition speed_of (bytesDiff timeDiff : Z) : Number :=
  floor (div (of_Z bytesDiff) (div (of_Z timeDiff) (of_Z 1000))).

Definition processChunk (w : World) (t : Task) (r : ReadResult)
  : World * option Task :=
  let downloadId := t_downloadId t in
  match r with
  | Done now =>
      let w1 := setActive w (delete downloadId (activeDownloads w)) in
      (setStorage w1
         (updateDownload (storage w1) downloadId
            [f_status "completed"; f_progress (Some (of_Z 100));
             f_downloadedSize (Some (t_totalSize t)); f_completedAt (Some now);
             f_speed (Some (of_Z 0))]),
       None)
  | Chunk length now =>
      let w1 := setFiles w (write (files w) (t_filePath t) length) in
      let downloadedBytes := (t_downloadedBytes t + length)%Z in
      let progress := progress_of downloadedBytes (t_totalSize t) in
      let timeDiff := (now - t_lastUpdate t)%Z in
      if (1000 <=? timeDiff)%Z then
        let bytesDiff := (downloadedBytes - t_lastBytes t)%Z in
        let speed := speed_of bytesDiff timeDiff in
        (setStorage w1
           (updateDownload (storage w1) downloadId
              [f_progress (Some progress); f_downloadedSize (Some downloadedBytes);
               f_speed (Some speed)]),
         Some {| t_downloadId := downloadId; t_filePath := t_filePath t;
                 t_totalSize := t_totalSize t; t_downloadedBytes := downloadedBytes;
                 t_lastUpdate := now; t_lastBytes := downloadedBytes |})
      else
        (w1, Some {| t_downloadId := downloadId; t_filePath := t_filePath t;
                     t_totalSize := t_totalSize t; t_downloadedBytes := downloadedBytes;
                     t_lastUpdate := t_lastUpdate t; t_lastBytes := t_lastBytes t |})
  | ReadRejected name text =>
      if String.eqb name "AbortError" then
        (setActive w
           (<[downloadId := {| aborted := true;
                               resumePosition := t_downloadedBytes t;
                               stream := None |}]> (activeDownloads w)),
         None)
      else
        let w1 := setActive w (delete downloadId (activeDownloads w)) in
        (setStorage w1
           (updateDownload (storage w1) downloadId
              [f_status "error"; f_error (Some text)]),
         None)
  end.

(** The reads of one response, in order, until one ends the task. *)
Fixpoint readAll (w : World) (t : Task) (rs : list ReadResult)
  : World * option Task :=
  match rs with
  | [] => (w, Some t)
  | r :: rest =>
      match processChunk w t r with
      | (w', Some t') => readAll w' t' rest
      | (w', None) => (w', None)
      end
  end.

(** *** resumeDownload

    The third component is the [downloadFile] the call leaves in flight. *)
Definition resumeDownload (w : World) (downloadId : Z)
  : World * bool * option Fetching :=
  match getDownload (storage w) downloadId with
  | None => (w, false, None)
  | Some download =>
      if negb (String.eqb (status download) "paused") then (w, false, None)
      else
        match getEpisode (storage w) (episodeId download) with
        | None => (w, false, None)
        | Some episode =>
            if negb (opt_truthy (downloadUrl episode)) then (w, false, None)
            else
              let w1 :=
                setStorage w
                  (updateDownload (storage w) downloadId [f_status "downloading"]) in
              let '(w2, f) :=
                downloadFile w1 downloadId episode
                  (or_else (match filePath download with Some p => p | None => EmptyString end)
                           EmptyString) in
              (w2, true, f)
        end
  end.

(** *** startDownload

    [path.join] and the working directory are the platform's.  The two
    [ensureDirectoryExists] calls make directories only; the world holds the
    regular files, which they leave alone. *)
Section Start.

Variable path_join : list string -> string.
Variable cwd : string.

Definition downloadsDirectory : string := path_join [cwd; "downloads"].

(** [n || fallback] on an optional number. *)
Definition num_or (n : option Z) (fallback : Z) : Z :=
  match n with
  | Some z => if (z =? 0)%Z then fallback else z
  | None => fallback
  end.

(** The [catch] of [startDownload]. *)
Definition startDownload_catch (w : World) (downloadId : Z) (text : string) : World :=
  setStorage w
    (updateDownload (storage w) downloadId [f_status "error"; f_error (Some text)]).

(** [downloads/series-name/season-x/episode-X.mp4] *)
Definition destination (series : Series) (episode : Episode) : string :=
  let seriesDir := path_join [downloadsDirectory; sanitizePathName (s_title series)] in
  let seasonDir := path_join [seriesDir; "season-" ++ string_of_Z (num_or (season episode) 1)] in
  let fileName := "episode-" ++ string_of_Z (num_or (episodeNumber episode) 0) ++ ".mp4" in
  path_join [seasonDir; fileName].

Definition startDownload (w : World) (downloadId : Z) (now : Z)
  : World * option Fetching :=
  match getDownload (storage w) downloadId with
  | None =>
      (startDownload_catch w downloadId
         ("Error: Download with ID " ++ string_of_Z downloadId ++ " not found"), None)
  | Some download =>
      match getEpisode (storage w) (episodeId download) with
      | None =>
          (startDownload_catch w downloadId
             ("Error: Episode with ID " ++ string_of_Z (episodeId download) ++ " not found"),
           None)
      | Some episode =>
          if negb (opt_truthy (downloadUrl episode)) then
            (startDownload_catch w downloadId
               ("Error: No download URL for episode with ID "
                ++ string_of_Z (episodeId download)), None)
          else
            match getSeries (storage w) (seriesId episode) with
            | None =>
                (startDownload_catch w downloadId
                   ("Error: Series with ID " ++ string_of_Z (seriesId episode)
                    ++ " not found"), None)
            | Some series =>
                let filePath := destination series episode in
                let w1 :=
                  setStorage w
                    (updateDownload (storage w) downloadId
                       [f_filePath (Some filePath); f_status "downloading";
                        f_startedAt (Some now)]) in
                downloadFile w1 downloadId episode filePath
            end
      end
  end.

End Start.

(** A whole response: from the [fetch] to the last read given. *)
Definition respond (w : World) (f : Fetching) (r : FetchResult) (now : Z)
    (rs : list ReadResult) : World * option Task :=
  match onResponse w f r now with
  | (w', Some t) => readAll w' t rs
  | (w', None) => (w', None)
  end.

(** The text stored as [error] when a fetch fails: the rejection's own,
    or the one built from the status line. *)
Definition failureText (r : FetchResult) : string :=
  match r with
  | Rejected text => text
  | Response status_code statusText _ =>
      "Error: Failed to download: " ++ string_of_Z status_code ++ " " ++ statusText
  end.

(** *** Runs of the engine

    What the routes and the network do to the engine, as events: a record
    is created, a download is started (by a route or by a timer), resumed,
    paused or cancelled, and a pending [fetch] settles.  [pending] lists the
    fetches that have not settled, oldest first. *)

Record Engine := { world : World; pending : list Fetching }.

(** [Settle k r now rs]: pending fetch [k] settles to [r]; [rs] is what
    the reads of the body would deliver. *)
Inductive Event :=
| Create (insertDownload : InsertDownload) (now : Date)
| Start (downloadId : Z) (now : Z)
| Resume (downloadId : Z)
| Pause (downloadId : Z)
| Cancel (downloadId : Z)
| Settle (k : nat) (r : FetchResult) (now : Z) (rs : list ReadResult).

Definition issued (f : option Fetching) : list Fetching :=
  match f with Some f => [f] | None => [] end.

(** The fetch a handle aborts is the last one issued for its id. *)
Fixpoint abortLast (downloadId : Z) (fs : list Fetching) : list Fetching :=
  match fs with
  | [] => []
  | f :: rest =>
      if existsb (fun g => (fe_downloadId g =? downloadId)%Z) rest
      then f :: abortLast downloadId rest
      else if (fe_downloadId f =? downloadId)%Z then rest else f :: rest
  end.

Section Run.

Variable path_join : list string -> string.
Variable cwd : string.
Variable abortError : string.
Variable unlinkSync_error : string -> option string.

Definition exec (s : Engine) (ev : Event) : Engine :=
  match ev with
  | Create insertDownload now =>
      {| world :=
           {| storage := fst (createDownload (storage (world s)) insertDownload now);
              activeDownloads := activeDownloads (world s);
              files := files (world s) |};
         pending := pending s |}
  | Start downloadId now =>
      let '(w, f) := startDownload path_join cwd (world s) downloadId now in
      {| world := w; pending := (pending s ++ issued f)%list |}
  | Resume downloadId =>
      let '(w, _, f) := resumeDownload (world s) downloadId in
      {| world := w; pending := (pending s ++ issued f)%list |}
  | Pause downloadId =>
      let '(w, success) := pauseDownload abortError (world s) downloadId in
      {| world := w;
         pending := if success then abortLast downloadId (pending s) else pending s |}
  | Cancel downloadId =>
      let '(w, _) := cancelDownload abortError unlinkSync_error (world s) downloadId in
      {| world := w;
         pending := match activeDownloads (world s) !! downloadId with
                    | Some _ => abortLast downloadId (pending s)
                    | None => pending s
                    end |}
  | Settle k r now rs =>
      match pending s !! k with
      | Some f => {| world := fst (respond (world s) f r now rs);
                     pending := delete k (pending s) |}
      | None => s
      end
  end.

Definition run (s : Engine) (events : list Event) : Engine :=
  fold_left exec events s.

End Run.

(** An engine that has not been asked anything: a store without
    downloads, no handle, no pending fetch. *)
Definition idle (st : MemStorage) (fs : gmap string Z) : Engine :=
  {| world := {| storage := st; activeDownloads := ∅; files := fs |};
     pending := [] |}.

(** The content-length a response announces is not negative. *)
Definition sane (ev : Event) : Prop :=
  match ev with
  | Settle _ (Response _ _ (Some n)) _ _ => (0 <= n)%Z
  | _ => True
  end.

(** No byte of the download has been stored, and it is neither paused nor
    completed. *)
Definition untouched (d : Download) : Prop :=
  downloadedSize d = Some 0%Z /\ progress d = Some (of_Z 0) /\
  (forall T, totalSize d = Some T -> (0 <= T)%Z) /\
  In (status d) ["queued"; "downloading"; "cancelled"; "error"].

(** The fetch asks for the whole media: it goes by offset 0 and carries no
    Range header. *)
Definition whole (f : Fetching) : Prop :=
  fe_resumePosition f = 0%Z /\ req_range (fe_request f) = None.

(** Every stored download is untouched, and every pending fetch asks for
    the whole media. *)
Definition steady (s : Engine) : Prop :=
  (forall i d, getDownload (storage (world s)) i = Some d -> untouched d) /\
  Forall whole (pending s).

End Downloader.

(* ===================================================================== *)
(** ** POST /api/downloads, series branch (server/routes.ts) *)
(* ===================================================================== *)

Module Routes.
Import JsString JsNumber Storage.

Inductive Reply :=
| NotFound (message : string)
| Json (downloads : list Download).

(** A [setTimeout(() => downloader.startDownload(id), delay)]. *)
Record Timer := { delay : Z; start : Z }.

Section SeriesDownload.

(** The platform and the network, as the handler sees them: the URL
    parser, the page fetch and the page parser ([None] when the call
    throws), and [path.join]. *)
Variable URL_parses : string -> bool.
Variable getSourceHtml : string -> option string.
Variable parseEpisodePage : string -> option string.
Variable path_join : list string -> string.

(** A number or [null] inside a template literal. *)
Definition show (n : option Z) : string :=
  match n with Some z => Downloader.string_of_Z z | None => "null" end.

Definition with_downloadUrl (episode : Episode) (u : string) : Episode :=
  {| e_id := e_id episode; seriesId := seriesId episode; title := title episode;
     episodeNumber := episodeNumber episode; season := season episode;
     duration := duration episode; sourceUrl := sourceUrl episode;
     downloadUrl := Some u; e_createdAt := e_createdAt episode |}.

(** The body of [if (!episode.downloadUrl) { try { ... } catch { continue } }]:
    [None] is the [continue] of the [catch]. *)
Definition ensureDownloadUrl (st : MemStorage) (episode : Episode)
  : option (MemStorage * Episode) :=
  if negb (Downloader.opt_truthy (downloadUrl episode)) then
    match getSourceHtml (sourceUrl episode) with
    | None => None
    | Some html =>
        match parseEpisodePage html with
        | None => None
        | Some downloadUrl =>
            if truthy downloadUrl && Scraper.isValidVideoUrl URL_parses downloadUrl
            then Some (fst (updateEpisode_downloadUrl st (e_id episode) downloadUrl),
                       with_downloadUrl episode downloadUrl)
            else Some (st, episode)
        end
    end
  else Some (st, episode).

Definition seriesFilePath (downloadPath : option string) (episode : Episode)
  : option string :=
  match downloadPath with
  | Some p =>
      if truthy p
      then Some (path_join [p; "season-" ++ show (season episode);
                            "episode-" ++ show (episodeNumber episode) ++ ".mp4"])
      else None
  | None => None
  end.

Definition queued (episode : Episode) (fp : option string) : InsertDownload :=
  {| i_episodeId := e_id episode; i_status := Some "queued";
     i_progress := None; i_totalSize := None; i_downloadedSize := None;
     i_speed := None; i_filePath := fp; i_error := None;
     i_startedAt := None; i_completedAt := None |}.

(** [for (const episode of episodes) { ... }] *)
Fixpoint seriesLoop (st : MemStorage) (downloadPath : option string) (now : Date)
    (episodes : list Episode) (downloads : list Download) (timers : list Timer)
  : MemStorage * list Download * list Timer :=
  match episodes with
  | [] => (st, downloads, timers)
  | episode :: rest =>
      match ensureDownloadUrl st episode with
      | None => seriesLoop st downloadPath now rest downloads timers
      | Some (st1, episode1) =>
          if Downloader.opt_truthy (downloadUrl episode1) then
            let '(st2, download) :=
              createDownload st1 (queued episode1 (seriesFilePath downloadPath episode1)) now in
            let downloads' := (downloads ++ [download])%list in
            seriesLoop st2 downloadPath now rest downloads'
              (timers ++ [{| delay := Z.of_nat (List.length downloads') * 500;
                             start := id download |}])%list
          else seriesLoop st1 downloadPath now rest downloads timers
      end
  end.

Definition downloadSeries (st : MemStorage) (sid : Z) (downloadPath : option string)
    (now : Date) : MemStorage * Reply * list Timer :=
  match getSeries st sid with
  | None => (st, NotFound "Series not found", [])
  | Some series =>
      let episodes := getEpisodesBySeriesId st (s_id series) in
      match episodes with
      | [] => (st, NotFound "No episodes found for this series", [])
      | _ =>
          let '(st', downloads, timers) :=
            seriesLoop st downloadPath now episodes [] [] in
          (st', Json downloads, timers)
      end
  end.

(** An episode the loop skips because fetching or parsing threw. *)
Definition resolutionFails (episode : Episode) : bool :=
  negb (Downloader.opt_truthy (downloadUrl episode)) &&
  match getSourceHtml (sourceUrl episode) with
  | None => true
  | Some html => match parseEpisodePage html with None => true | Some _ => false end
  end.

(** An episode that has a media URL, or obtains a valid one. *)
Definition hasOrObtainsUrl (episode : Episode) : bool :=
  Downloader.opt_truthy (downloadUrl episode) ||
  match getSourceHtml (sourceUrl episode) with
  | None => false
  | Some html =>
      match parseEpisodePage html with
      | None => false
      | Some u => truthy u && Scraper.isValidVideoUrl URL_parses u
      end
  end.

End SeriesDownload.

(** The downloads made so far are stored, under ids below the counter. *)
Definition stored (st : MemStorage) (ds : list Download) : Prop :=
  Forall (fun d => (id d < downloadCurrentId st)%Z /\
                   status d = "queued" /\
                   getDownload st (id d) = Some d) ds.

(** Timer [k] (from 1) starts download [k] after [k * 500] ms. *)
Definition staggered (ds : list Download) (ts : list Timer) : Prop :=
  List.map start ts = List.map id ds /\
  List.map delay ts =
  List.map (fun k => (Z.of_nat k * 500)%Z) (seq 1 (List.length ds)).

(** *** POST /api/downloads, episode branch *)

Inductive EpisodeReply :=
| EpisodeNotFound                       (* 404 "Episode not found" *)
| EpisodeBadRequest (message : string)  (* 400 *)
| EpisodeServerError                    (* 500, from the outer [catch] *)
| EpisodeJson (download : Download).

Section EpisodeDownload.

Variable getSourceHtml : string -> option string.
Variable parseEpisodePage : string -> option string.
Variable path_join : list string -> string.

Definition episodeFilePath (downloadPath : option string) (episode : Episode)
  : option string :=
  match downloadPath with
  | Some p =>
      if truthy p
      then Some (path_join [p; "episode-" ++ show (episodeNumber episode) ++ ".mp4"])
      else None
  | None => None
  end.

(** The third component lists the ids handed to [downloader.startDownload]. *)
Definition downloadEpisode (st : MemStorage) (i : Z) (downloadPath : option string)
    (now : Date) : MemStorage * EpisodeReply * list Z :=
  match getEpisode st i with
  | None => (st, EpisodeNotFound, [])
  | Some episode =>
      let resolved : option (option (MemStorage * Episode)) :=
        if negb (Downloader.opt_truthy (downloadUrl episode)) then
          match getSourceHtml (sourceUrl episode) with
          | None => None
          | Some html =>
              match parseEpisodePage html with
              | None => None
              | Some downloadUrl =>
                  if negb (truthy downloadUrl) then Some None
                  else Some (Some (fst (updateEpisode_downloadUrl st (e_id episode) downloadUrl),
                                   with_downloadUrl episode downloadUrl))
              end
          end
        else Some (Some (st, episode)) in
      match resolved with
      | None => (st, EpisodeServerError, [])
      | Some None =>
          (st, EpisodeBadRequest "Could not extract download URL for this episode", [])
      | Some (Some (st1, episode1)) =>
          let '(st2, download) :=
            createDownload st1 (queued episode1 (episodeFilePath downloadPath episode1)) now in
          (st2, EpisodeJson download, [id download])
      end
  end.

End EpisodeDownload.

(** *** POST /api/downloads/control *)

Inductive Action := pause | resume | cancel.

Definition action_name (a : Action) : string :=
  match a with pause => "pause" | resume => "resume" | cancel => "cancel" end.

Inductive ControlReply :=
| ControlNotFound                          (* 404 "Download not found" *)
| ControlJson (download : option Download)
| ControlBadRequest (message : string)     (* 400 *)
| ControlServerError (message : string).   (* 500, from the [catch] *)

Section Control.

Variable abortError : string.
Variable unlinkSync_error : string -> option string.

(** The third component is the [downloadFile] a resume leaves in flight. *)
Definition controlDownload (w : Downloader.World) (downloadId : Z) (action : Action)
  : Downloader.World * ControlReply * option Downloader.Fetching :=
  match getDownload (Downloader.storage w) downloadId with
  | None => (w, ControlNotFound, None)
  | Some _ =>
      let '(w', outcome, f) :=
        match action with
        | pause =>
            let '(w', b) := Downloader.pauseDownload abortError w downloadId in
            (w', Downloader.Returned b, None)
        | resume =>
            let '(w', b, f) := Downloader.resumeDownload w downloadId in
            (w', Downloader.Returned b, f)
        | cancel =>
            let '(w', o) :=
              Downloader.cancelDownload abortError unlinkSync_error w downloadId in
            (w', o, None)
        end in
      match outcome with
      | Downloader.Returned true =>
          (w', ControlJson (getDownload (Downloader.storage w') downloadId), f)
      | Downloader.Returned false =>
          (w', ControlBadRequest
                 ("Could not " ++ action_name action ++ " download "
                  ++ Downloader.string_of_Z downloadId), f)
      | Downloader.Threw message =>
          (w', ControlServerError ("Error controlling download: " ++ message), f)
      end
  end.

End Control.

End Routes.

(* ===================================================================== *)
(** ** The scraper: the episode list of a series page *)
(* ===================================================================== *)

Module EpisodeList.
Import JsString Storage.

(** An anchor element as the parser reads it: [$(el).text()] and
    [$(el).attr('href')]. *)
Record Anchor := { a_text : string; a_href : option string }.

(** [$(el).attr('href') || ''] *)
Definition href (a : Anchor) : string :=
  match a_href a with Some h => h | None => EmptyString end.

Fixpoint trimStart (s : string) : string :=
  match s with
  | EmptyString => EmptyString
  | String c r => if is_space c then trimStart r else s
  end.

Fixpoint trimEnd (s : string) : string :=
  match s with
  | EmptyString => EmptyString
  | String c r =>
      match trimEnd r with
      | EmptyString => if is_space c then EmptyString else String c EmptyString
      | r' => String c r'
      end
  end.

(** [String.prototype.trim] *)
Definition trim (s : string) : string := trimEnd (trimStart s).

(** The string does not start with whitespace. *)
Definition head_kept (s : string) : Prop :=
  match s with String c _ => is_space c = false | EmptyString => True end.

Definition is_digit (c : ascii) : bool :=
  let n := N_of_ascii c in ((48 <=? n) && (n <=? 57))%N.

(** The longest prefix of code units satisfying [p], and the rest. *)
Fixpoint span (p : ascii -> bool) (s : string) : string * string :=
  match s with
  | EmptyString => (EmptyString, EmptyString)
  | String c r =>
      if p c then let '(a, b) := span p r in (String c a, b)
      else (EmptyString, s)
  end.

(** What is left of [s] after the word [kw], letters compared without
    case (the [i] flag). *)
Fixpoint after_ci (kw s : string) : option string :=
  match kw, s with
  | EmptyString, _ => Some s
  | String _ _, EmptyString => None
  | String a kw', String b s' =>
      if Ascii.eqb (lower_char a) (lower_char b) then after_ci kw' s' else None
  end.

(** The leftmost position at which [here] matches. *)
Fixpoint search {A} (here : string -> option A) (s : string) : option A :=
  match here s with
  | Some x => Some x
  | None =>
      match s with
      | EmptyString => None
      | String _ r => search here r
      end
  end.

(** [kw sep* (\d+)] at the head of [s]: the captured digits. *)
Definition word_number_at (kw : string) (sep : ascii -> bool) (s : string)
  : option string :=
  match after_ci kw s with
  | None => None
  | Some rest =>
      let digits := fst (span is_digit (snd (span sep rest))) in
      if truthy digits then Some digits else None
  end.

(** [/episode\s*(\d+)/i] and [/season\s*(\d+)/i] *)
Definition match_spaced (kw s : string) : option string :=
  search (word_number_at kw is_space) s.

(** [/episode[^0-9]*(\d+)/i] and [/season[^0-9]*(\d+)/i] *)
Definition match_loose (kw s : string) : option string :=
  search (word_number_at kw (fun c => negb (is_digit c))) s.

(** [/-(\d+)-english/i] *)
Definition match_english (s : string) : option string :=
  search (fun t =>
            match t with
            | String "-" r =>
                let '(digits, rest) := span is_digit r in
                if truthy digits
                then match after_ci "-english" rest with
                     | Some _ => Some digits
                     | None => None
                     end
                else None
            | _ => None
            end) s.

(** [parseInt] of a run of decimal digits, from the value read so far, as the
    integer the digits denote (which the platform holds exactly up to 2^53). *)
Fixpoint parseInt_from (acc : Z) (digits : string) : Z :=
  match digits with
  | EmptyString => acc
  | String c r => parseInt_from (acc * 10 + (Z.of_N (N_of_ascii c) - 48))%Z r
  end.

Definition parseInt (digits : string) : Z := parseInt_from 0%Z digits.

Definition first_of {A} (a b : option A) : option A :=
  match a with Some _ => a | None => b end.

(** The fourth selection: links that look like episodes. *)
Definition looksLikeEpisode (a : Anchor) : bool :=
  let href := href a in
  let text := toLowerCase (trim (a_text a)) in
  (includes href "wcofun.net" || startsWith href "/") &&
  (includes href "episode" || includes href "-episode-" || includes text "episode" ||
   (includes href "dubbed" || includes href "subbed")).

(** The last resort. *)
Definition looksLikeSiteLink (a : Anchor) : bool :=
  let href := href a in
  includes href "wcofun.net" ||
  (startsWith href "/" &&
   (includes href "-episode-" || includes href "-english-" ||
    includes href "dubbed" || includes href "subbed")).

Definition nonempty {A} (l : list A) : bool :=
  match l with [] => false | _ => true end.

(** The anchors the parser settles on.  [listing], [catlist] and [cateps]
    are what the selectors [.listing a], [#catlist-listview a] and
    [.cat-eps a] select, [all] is every anchor of the page. *)
Definition episodeElements (listing catlist cateps all : list Anchor) : list Anchor :=
  if nonempty listing then listing
  else if nonempty catlist then catlist
  else if nonempty cateps then cateps
  else if nonempty (List.filter looksLikeEpisode all) then List.filter looksLikeEpisode all
  else List.filter looksLikeSiteLink all.

Definition fullUrl (sourceUrl : string) : string :=
  if startsWith sourceUrl "http" then sourceUrl
  else "https://www.wcofun.net"
       ++ (if startsWith sourceUrl "/" then EmptyString else "/") ++ sourceUrl.

Definition episodeOf (seriesId : Z) (index : Z) (a : Anchor) : InsertEpisode :=
  let title := trim (a_text a) in
  let sourceUrl := href a in
  let episodeMatch :=
    first_of (match_spaced "episode" title)
      (first_of (match_loose "episode" sourceUrl) (match_english sourceUrl)) in
  let seasonMatch :=
    first_of (match_spaced "season" title) (match_loose "season" sourceUrl) in
  let episodeNumber :=
    match episodeMatch with Some d => parseInt d | None => (index + 1)%Z end in
  let season := match seasonMatch with Some d => parseInt d | None => 1%Z end in
  {| ie_seriesId := seriesId;
     ie_title := or_else title ("Episode " ++ Downloader.string_of_Z episodeNumber);
     ie_episodeNumber := Some episodeNumber;
     ie_season := Some season;
     ie_duration := Some EmptyString;
     ie_sourceUrl := fullUrl sourceUrl;
     ie_downloadUrl := Some EmptyString |}.

(** [episodeElements.each((index, element) => { ... })] *)
Fixpoint collect (seriesId : Z) (index : Z) (elements : list Anchor)
    (episodes : list InsertEpisode) : list InsertEpisode :=
  match elements with
  | [] => episodes
  | a :: rest =>
      if negb (truthy (href a)) then collect seriesId (index + 1) rest episodes
      else if existsb (fun e => String.eqb (ie_sourceUrl e) (fullUrl (href a))) episodes
      then collect seriesId (index + 1) rest episodes
      else collect seriesId (index + 1) rest
             (episodes ++ [episodeOf seriesId index a])%list
  end.

Definition parseEpisodeList (listing catlist cateps all : list Anchor) (seriesId : Z)
  : list InsertEpisode :=
  collect seriesId 0 (episodeElements listing catlist cateps all) [].

End EpisodeList.

(* ===================================================================== *)
(** ** The upload service (server/services/rclone.ts) *)
(* ===================================================================== *)

Module Rclone.
Import JsString Storage Downloader.

Section Commands.

(** The system outside the process: its state, and what running a command
    line does to it; [None] is a call that throws, otherwise the output
    and the error output. *)
Variable System : Type.
Variable exec : System -> string -> System * option (string * string).
Variable path_basename : string -> string.

Definition quote : string := String (ascii_of_N 34) EmptyString.

Definition copyCommand (localFilePath fullRemotePath : string) : string :=
  "rclone copy " ++ quote ++ localFilePath ++ quote ++ " "
  ++ quote ++ fullRemotePath ++ quote ++ " --progress".

Definition isRcloneAvailable (sys : System) : System * bool :=
  match exec sys "rclone version" with
  | (sys', Some (stdout, _)) => (sys', includes stdout "rclone")
  | (sys', None) => (sys', false)
  end.

Definition newline : ascii := ascii_of_N 10.

Definition getRemotes (sys : System) : System * list string :=
  match exec sys "rclone listremotes" with
  | (sys', Some (stdout, _)) =>
      (sys', List.filter (fun line => (0 <? String.length line)%nat)
               (List.map EpisodeList.trim (split newline stdout)))
  | (sys', None) => (sys', [])
  end.

Definition uploadFile (w : World) (sys : System) (downloadId : Z) (remotePath : string)
  : World * System * bool :=
  match getDownload (storage w) downloadId with
  | None => (w, sys, false)
  | Some download =>
      if negb (String.eqb (status download) "completed")
         || negb (opt_truthy (filePath download))
      then (w, sys, false)
      else
        let localFilePath :=
          match filePath download with Some p => p | None => EmptyString end in
        if negb (existsSync (files w) localFilePath) then (w, sys, false)
        else
          let fileName := path_basename localFilePath in
          let fullRemotePath := remotePath ++ "/" ++ fileName in
          match exec sys (copyCommand localFilePath fullRemotePath) with
          | (sys', None) => (w, sys', false)
          | (sys', Some (stdout, stderr)) =>
              if truthy stderr && negb (includes stderr "Transferred:")
              then (w, sys', false)
              else (setStorage w
                      (updateDownload (storage w) downloadId [f_status "uploaded"]),
                    sys', true)
          end
  end.

(** [results] is the object the loop fills, keyed by download id. *)
Fixpoint uploadMultipleFiles_from (w : World) (sys : System) (downloadIds : list Z)
    (remotePath : string) (results : gmap Z bool) : World * System * gmap Z bool :=
  match downloadIds with
  | [] => (w, sys, results)
  | downloadId :: rest =>
      let '(w', sys', ok) := uploadFile w sys downloadId remotePath in
      uploadMultipleFiles_from w' sys' rest remotePath (<[downloadId := ok]> results)
  end.

Definition uploadMultipleFiles (w : World) (sys : System) (downloadIds : list Z)
    (remotePath : string) : World * System * gmap Z bool :=
  uploadMultipleFiles_from w sys downloadIds remotePath ∅.

End Commands.

(** No stored record of [i] is "completed". *)
Definition not_completed (w : World) (i : Z) : Prop :=
  forall d, getDownload (storage w) i = Some d -> status d <> "completed".

End Rclone.

(* ===================================================================== *)
(** ** The series page (Scraper.parseSeriesInfo) *)
(* ===================================================================== *)

Module SeriesInfo.
Import JsString Storage EpisodeList.

(** What the parser reads off the loaded page: the text of three
    selections, attribute values (absent when no element matches or the
    attribute is missing) and the selected anchors. *)
Record Page := {
  videoTitle : string;              (* $('.video-title').text() *)
  h1Title : string;                 (* $('h1.title').text() *)
  titleTag : string;                (* $('title').text() *)
  metaDescription : option string;  (* $('meta[name="description"]').attr('content') *)
  contentParagraphs : string;       (* $('.content-padding p').text() *)
  desc : string;                    (* $('.desc').text() *)
  listing : list Anchor;            (* $('.listing a') *)
  catlist : list Anchor;            (* $('#catlist-listview a') *)
  catEps : list Anchor;             (* $('.cat-eps a') *)
  allAnchors : list Anchor;         (* $('a') *)
  imgResponsive : option string;    (* $('.img-responsive').attr('src') *)
  thumbImg : option string;         (* $('.thumb img').attr('src') *)
  ogImage : option string           (* $('meta[property="og:image"]').attr('content') *)
}.

(** [attr(name) || ''] *)
Definition attr_or_empty (o : option string) : string :=
  match o with Some s => s | None => EmptyString end.

(** What is left of [s] after the prefix [p]. *)
Fixpoint after_prefix (p s : string) : option string :=
  match p, s with
  | EmptyString, _ => Some s
  | String _ _, EmptyString => None
  | String a p', String b s' => if Ascii.eqb a b then after_prefix p' s' else None
  end.

(** [s.replace(p, '')] for a string pattern: the first occurrence goes. *)
Fixpoint remove_first (p s : string) : string :=
  match after_prefix p s with
  | Some rest => rest
  | None =>
      match s with
      | EmptyString => EmptyString
      | String c r => String c (remove_first p r)
      end
  end.

(** [\w] *)
Definition is_word (c : ascii) : bool :=
  let n := N_of_ascii c in
  (((48 <=? n) && (n <=? 57)) || ((65 <=? n) && (n <=? 90)) || (n =? 95) ||
   ((97 <=? n) && (n <=? 122)))%N.

(** [c.toUpperCase()] on a code unit matched by [\w]. *)
Definition upper_char (c : ascii) : ascii :=
  let n := N_of_ascii c in
  if ((97 <=? n) && (n <=? 122))%N then ascii_of_N (n - 32) else c.

(** [s.replace(/\b\w/g, c => c.toUpperCase())]; [after_word] tells that the
    previous code unit was a word character. *)
Fixpoint capitalize (after_word : bool) (s : string) : string :=
  match s with
  | EmptyString => EmptyString
  | String c r =>
      String (if is_word c && negb after_word then upper_char c else c)
             (capitalize (is_word c) r)
  end.

Definition titleFromUrl (sourceUrl : string) : string :=
  let urlParts := split "/" sourceUrl in
  let lastPart := List.last urlParts EmptyString in
  capitalize false (map_chars (fun c => if Ascii.eqb c "-" then " "%char else c) lastPart).

Definition watchOrVideo (a : Anchor) : bool :=
  includes (href a) "/watch/" || includes (href a) "/video/".

Definition countEpisodes (p : Page) : Z :=
  let totalEpisodes := Z.of_nat (length (listing p)) in
  let totalEpisodes :=
    if (totalEpisodes =? 0)%Z then Z.of_nat (length (catlist p)) else totalEpisodes in
  let totalEpisodes :=
    if (totalEpisodes =? 0)%Z then Z.of_nat (length (catEps p)) else totalEpisodes in
  if (totalEpisodes =? 0)%Z
  then Z.of_nat (length (List.filter watchOrVideo (allAnchors p)))
  else totalEpisodes.

Definition parseSeriesInfo (p : Page) (sourceUrl : string) : InsertSeries :=
  let title := trim (videoTitle p) in
  let title := if truthy title then title else trim (h1Title p) in
  let title :=
    if truthy title then title
    else remove_first "Watch " (remove_first " | WCO" (trim (titleTag p))) in
  let title := if truthy title then title else titleFromUrl sourceUrl in
  let description := attr_or_empty (metaDescription p) in
  let description :=
    if truthy description then description else trim (contentParagraphs p) in
  let description := if truthy description then description else trim (desc p) in
  let imageUrl := attr_or_empty (imgResponsive p) in
  let imageUrl := if truthy imageUrl then imageUrl else attr_or_empty (thumbImg p) in
  let imageUrl := if truthy imageUrl then imageUrl else attr_or_empty (ogImage p) in
  {| is_title := title;
     is_description := Some description;
     is_totalEpisodes := Some (countEpisodes p);
     is_imageUrl := Some imageUrl;
     is_sourceUrl := sourceUrl |}.

End SeriesInfo.

(* ===================================================================== *)
(** ** Worked inputs *)
(* ===================================================================== *)

(** Download 7, of episode 3. *)

Module Scenario.
Import JsString JsNumber Storage Downloader.

Definition path : string := "downloads/foo/season-1/episode-1.mp4".

Definition episode : Episode :=
  {| e_id := 3; seriesId := 1; title := "Foo Episode 1";
     episodeNumber := Some 1%Z; season := Some 1%Z; duration := None;
     sourceUrl := "https://site/watch/foo-episode-1";
     downloadUrl := Some "https://cdn.example.com/video/ep1.mp4";
     e_createdAt := Some 0%Z |}.

(** Download 7 as [startDownload] leaves it when it calls [downloadFile]:
    the path is set and the status is "downloading". *)
Definition download : Download :=
  {| id := 7; episodeId := 3; status := "downloading";
     progress := Some (of_Z 0); totalSize := None; downloadedSize := Some 0%Z;
     speed := None; filePath := Some path; error := None;
     startedAt := Some 0%Z; completedAt := None; createdAt := Some 0%Z |}.

Definition holding (d : Download) (fs : gmap string Z) : World :=
  {| storage := {| seriesMap := ∅; episodesMap := {[ 3%Z := episode ]};
                   downloadsMap := {[ 7%Z := d ]};
                   seriesCurrentId := 2; episodeCurrentId := 4;
                   downloadCurrentId := 8 |};
     activeDownloads := ∅;
     files := fs |}.

Definition started : World :=
  {| storage := {| seriesMap := ∅; episodesMap := {[ 3%Z := episode ]};
                   downloadsMap := {[ 7%Z := download ]};
                   seriesCurrentId := 2; episodeCurrentId := 4;
                   downloadCurrentId := 8 |};
     activeDownloads := ∅;
     files := ∅ |}.

(** A store that holds download 7 as "paused", with 400 bytes of the
    media in the file at its path. *)
Definition paused : World :=
  holding (spread download [f_status "paused"; f_totalSize (Some 1000%Z);
                            f_progress (Some (of_Z 40));
                            f_downloadedSize (Some 400%Z)])
          {[ path := 400%Z ]}.

Definition resumed : World * bool * option Fetching := resumeDownload paused 7.

(** A store that holds download 7 as "completed", with the 1000 bytes of
    the media in the file at its path. *)
Definition finished : World :=
  holding (spread download [f_status "completed"; f_totalSize (Some 1000%Z);
                            f_progress (Some (of_Z 100));
                            f_downloadedSize (Some 1000%Z);
                            f_completedAt (Some 6100%Z)])
          {[ path := 1000%Z ]}.

End Scenario.

Module ControlExample.
Import JsNumber Storage Downloader.

(** Download 7 with its request in flight. *)
Definition inFlight : World :=
  fst (downloadFile Scenario.started 7 Scenario.episode Scenario.path).

End ControlExample.

Module CreateExample.
Import JsNumber Storage.

Definition empty : MemStorage :=
  {| seriesMap := ∅; episodesMap := ∅; downloadsMap := ∅;
     seriesCurrentId := 1; episodeCurrentId := 1; downloadCurrentId := 1 |}.

(** What the routes pass. *)
Definition asked : InsertDownload :=
  {| i_episodeId := 5; i_status := Some "queued"; i_progress := None;
     i_totalSize := None; i_downloadedSize := None; i_speed := None;
     i_filePath := Some "videos/episode-2.mp4"; i_error := None;
     i_startedAt := None; i_completedAt := None |}.

(** The same episode and path, with every other field filled in. *)
Definition loaded : InsertDownload :=
  {| i_episodeId := 5; i_status := Some "completed"; i_progress := Some (of_Z 100);
     i_totalSize := Some 900%Z; i_downloadedSize := Some 900%Z;
     i_speed := Some (of_Z 12); i_filePath := Some "videos/episode-2.mp4";
     i_error := Some "boom"; i_startedAt := Some 3%Z; i_completedAt := Some 4%Z |}.
End CreateExample.

Module BatchExample.
Import JsString JsNumber Storage Routes.

Definition show1 : Series :=
  {| s_id := 1; s_title := "Foo"; s_description := None; s_totalEpisodes := Some 3%Z;
     s_imageUrl := None; s_sourceUrl := "https://site/cartoon/foo";
     s_createdAt := Some 0%Z |}.

Definition ep (i : Z) (source : string) (media : option string) : Episode :=
  {| e_id := i; seriesId := 1; title := "Foo"; episodeNumber := Some i;
     season := Some 1%Z; duration := None; sourceUrl := source;
     downloadUrl := media; e_createdAt := Some 0%Z |}.

(** Episode 1 has its media URL, the pages of episodes 2 and 3 have to be
    fetched. *)
Definition store : MemStorage :=
  {| seriesMap := {[ 1%Z := show1 ]};
     episodesMap :=
       {[ 1%Z := ep 1 "https://site/watch/foo-episode-1"
                    (Some "https://cdn.example.com/video/ep1.mp4");
          2%Z := ep 2 "https://site/watch/foo-episode-2" None;
          3%Z := ep 3 "https://site/watch/foo-episode-3" None ]};
     downloadsMap := ∅;
     seriesCurrentId := 2; episodeCurrentId := 4; downloadCurrentId := 1 |}.

(** The fetch of episode 2's page throws; episode 3's page comes back. *)
Definition fetch (u : string) : option string :=
  if String.eqb u "https://site/watch/foo-episode-3" then Some "<html>3</html>"
  else None.

Definition parse (html : string) : option string :=
  if String.eqb html "<html>3</html>" then Some "https://cdn.example.com/video/ep3.mp4"
  else Some EmptyString.

Definition join (parts : list string) : string := String.concat "/" parts.

End BatchExample.

Module StoreExample.
Import Storage.

Definition foo : InsertSeries :=
  {| is_title := "Foo"; is_description := Some EmptyString;
     is_totalEpisodes := Some 0%Z; is_imageUrl := None;
     is_sourceUrl := "https://site/cartoon/foo" |}.

End StoreExample.

Module EngineExample.
Import JsNumber Storage Downloader.

Definition join (parts : list string) : string := String.concat "/" parts.

(** Series 1 added to the store of the started download. *)
Definition withSeries : World :=
  {| storage :=
       {| seriesMap := {[ 1%Z := BatchExample.show1 ]};
          episodesMap := episodesMap (storage Scenario.started);
          downloadsMap := downloadsMap (storage Scenario.started);
          seriesCurrentId := 2; episodeCurrentId := 4; downloadCurrentId := 8 |};
     activeDownloads := activeDownloads ControlExample.inFlight;
     files := files ControlExample.inFlight |}.

End EngineExample.

Module FetchExample.
Import Storage Downloader.

(** The request of download 7, waiting for its response. *)
Definition requested : World * option Fetching :=
  downloadFile Scenario.started 7 Scenario.episode Scenario.path.

Definition fetching : Fetching :=
  match snd requested with
  | Some f => f
  | None => {| fe_downloadId := 7; fe_filePath := Scenario.path;
               fe_download := Scenario.download; fe_resumePosition := 0;
               fe_request := {| req_url := None; req_range := None |} |}
  end.

End FetchExample.

Module RunExample.
Import JsString JsNumber Storage Downloader.

(** Series 1 with its episode 3 and no download yet; the next download
    gets id 7. *)
Definition store : MemStorage :=
  {| seriesMap := {[ 1%Z := BatchExample.show1 ]};
     episodesMap := {[ 3%Z := Scenario.episode ]};
     downloadsMap := ∅;
     seriesCurrentId := 2; episodeCurrentId := 4; downloadCurrentId := 7 |}.

(** What the episode route passes to [createDownload]. *)
Definition asked : InsertDownload :=
  {| i_episodeId := 3; i_status := Some "queued"; i_progress := None;
     i_totalSize := None; i_downloadedSize := None; i_speed := None;
     i_filePath := None; i_error := None;
     i_startedAt := None; i_completedAt := None |}.

Definition aborted_text : string := "AbortError: The operation was aborted.".

(** A platform that removes every file it is asked to. *)
Definition removes (p : string) : option string := None.

(** A platform that refuses every removal. *)
Definition refuses (p : string) : option string :=
  Some "EPERM: operation not permitted, unlink".

Definition go (events : list Event) : Engine :=
  run EngineExample.join "/srv" aborted_text removes (idle store ∅) events.

(** Download 7 is created and started: its fetch is pending. *)
Definition requested : Engine := go [Create asked 0%Z; Start 7 0].

(** The server answers without a content-length header. *)
Definition unsized : Engine :=
  go [Create asked 0%Z; Start 7 0;
      Settle 0 (Response 200 "OK" None) 50 [Chunk 1000 1050]].

End RunExample.

Module RcloneExample.
Import JsString Storage.

(** The system counts the commands run; every command succeeds and reports
    a transfer. *)
Definition exec (n : nat) (command : string) : nat * option (string * string) :=
  (S n, Some (EmptyString, "Transferred: 1 / 1, 100%")).

Definition basename (p : string) : string :=
  List.last (split "/" p) EmptyString.

End RcloneExample.

Module EpisodeListExample.
Import EpisodeList.

(** Two links to the same page, one anchor without a link, one untitled. *)
Definition anchors : list Anchor :=
  [ {| a_text := " Foo Episode 2 "; a_href := Some "/foo-episode-2" |};
    {| a_text := "again"; a_href := Some "https://www.wcofun.net/foo-episode-2" |};
    {| a_text := "nowhere"; a_href := None |};
    {| a_text := EmptyString; a_href := Some "foo-season-3-episode-9" |} ].

End EpisodeListExample.

Module SeriesInfoExample.
Import EpisodeList SeriesInfo.

(** A page whose only text is its title tag, with the episode list of
    [EpisodeListExample] under the first selector. *)
Definition page : Page :=
  {| videoTitle := EmptyString; h1Title := "  ";
     titleTag := "Watch Foo Bar | WCO";
     metaDescription := None; contentParagraphs := EmptyString; desc := EmptyString;
     listing := EpisodeListExample.anchors; catlist := []; catEps := [];
     allAnchors := EpisodeListExample.anchors;
     imgResponsive := None; thumbImg := None; ogImage := None |}.

(** A page with nothing on it. *)
Definition blank : Page :=
  {| videoTitle := EmptyString; h1Title := EmptyString; titleTag := EmptyString;
     metaDescription := None; contentParagraphs := EmptyString; desc := EmptyString;
     listing := []; catlist := []; catEps := []; allAnchors := [];
     imgResponsive := None; thumbImg := None; ogImage := None |}.

End SeriesInfoExample.

(* ===================================================================== *)
(** * Properties *)
(* ===================================================================== *)

(** ** The platform models on small inputs *)

Module ScraperExamples.
Import JsString Scraper.
Example fragment_accepts_cdn : http_url_parses "https://cdn.example.com/video/ep1.mp4" = true.
Proof. reflexivity. Qed.
Example encoded_file_param : hasVideoParams "https://x.com/play?a=1&%66ile=x" = true.
Proof. reflexivity. Qed.
Example no_query_no_params : hasVideoParams "https://x.com/noext" = false.
Proof. reflexivity. Qed.
Example split_twice : split "?" "a?b?c" = ["a"; "b"; "c"].
Proof. reflexivity. Qed.
Example watch_is_episode : type (determineUrlType "https://site/watch/foo-episode-3") = episode.
Proof. reflexivity. Qed.
Example lower_my_show : toLowerCase "My Show" = "my show".
Proof. reflexivity. Qed.
Example fragment_rejects_ipv4 : http_url_parses "https://1.2.3.4/a.mp4" = false.
Proof. reflexivity. Qed.
End ScraperExamples.

Module JsNumberExamples.
Import JsNumber.
Example floor_29 : to_Z (floor (mul (div (of_Z 29) (of_Z 100)) (of_Z 100))) = Some 28%Z.
Proof. reflexivity. Qed.
Example floor_half : to_Z (floor (mul (div (of_Z 1) (of_Z 2)) (of_Z 100))) = Some 50%Z.
Proof. reflexivity. Qed.
Example div_zero : div (of_Z 1000) (of_Z 0) = S754_infinity false.
Proof. reflexivity. Qed.
Example floor_inf : floor (mul (div (of_Z 1000) (of_Z 0)) (of_Z 100)) = S754_infinity false.
Proof. reflexivity. Qed.
End JsNumberExamples.

(** ** Path sanitization *)

Module SanitizeFacts.
Import JsString Downloader.

Ltac by_code_unit c :=
  destruct c as [[] [] [] [] [] [] [] []]; vm_compute; try reflexivity; try congruence.

Lemma hyphenate_not_hostile c : is_hostile (hyphenate c) = false.
Proof. by_code_unit c. Qed.

Lemma lower_char_settled c : plain c = true -> settled (lower_char c) = true.
Proof. by_code_unit c. Qed.

Lemma settled_plain c : settled c = true -> plain c = true.
Proof. unfold settled. intros H. apply andb_true_iff in H. tauto. Qed.

Lemma settled_lower c : settled c = true -> lower_char c = c.
Proof.
  unfold settled. intros H. apply andb_true_iff in H. destruct H as [_ H].
  now apply Ascii.eqb_eq.
Qed.

Lemma plain_hostile c : plain c = true -> is_hostile c = false.
Proof. unfold plain. destruct (is_hostile c); simpl; congruence. Qed.

Lemma plain_space c : plain c = true -> is_space c = false.
Proof. unfold plain. destruct (is_hostile c), (is_space c); simpl; congruence. Qed.

Lemma replaced_not_hostile s :
  all_chars (fun c => negb (is_hostile c)) (map_chars hyphenate s) = true.
Proof.
  induction s as [|c s IH]; simpl; [reflexivity|].
  now rewrite hyphenate_not_hostile, IH.
Qed.

Lemma collapsed_plain s : forall b,
  all_chars (fun c => negb (is_hostile c)) s = true ->
  all_chars plain (replace_space_runs b s) = true.
Proof.
  induction s as [|c s IH]; intros b H; simpl in *; [reflexivity|].
  apply andb_true_iff in H. destruct H as [Hc Hs].
  destruct (is_space c) eqn:Hsp.
  - destruct b; simpl; auto.
  - simpl. rewrite IH by assumption. unfold plain. now rewrite Hc, Hsp.
Qed.

Lemma lowered_settled s :
  all_chars plain s = true -> all_chars settled (toLowerCase s) = true.
Proof.
  induction s as [|c s IH]; simpl; intros H; [reflexivity|].
  apply andb_true_iff in H. destruct H as [Hc Hs].
  now rewrite lower_char_settled, IH.
Qed.

Lemma sanitized_settled s : all_chars settled (sanitizePathName s) = true.
Proof.
  unfold sanitizePathName. apply lowered_settled, collapsed_plain.
  apply replaced_not_hostile.
Qed.

Lemma settled_replace s :
  all_chars settled s = true -> map_chars hyphenate s = s.
Proof.
  induction s as [|c s IH]; simpl; intros H; [reflexivity|].
  apply andb_true_iff in H. destruct H as [Hc Hs].
  unfold hyphenate at 1.
  rewrite (plain_hostile c (settled_plain c Hc)), IH; auto.
Qed.

Lemma settled_collapse s : forall b,
  all_chars settled s = true -> replace_space_runs b s = s.
Proof.
  induction s as [|c s IH]; simpl; intros b H; [reflexivity|].
  apply andb_true_iff in H. destruct H as [Hc Hs].
  rewrite (plain_space c (settled_plain c Hc)), IH; auto.
Qed.

Lemma settled_lowercase s :
  all_chars settled s = true -> toLowerCase s = s.
Proof.
  induction s as [|c s IH]; simpl; intros H; [reflexivity|].
  apply andb_true_iff in H. destruct H as [Hc Hs].
  rewrite (settled_lower c Hc), IH; auto.
Qed.

Lemma settled_fixed s : all_chars settled s = true -> sanitizePathName s = s.
Proof.
  intros H. unfold sanitizePathName.
  now rewrite (settled_replace s H), (settled_collapse s false H), (settled_lowercase s H).
Qed.

End SanitizeFacts.

(** C4, as the spec states it, fails: the colon becomes a hyphen and the
    space after it becomes another one, so the title does not come out as
    "my-show-part-1". *)
Lemma sanitize_my_show_not_single_hyphen :
  Downloader.sanitizePathName "My Show: Part 1" <> "my-show-part-1".
Proof. vm_compute. discriminate. Qed.

(** C4 (amended): applied to the title "My Show: Part 1" the sanitization
    returns exactly "my-show--part-1": each hostile character is replaced
    by a hyphen, each whitespace run by one hyphen, and the result is
    lowercased; adjacent hyphens are not merged. *)
Theorem sanitize_my_show :
  Downloader.sanitizePathName "My Show: Part 1" = "my-show--part-1".
Proof. vm_compute. reflexivity. Qed.

(** C5: sanitization is idempotent: for every string [s],
    sanitize (sanitize s) = sanitize s.  (It is a function of its argument
    alone.) *)
Theorem sanitize_idempotent (s : string) :
  Downloader.sanitizePathName (Downloader.sanitizePathName s) =
  Downloader.sanitizePathName s.
Proof. apply SanitizeFacts.settled_fixed, SanitizeFacts.sanitized_settled. Qed.

(** ** URL classification and validation *)

Module ScraperFacts.
Import JsString Scraper.

Lemma determineUrlType_spec u :
  determineUrlType u =
  {| type := if collectionMarker u || negb (itemMarker u) then series else episode;
     url := u |}.
Proof.
  unfold determineUrlType, collectionMarker, itemMarker.
  destruct (includes (toLowerCase u) "/anime/"),
           (includes (toLowerCase u) "/category/"),
           (includes (toLowerCase u) "/series/"),
           (includes (toLowerCase u) "/cartoon/"),
           (includes (toLowerCase u) "/episode"),
           (includes (toLowerCase u) "/watch/"),
           (includes (toLowerCase u) "/video/"); reflexivity.
Qed.

Lemma isValidVideoUrl_spec (U : string -> bool) u :
  isValidVideoUrl U u =
  (10 <=? String.length u)%nat && hasProtocol u &&
  (hasValidExtension u || hasVideoParams u) && U u.
Proof.
  unfold isValidVideoUrl, hasProtocol.
  destruct u as [|c r]; [reflexivity|].
  cbn [truthy negb].
  rewrite (Nat.leb_antisym (String.length (String c r)) 10).
  destruct (String.length (String c r) <? 10)%nat; cbn [negb andb]; [reflexivity|].
  destruct (startsWith (String c r) "http://"),
           (startsWith (String c r) "https://"),
           (hasValidExtension (String c r)),
           (hasVideoParams (String c r)),
           (U (String c r)); reflexivity.
Qed.

End ScraperFacts.

(** C6: classification is a function of the URL string alone.  A URL with a
    collection marker (/anime/, /category/, /series/, /cartoon/) is a
    series, as is "https://site/cartoon/foo"; a URL with an item marker
    (/episode, /watch/, /video/) and no collection marker is an episode, as is
    "https://site/watch/foo-episode-3"; a URL without any item marker is a
    series.  The URL is handed back as given. *)
Theorem determineUrlType_classifies :
  Scraper.type (Scraper.determineUrlType "https://site/cartoon/foo") = Scraper.series /\
  Scraper.type (Scraper.determineUrlType "https://site/watch/foo-episode-3") = Scraper.episode /\
  (forall u, Scraper.collectionMarker u = true ->
     Scraper.type (Scraper.determineUrlType u) = Scraper.series) /\
  (forall u, Scraper.itemMarker u = true -> Scraper.collectionMarker u = false ->
     Scraper.type (Scraper.determineUrlType u) = Scraper.episode) /\
  (forall u, Scraper.itemMarker u = false ->
     Scraper.type (Scraper.determineUrlType u) = Scraper.series) /\
  (forall u, Scraper.url (Scraper.determineUrlType u) = u).
Proof.
  repeat split; try reflexivity; intros u; rewrite ScraperFacts.determineUrlType_spec;
    cbn [Scraper.type Scraper.url]; intros; repeat match goal with
    | H : _ = _ |- _ => rewrite H
    end; try reflexivity.
  now destruct (Scraper.collectionMarker u).
Qed.

Lemma determineUrlType_classifies_witness :
  Scraper.collectionMarker "https://Site/Anime/bar" = true /\
  Scraper.type (Scraper.determineUrlType "https://Site/Anime/bar") = Scraper.series /\
  Scraper.itemMarker "https://site/video/bar" = true /\
  Scraper.collectionMarker "https://site/video/bar" = false /\
  Scraper.type (Scraper.determineUrlType "https://site/video/bar") = Scraper.episode /\
  Scraper.itemMarker "https://site/bar" = false /\
  Scraper.type (Scraper.determineUrlType "https://site/bar") = Scraper.series.
Proof.
  destruct determineUrlType_classifies as (_ & _ & Hc & Hi & Hn & _).
  split; [reflexivity|]. split; [apply Hc; reflexivity|].
  split; [reflexivity|]. split; [reflexivity|].
  split; [apply Hi; reflexivity|].
  split; [reflexivity|]. apply Hn; reflexivity.
Defined.

(** C3: the validation is the conjunction of four checks: at least ten
    code units, an http:// or https:// prefix, a video extension or one of
    the query parameters file / source / video, and the platform's URL
    parser accepting the string.  A URL failing any one of them is
    rejected.  The empty string, "yeni", "ftp://x.mp4" and
    "https://x.com/noext" are rejected whatever the parser says, and
    "https://cdn.example.com/video/ep1.mp4", which the parser accepts, is
    accepted. *)
Theorem isValidVideoUrl_conjunctive (URL_parses : string -> bool) :
  (forall u,
     Scraper.isValidVideoUrl URL_parses u =
     (10 <=? String.length u)%nat && Scraper.hasProtocol u &&
     (Scraper.hasValidExtension u || Scraper.hasVideoParams u) && URL_parses u) /\
  (forall u,
     (String.length u < 10)%nat \/ Scraper.hasProtocol u = false \/
     (Scraper.hasValidExtension u = false /\ Scraper.hasVideoParams u = false) \/
     URL_parses u = false ->
     Scraper.isValidVideoUrl URL_parses u = false) /\
  Scraper.isValidVideoUrl URL_parses "" = false /\
  Scraper.isValidVideoUrl URL_parses "yeni" = false /\
  Scraper.isValidVideoUrl URL_parses "ftp://x.mp4" = false /\
  Scraper.isValidVideoUrl URL_parses "https://x.com/noext" = false /\
  (URL_parses "https://cdn.example.com/video/ep1.mp4" = true ->
   Scraper.isValidVideoUrl URL_parses "https://cdn.example.com/video/ep1.mp4" = true).
Proof.
  split; [apply ScraperFacts.isValidVideoUrl_spec|].
  split.
  { intros u H. rewrite ScraperFacts.isValidVideoUrl_spec.
    destruct H as [H|[H|[[H1 H2]|H]]].
    - apply Nat.leb_gt in H. now rewrite H.
    - rewrite H. now rewrite andb_false_r.
    - rewrite H1, H2. cbn [orb]. now rewrite andb_false_r.
    - rewrite H. now rewrite andb_false_r. }
  repeat split; try reflexivity.
  intros H. rewrite ScraperFacts.isValidVideoUrl_spec, H. reflexivity.
Qed.

Lemma isValidVideoUrl_conjunctive_witness :
  Scraper.http_url_parses "https://cdn.example.com/video/ep1.mp4" = true /\
  Scraper.isValidVideoUrl Scraper.http_url_parses
    "https://cdn.example.com/video/ep1.mp4" = true /\
  Scraper.isValidVideoUrl Scraper.http_url_parses "http://x.y/a" = false.
Proof.
  destruct (isValidVideoUrl_conjunctive Scraper.http_url_parses)
    as (_ & Hrej & _ & _ & _ & _ & Hacc).
  split; [reflexivity|]. split; [apply Hacc; reflexivity|].
  apply Hrej. right. right. left. split; reflexivity.
Defined.

(** ** The record store *)

Module StorageFacts.
Import JsString JsNumber Storage.

Lemma with_downloads_same st :
  with_downloads st (downloadsMap st) (downloadCurrentId st) = st.
Proof. now destruct st. Qed.

Lemma getDownload_update st i data d :
  getDownload st i = Some d ->
  getDownload (fst (updateDownload st i data)) i = Some (spread d data).
Proof.
  unfold getDownload, updateDownload. intros H. rewrite H. cbn.
  apply lookup_insert_eq.
Qed.

Lemma getDownload_update_missing st i data :
  getDownload st i = None -> updateDownload st i data = (st, None).
Proof. unfold getDownload, updateDownload. now intros ->. Qed.

Lemma getEpisode_update st i data j :
  getEpisode (fst (updateDownload st i data)) j = getEpisode st j.
Proof.
  unfold getEpisode, updateDownload. now destruct (downloadsMap st !! i).
Qed.

(** Writing back what a record already holds changes nothing. *)
Lemma updateDownload_same st i data d :
  getDownload st i = Some d -> spread d data = d ->
  fst (updateDownload st i data) = st.
Proof.
  unfold getDownload, updateDownload. intros H E. rewrite H, E. cbn.
  rewrite (insert_id _ _ _ H). apply with_downloads_same.
Qed.

Lemma getDownload_update_other st i data j :
  j <> i -> getDownload (fst (updateDownload st i data)) j = getDownload st j.
Proof.
  intros Hne. unfold getDownload, updateDownload.
  destruct (downloadsMap st !! i); [|reflexivity]. cbn.
  now apply lookup_insert_ne.
Qed.

Lemma getSeries_update st i data j :
  getSeries (fst (updateDownload st i data)) j = getSeries st j.
Proof.
  unfold getSeries, updateDownload. now destruct (downloadsMap st !! i).
Qed.

Lemma update_missing_same st i data :
  getDownload st i = None -> fst (updateDownload st i data) = st.
Proof. intros H. now rewrite (getDownload_update_missing st i data H). Qed.

End StorageFacts.

(** C10: whatever the insert input carries, the created record has status
    "queued", progress 0, downloadedSize 0 and null totalSize, speed, error,
    startedAt and completedAt; only [episodeId] and [filePath] (an empty path
    becoming null) come from the caller, so two inputs that agree on these
    two create the same record.  The record is stored under its id. *)
Theorem createDownload_defaults (st : Storage.MemStorage)
    (ins : Storage.InsertDownload) (now : Storage.Date) :
  let d := snd (Storage.createDownload st ins now) in
  Storage.status d = "queued" /\
  Storage.progress d = Some (JsNumber.of_Z 0) /\
  Storage.downloadedSize d = Some 0%Z /\
  Storage.totalSize d = None /\
  Storage.speed d = None /\
  Storage.error d = None /\
  Storage.startedAt d = None /\
  Storage.completedAt d = None /\
  Storage.episodeId d = Storage.i_episodeId ins /\
  Storage.filePath d = Storage.or_null (Storage.i_filePath ins) /\
  Storage.getDownload (fst (Storage.createDownload st ins now)) (Storage.id d) = Some d /\
  (forall ins',
     Storage.i_episodeId ins' = Storage.i_episodeId ins ->
     Storage.i_filePath ins' = Storage.i_filePath ins ->
     Storage.createDownload st ins' now = Storage.createDownload st ins now).
Proof.
  cbn. repeat split.
  - unfold Storage.getDownload. cbn. apply lookup_insert_eq.
  - intros ins' He Hp. unfold Storage.createDownload. now rewrite He, Hp.
Qed.

Lemma createDownload_defaults_witness :
  Storage.createDownload CreateExample.empty CreateExample.loaded 10%Z =
  Storage.createDownload CreateExample.empty CreateExample.asked 10%Z /\
  Storage.status (snd (Storage.createDownload CreateExample.empty CreateExample.loaded 10%Z))
  = "queued".
Proof.
  split.
  - apply (createDownload_defaults CreateExample.empty CreateExample.asked 10%Z);
      reflexivity.
  - apply (createDownload_defaults CreateExample.empty CreateExample.loaded 10%Z).
Defined.

(** ** Pause and cancel *)

Module ControlFacts.
Import JsString JsNumber Storage Downloader StorageFacts.

Lemma catch_marks_error w i text d :
  getDownload (storage w) i = Some d ->
  getDownload (storage (downloadFile_catch w i text)) i =
  Some (spread d [f_status "error"; f_error (Some text)]).
Proof.
  intros Hd. unfold downloadFile_catch. cbn [setStorage setActive storage].
  apply (getDownload_update _ _ _ _ Hd).
Qed.

Lemma pauseDownload_none abortError w i :
  activeDownloads w !! i = None -> pauseDownload abortError w i = (w, false).
Proof. unfold pauseDownload, pauseDownload_body. now intros ->. Qed.

(** The awaited pause of an id with a handle: the record is written twice,
    the handle is gone, the disk is as before. *)
Lemma pauseDownload_some abortError w i h :
  activeDownloads w !! i = Some h ->
  pauseDownload abortError w i =
  ({| storage :=
        fst (updateDownload (fst (updateDownload (storage w) i [f_status "paused"])) i
               [f_status "error"; f_error (Some abortError)]);
      activeDownloads := delete i (activeDownloads w);
      files := files w |}, true).
Proof.
  unfold pauseDownload, pauseDownload_body. intros ->.
  unfold downloadFile_catch.
  cbn [setStorage setActive storage activeDownloads files fst].
  now rewrite delete_insert_eq.
Qed.

Lemma pause_record abortError w i h d :
  activeDownloads w !! i = Some h ->
  getDownload (storage w) i = Some d ->
  getDownload (storage (fst (pauseDownload abortError w i))) i =
  Some (spread d [f_status "error"; f_error (Some abortError)]).
Proof.
  intros Hh Hd. rewrite (pauseDownload_some _ _ _ _ Hh). cbn [fst storage].
  rewrite (getDownload_update _ _ _ _
             (getDownload_update _ _ [f_status "paused"] _ Hd)).
  reflexivity.
Qed.

Lemma handle_removed w i :
  match activeDownloads w !! i with
  | Some _ => setActive w (delete i (activeDownloads w))
  | None => w
  end = {| storage := storage w; activeDownloads := delete i (activeDownloads w);
           files := files w |}.
Proof.
  destruct w as [st act fs]. cbn [storage activeDownloads files].
  destruct (act !! i) eqn:E; [reflexivity|]. now rewrite (delete_id _ _ E).
Qed.

(** The statements of a cancel when the platform removes the file. *)
Lemma cancelDownload_body_eq unlinkSync_error w i :
  (forall p, unlinked w i = Some p -> unlinkSync_error p = None) ->
  cancelDownload_body unlinkSync_error w i =
  ({| storage := fst (updateDownload (storage w) i cancelled);
      activeDownloads := delete i (activeDownloads w);
      files := filesAfterCancel w i |}, Returned true).
Proof.
  intros Hok. unfold cancelDownload_body, filesAfterCancel. unfold unlinked in Hok.
  rewrite handle_removed. cbn [storage activeDownloads files].
  destruct (getDownload (storage w) i) as [d|]; [|reflexivity].
  destruct (filePath d) as [p|]; [|reflexivity].
  destruct (truthy p && existsSync (files w) p); [|reflexivity].
  now rewrite (Hok p eq_refl).
Qed.

(** The statements of a cancel when the platform refuses: the handle is
    gone, nothing else has changed. *)
Lemma cancelDownload_body_threw unlinkSync_error w i p message :
  unlinked w i = Some p -> unlinkSync_error p = Some message ->
  cancelDownload_body unlinkSync_error w i =
  ({| storage := storage w; activeDownloads := delete i (activeDownloads w);
      files := files w |}, Threw message).
Proof.
  unfold unlinked, cancelDownload_body. rewrite handle_removed.
  cbn [storage activeDownloads files].
  destruct (getDownload (storage w) i) as [d|]; [|discriminate].
  destruct (filePath d) as [q|]; [|discriminate].
  destruct (truthy q && existsSync (files w) q); [|discriminate].
  intros [= ->] ->. reflexivity.
Qed.

Lemma cancelDownload_idle abortError unlinkSync_error w i :
  activeDownloads w !! i = None ->
  cancelDownload abortError unlinkSync_error w i = cancelDownload_body unlinkSync_error w i.
Proof.
  intros H. unfold cancelDownload. rewrite H.
  now destruct (cancelDownload_body unlinkSync_error w i).
Qed.

Lemma cancelDownload_pending abortError unlinkSync_error w i h :
  activeDownloads w !! i = Some h ->
  cancelDownload abortError unlinkSync_error w i =
  (downloadFile_catch (fst (cancelDownload_body unlinkSync_error w i)) i abortError,
   snd (cancelDownload_body unlinkSync_error w i)).
Proof.
  intros H. unfold cancelDownload. rewrite H.
  now destruct (cancelDownload_body unlinkSync_error w i).
Qed.

Lemma spread_cancelled d :
  status (spread d cancelled) = "cancelled" /\
  progress (spread d cancelled) = Some (of_Z 0) /\
  downloadedSize (spread d cancelled) = Some 0%Z /\
  filePath (spread d cancelled) = filePath d /\
  spread (spread d cancelled) cancelled = spread d cancelled.
Proof. repeat split. Qed.

Lemma filesAfterCancel_gone w i d p :
  getDownload (storage w) i = Some d -> filePath d = Some p -> truthy p = true ->
  filesAfterCancel w i !! p = None.
Proof.
  intros Hd Hp Ht. unfold filesAfterCancel, existsSync, unlinkSync.
  rewrite Hd, Hp, Ht. cbn [andb].
  destruct (files w !! p) eqn:E; [apply lookup_delete_eq | exact E].
Qed.

(** Once the record is cancelled and its file gone, a cancel changes no
    file. *)
Lemma filesAfterCancel_settled w i :
  (forall d p, getDownload (storage w) i = Some d -> filePath d = Some p ->
               truthy p = true -> files w !! p = None) ->
  filesAfterCancel w i = files w.
Proof.
  intros H. unfold filesAfterCancel, existsSync.
  destruct (getDownload (storage w) i) as [d|]; [|reflexivity].
  destruct (filePath d) as [p|] eqn:Hp; [|reflexivity].
  destruct (truthy p) eqn:Ht; [|reflexivity].
  now rewrite (H d p eq_refl Hp Ht).
Qed.

(** Nothing is handed to [fs.unlinkSync] where no file sits at the record's
    path. *)
Lemma unlinked_none w i :
  (forall d p, getDownload (storage w) i = Some d -> filePath d = Some p ->
               truthy p = true -> files w !! p = None) ->
  unlinked w i = None.
Proof.
  intros H. unfold unlinked, existsSync.
  destruct (getDownload (storage w) i) as [d|]; [|reflexivity].
  destruct (filePath d) as [p|] eqn:Hp; [|reflexivity].
  destruct (truthy p) eqn:Ht; [|reflexivity].
  now rewrite (H d p eq_refl Hp Ht).
Qed.

(** A cancel of an id without a handle, when the platform removes the file,
    changes nothing the second time. *)
Lemma cancelDownload_body_twice unlinkSync_error w i :
  (forall p, unlinked w i = Some p -> unlinkSync_error p = None) ->
  cancelDownload_body unlinkSync_error (fst (cancelDownload_body unlinkSync_error w i)) i
  = (fst (cancelDownload_body unlinkSync_error w i), Returned true).
Proof.
  intros Hok. rewrite (cancelDownload_body_eq _ w i Hok). cbn [fst].
  set (w1 := {| storage := fst (updateDownload (storage w) i cancelled);
                activeDownloads := delete i (activeDownloads w);
                files := filesAfterCancel w i |}).
  assert (Hgone : forall d' p,
    getDownload (storage w1) i = Some d' ->
    filePath d' = Some p -> truthy p = true -> files w1 !! p = None).
  { intros d' p Hd' Hp Ht. cbn [w1 storage files] in *.
    destruct (getDownload (storage w) i) as [d|] eqn:E.
    - rewrite (getDownload_update _ _ cancelled d E) in Hd'. injection Hd' as <-.
      now apply (filesAfterCancel_gone w i d p E).
    - rewrite (update_missing_same _ _ _ E), E in Hd'. discriminate. }
  rewrite cancelDownload_body_eq.
  2: { intros p Hp. rewrite (unlinked_none w1 i Hgone) in Hp. discriminate. }
  rewrite (filesAfterCancel_settled w1 i Hgone).
  assert (Hact : delete i (activeDownloads w1) = activeDownloads w1)
    by (apply delete_id, lookup_delete_eq).
  rewrite Hact.
  assert (Hst : fst (updateDownload (storage w1) i cancelled) = storage w1).
  { cbn [w1 storage]. destruct (getDownload (storage w) i) as [d|] eqn:E.
    - pose proof (getDownload_update (storage w) i cancelled d E) as Hg.
      now rewrite (updateDownload_same _ i cancelled (spread d cancelled) Hg)
        by apply spread_cancelled.
    - rewrite (update_missing_same _ _ _ E). now rewrite (update_missing_same _ _ _ E). }
  rewrite Hst. reflexivity.
Qed.

End ControlFacts.

(** C9, on the code: a pause that returned true does not leave the handle
    registered.  Its [abort()] rejects the pending fetch, and the [catch]
    of [downloadFile], which does not tell an abort from a failure, removes
    the handle and stores status "error"; so the next pause of the same id,
    with nothing running in between, finds no handle, returns false and
    changes nothing. *)
Theorem pause_drops_handle (abortError : string) (w w' : Downloader.World)
    (downloadId : Z) :
  Downloader.pauseDownload abortError w downloadId = (w', true) ->
  Downloader.activeDownloads w' !! downloadId = None /\
  (forall d, Storage.getDownload (Downloader.storage w) downloadId = Some d ->
     Storage.getDownload (Downloader.storage w') downloadId =
     Some (Storage.spread d [Storage.f_status "error";
                             Storage.f_error (Some abortError)])) /\
  Downloader.pauseDownload abortError w' downloadId = (w', false).
Proof.
  intros H.
  destruct (Downloader.activeDownloads w !! downloadId) as [h|] eqn:Hh.
  2: { rewrite (ControlFacts.pauseDownload_none _ _ _ Hh) in H. discriminate. }
  pose proof (ControlFacts.pause_record abortError w downloadId h) as Hrec.
  rewrite (ControlFacts.pauseDownload_some _ _ _ _ Hh) in H.
  rewrite (ControlFacts.pauseDownload_some _ _ _ _ Hh) in Hrec.
  injection H as <-. cbn [fst] in Hrec.
  assert (Hgone : Downloader.activeDownloads
                    {| Downloader.storage :=
                         fst (Storage.updateDownload
                                (fst (Storage.updateDownload (Downloader.storage w)
                                        downloadId [Storage.f_status "paused"]))
                                downloadId
                                [Storage.f_status "error"; Storage.f_error (Some abortError)]);
                       Downloader.activeDownloads :=
                         delete downloadId (Downloader.activeDownloads w);
                       Downloader.files := Downloader.files w |} !! downloadId = None)
    by apply lookup_delete_eq.
  split; [exact Hgone|]. split; [intros d Hd; now apply Hrec|].
  now apply ControlFacts.pauseDownload_none.
Qed.

Lemma pause_drops_handle_witness :
  Downloader.activeDownloads
    (fst (Downloader.pauseDownload RunExample.aborted_text
            (Downloader.world RunExample.requested) 7)) !! 7%Z = None.
Proof.
  apply (pause_drops_handle RunExample.aborted_text
           (Downloader.world RunExample.requested)
           (fst (Downloader.pauseDownload RunExample.aborted_text
                   (Downloader.world RunExample.requested) 7)) 7).
  vm_compute. reflexivity.
Defined.

(** Download 7 has been created and started and its fetch is pending: the
    first pause returns true, the pause that follows it returns false. *)
Lemma second_pause_is_refused :
  snd (Downloader.pauseDownload RunExample.aborted_text
         (Downloader.world RunExample.requested) 7) = true /\
  Downloader.activeDownloads
    (fst (Downloader.pauseDownload RunExample.aborted_text
            (Downloader.world RunExample.requested) 7)) !! 7%Z = None /\
  snd (Downloader.pauseDownload RunExample.aborted_text
         (fst (Downloader.pauseDownload RunExample.aborted_text
                 (Downloader.world RunExample.requested) 7)) 7) = false.
Proof. vm_compute. repeat split. Qed.

(** C2, on the code: a cancel of a download whose fetch is pending returns
    true, but what it leaves is not a cancelled download.  The [abort()]
    rejects the fetch, and the [catch] of [downloadFile], which does not
    tell an abort from a failure, stores status "error" with the abort's
    text over the "cancelled" just written.  A second cancel returns true
    as well and turns the status into "cancelled": the second call changes
    what the first one left. *)
Theorem cancel_of_pending_fetch_ends_in_error (abortError : string)
    (unlinkSync_error : string -> option string) (w : Downloader.World)
    (downloadId : Z) (h : Downloader.Handle) (d : Storage.Download) :
  Downloader.activeDownloads w !! downloadId = Some h ->
  Storage.getDownload (Downloader.storage w) downloadId = Some d ->
  (forall p, Downloader.unlinked w downloadId = Some p -> unlinkSync_error p = None) ->
  let once := Downloader.cancelDownload abortError unlinkSync_error w downloadId in
  let twice :=
    Downloader.cancelDownload abortError unlinkSync_error (fst once) downloadId in
  snd once = Downloader.Returned true /\
  (exists d1,
     Storage.getDownload (Downloader.storage (fst once)) downloadId = Some d1 /\
     Storage.status d1 = "error" /\ Storage.error d1 = Some abortError /\
     Storage.progress d1 = Some (JsNumber.of_Z 0) /\
     Storage.downloadedSize d1 = Some 0%Z) /\
  snd twice = Downloader.Returned true /\
  (exists d2,
     Storage.getDownload (Downloader.storage (fst twice)) downloadId = Some d2 /\
     Storage.status d2 = "cancelled") /\
  fst twice <> fst once.
Proof.
  intros Hh Hd Hok once twice.
  assert (Honce : once =
    (Downloader.downloadFile_catch
       {| Downloader.storage :=
            fst (Storage.updateDownload (Downloader.storage w) downloadId
                   Downloader.cancelled);
          Downloader.activeDownloads := delete downloadId (Downloader.activeDownloads w);
          Downloader.files := Downloader.filesAfterCancel w downloadId |}
       downloadId abortError, Downloader.Returned true)).
  { subst once. rewrite (ControlFacts.cancelDownload_pending _ _ _ _ _ Hh).
    now rewrite (ControlFacts.cancelDownload_body_eq _ _ _ Hok). }
  pose proof (StorageFacts.getDownload_update _ _ Downloader.cancelled _ Hd) as Hc.
  set (w1 := {| Downloader.storage :=
                  fst (Storage.updateDownload (Downloader.storage w) downloadId
                         Downloader.cancelled);
                Downloader.activeDownloads :=
                  delete downloadId (Downloader.activeDownloads w);
                Downloader.files := Downloader.filesAfterCancel w downloadId |}) in *.
  assert (Hrec : Storage.getDownload (Downloader.storage (fst once)) downloadId =
                 Some (Storage.spread (Storage.spread d Downloader.cancelled)
                         [Storage.f_status "error"; Storage.f_error (Some abortError)])).
  { rewrite Honce. cbn [fst]. now apply ControlFacts.catch_marks_error. }
  assert (Hnone : Downloader.activeDownloads (fst once) !! downloadId = None).
  { rewrite Honce. cbn [fst]. unfold Downloader.downloadFile_catch.
    cbn [Downloader.setStorage Downloader.setActive Downloader.activeDownloads].
    apply lookup_delete_eq. }
  assert (Hfiles : Downloader.files (fst once) = Downloader.filesAfterCancel w downloadId).
  { rewrite Honce. reflexivity. }
  assert (Hunl : Downloader.unlinked (fst once) downloadId = None).
  { apply ControlFacts.unlinked_none. intros d' p Hd' Hp Ht.
    rewrite Hrec in Hd'. injection Hd' as <-. rewrite Hfiles.
    now apply (ControlFacts.filesAfterCancel_gone w downloadId d p Hd). }
  assert (Htwice : twice =
    ({| Downloader.storage :=
          fst (Storage.updateDownload (Downloader.storage (fst once)) downloadId
                 Downloader.cancelled);
        Downloader.activeDownloads :=
          delete downloadId (Downloader.activeDownloads (fst once));
        Downloader.files := Downloader.filesAfterCancel (fst once) downloadId |},
     Downloader.Returned true)).
  { subst twice. rewrite (ControlFacts.cancelDownload_idle _ _ _ _ Hnone).
    apply ControlFacts.cancelDownload_body_eq. intros p Hp. rewrite Hunl in Hp.
    discriminate. }
  assert (Hrec2 : Storage.getDownload (Downloader.storage (fst twice)) downloadId =
                  Some (Storage.spread
                          (Storage.spread (Storage.spread d Downloader.cancelled)
                             [Storage.f_status "error"; Storage.f_error (Some abortError)])
                          Downloader.cancelled)).
  { rewrite Htwice. cbn [fst Downloader.storage].
    now apply StorageFacts.getDownload_update. }
  split; [now rewrite Honce|].
  split; [eexists; split; [exact Hrec|]; repeat split|].
  split; [now rewrite Htwice|].
  split; [eexists; split; [exact Hrec2|]; reflexivity|].
  intros E. rewrite E, Hrec in Hrec2. discriminate.
Qed.

Lemma cancel_of_pending_fetch_ends_in_error_witness :
  Storage.status <$>
    Storage.getDownload
      (Downloader.storage
         (fst (Downloader.cancelDownload RunExample.aborted_text RunExample.removes
                 (Downloader.world RunExample.requested) 7))) 7
  = Some "error".
Proof.
  destruct (cancel_of_pending_fetch_ends_in_error RunExample.aborted_text
              RunExample.removes (Downloader.world RunExample.requested) 7
              {| Downloader.aborted := false; Downloader.resumePosition := 0;
                 Downloader.stream := None |}
              (Storage.spread (snd (Storage.createDownload RunExample.store
                                      RunExample.asked 0%Z))
                 [Storage.f_filePath (Some "/srv/downloads/foo/season-1/episode-1.mp4");
                  Storage.f_status "downloading"; Storage.f_startedAt (Some 0%Z)]))
    as (_ & (d1 & Hg & Hs & _) & _).
  - vm_compute. reflexivity.
  - vm_compute. reflexivity.
  - reflexivity.
  - rewrite Hg. cbn [fmap option_fmap option_map]. now rewrite Hs.
Defined.

(** ** Resume *)

Module ResumeFacts.
Import JsString JsNumber Storage Downloader StorageFacts.

(** [resumeDownload] writes "downloading" before it calls [downloadFile],
    which therefore never sees the status "paused": a resume asks for no
    range and starts from offset 0, whatever is on the disk. *)
Lemma resume_asks_no_range w i w' f :
  resumeDownload w i = (w', true, Some f) ->
  req_range (fe_request f) = None /\ fe_resumePosition f = 0%Z.
Proof.
  unfold resumeDownload.
  destruct (getDownload (storage w) i) as [d|] eqn:Hd; [|discriminate].
  destruct (negb (status d =? "paused")%string); [discriminate|].
  destruct (getEpisode (storage w) (episodeId d)) as [e|]; [|discriminate].
  destruct (negb (opt_truthy (downloadUrl e))); [discriminate|].
  unfold downloadFile.
  cbn [setStorage storage activeDownloads files].
  rewrite (getDownload_update _ _ [f_status "downloading"] _ Hd).
  replace (status (spread d [f_status "downloading"])) with "downloading"
    by reflexivity.
  cbn [String.eqb Ascii.eqb Bool.eqb andb].
  intros [= _ <-]. split; reflexivity.
Qed.

Lemma resume_not_paused w i :
  (forall d, getDownload (storage w) i = Some d -> status d <> "paused") ->
  resumeDownload w i = (w, false, None).
Proof.
  intros H. unfold resumeDownload.
  destruct (getDownload (storage w) i) as [d|]; [|reflexivity].
  destruct (String.eqb (status d) "paused") eqn:E; [|reflexivity].
  apply String.eqb_eq in E. now destruct (H d eq_refl).
Qed.

End ResumeFacts.

(** C1, on the code: for every download stored as "paused" whose file holds
    bytes, and whose episode has a media URL, the resume returns true and
    issues its fetch for the stored path, but the request carries no Range
    header and the offset it goes by is 0, not the size of the file.
    [resumeDownload] has written "downloading" by the time [downloadFile]
    looks for "paused", so the file is never measured; it is left as it
    was. *)
Theorem resume_sends_no_range (w : Downloader.World) (downloadId : Z)
    (d : Storage.Download) (e : Storage.Episode) (p : string) (size : Z) :
  Storage.getDownload (Downloader.storage w) downloadId = Some d ->
  Storage.status d = "paused" ->
  Storage.filePath d = Some p ->
  Downloader.files w !! p = Some size ->
  (0 < size)%Z ->
  Storage.getEpisode (Downloader.storage w) (Storage.episodeId d) = Some e ->
  Downloader.opt_truthy (Storage.downloadUrl e) = true ->
  exists w' f,
    Downloader.resumeDownload w downloadId = (w', true, Some f) /\
    Downloader.fe_filePath f = p /\
    Downloader.req_url (Downloader.fe_request f) = Storage.downloadUrl e /\
    Downloader.req_range (Downloader.fe_request f) = None /\
    Downloader.fe_resumePosition f = 0%Z /\
    Downloader.activeDownloads w' !! downloadId =
      Some {| Downloader.aborted := false; Downloader.resumePosition := 0;
              Downloader.stream := None |} /\
    Downloader.files w' = Downloader.files w /\
    Storage.getDownload (Downloader.storage w') downloadId =
      Some (Storage.spread d [Storage.f_status "downloading"]).
Proof.
  intros Hd Hs Hp Hf Hsize He Hu.
  unfold Downloader.resumeDownload. rewrite Hd, Hs, He, Hu, Hp.
  cbn [String.eqb Ascii.eqb Bool.eqb negb].
  assert (Hpath : JsString.or_else p EmptyString = p) by now destruct p.
  rewrite Hpath. unfold Downloader.downloadFile.
  cbn [Downloader.setStorage Downloader.storage Downloader.activeDownloads
       Downloader.files].
  rewrite (StorageFacts.getDownload_update _ _ [Storage.f_status "downloading"] _ Hd).
  replace (Storage.status (Storage.spread d [Storage.f_status "downloading"]))
    with "downloading" by reflexivity.
  cbn [String.eqb Ascii.eqb Bool.eqb andb Z.ltb Z.compare].
  eexists. eexists. split; [reflexivity|].
  cbn [Downloader.fe_filePath Downloader.fe_request Downloader.req_url
       Downloader.req_range Downloader.fe_resumePosition Downloader.setActive
       Downloader.activeDownloads Downloader.files Downloader.storage].
  repeat (split; [reflexivity|]).
  split; [apply lookup_insert_eq|]. split; [reflexivity|].
  apply (StorageFacts.getDownload_update _ _ [Storage.f_status "downloading"] _ Hd).
Qed.

Lemma resume_sends_no_range_witness :
  exists w' f,
    Scenario.resumed = (w', true, Some f) /\
    Downloader.req_range (Downloader.fe_request f) = None /\
    Downloader.files w' !! Scenario.path = Some 400%Z.
Proof.
  destruct (resume_sends_no_range Scenario.paused 7
              (Storage.spread Scenario.download
                 [Storage.f_status "paused"; Storage.f_totalSize (Some 1000%Z);
                  Storage.f_progress (Some (JsNumber.of_Z 40));
                  Storage.f_downloadedSize (Some 400%Z)])
              Scenario.episode Scenario.path 400)
    as (w' & f & Hr & _ & _ & Hrange & _ & _ & Hfiles & _);
    [vm_compute; reflexivity | reflexivity | reflexivity | vm_compute; reflexivity
     | lia | vm_compute; reflexivity | reflexivity |].
  exists w', f. split; [exact Hr|]. split; [exact Hrange|].
  rewrite Hfiles. vm_compute. reflexivity.
Defined.

(** ** Sizes in the runs of the engine *)

Module RunFacts.
Import JsString JsNumber Storage Downloader StorageFacts.

(** An update that keeps a record untouched keeps a store of such
    records. *)
Lemma untouched_update st i data :
  (forall d, untouched d -> untouched (spread d data)) ->
  (forall j d, getDownload st j = Some d -> untouched d) ->
  forall j d, getDownload (fst (updateDownload st i data)) j = Some d -> untouched d.
Proof.
  intros Hd Hst j d'. destruct (decide (j = i)) as [->|Hne].
  - destruct (getDownload st i) as [d|] eqn:E.
    + rewrite (getDownload_update _ _ _ _ E). intros [= <-]. eauto.
    + rewrite (update_missing_same _ _ _ E), E. discriminate.
  - rewrite getDownload_update_other by exact Hne. apply Hst.
Qed.

Lemma untouched_error text d :
  untouched d -> untouched (spread d [f_status "error"; f_error (Some text)]).
Proof.
  intros (H1 & H2 & H3 & _). repeat split; try assumption.
  cbn. tauto.
Qed.

Lemma untouched_paused_error d text :
  untouched d ->
  untouched (spread (spread d [f_status "paused"])
               [f_status "error"; f_error (Some text)]).
Proof. intros H. now apply (untouched_error text d) in H. Qed.

Lemma untouched_cancelled d : untouched d -> untouched (spread d cancelled).
Proof.
  intros (_ & _ & H3 & _). repeat split; try assumption. cbn. tauto.
Qed.

Lemma untouched_started d p now :
  untouched d ->
  untouched (spread d [f_filePath (Some p); f_status "downloading";
                       f_startedAt (Some now)]).
Proof.
  intros (H1 & H2 & H3 & _). repeat split; try assumption. cbn. tauto.
Qed.

Lemma untouched_sized d T :
  (0 <= T)%Z -> untouched d -> untouched (spread d [f_totalSize (Some T)]).
Proof.
  intros HT (H1 & H2 & _ & H4). repeat split; try assumption.
  intros T' [= <-]. exact HT.
Qed.

Lemma untouched_not_paused d : untouched d -> status d <> "paused".
Proof.
  intros (_ & _ & _ & H) E. rewrite E in H. cbn in H.
  destruct H as [H|[H|[H|[H|[]]]]]; discriminate.
Qed.

Lemma created_untouched st ins now :
  (forall j d, getDownload st j = Some d -> untouched d) ->
  forall j d, getDownload (fst (createDownload st ins now)) j = Some d -> untouched d.
Proof.
  intros Hst j d. unfold createDownload, getDownload. cbn [fst with_downloads downloadsMap].
  destruct (decide (j = downloadCurrentId st)) as [->|Hne].
  - rewrite lookup_insert_eq. intros [= <-]. repeat split; [discriminate|].
    cbn. tauto.
  - rewrite lookup_insert_ne by congruence. apply Hst.
Qed.

Lemma catch_untouched w i text :
  (forall j d, getDownload (storage w) j = Some d -> untouched d) ->
  forall j d, getDownload (storage (downloadFile_catch w i text)) j = Some d -> untouched d.
Proof.
  intros Hw. unfold downloadFile_catch. cbn [setStorage setActive storage].
  apply untouched_update; [apply (untouched_error text) | exact Hw].
Qed.

(** No response starts a task: the reads are never made. *)
Lemma respond_eq w f r now rs : respond w f r now rs = onResponse w f r now.
Proof.
  unfold respond, onResponse. destruct r as [text|code text len]; [reflexivity|].
  now destruct (negb ((200 <=? code)%Z && (code <=? 299)%Z) && negb (code =? 206)%Z).
Qed.

Lemma onResponse_untouched w f r now :
  fe_resumePosition f = 0%Z ->
  match r with Response _ _ (Some n) => (0 <= n)%Z | _ => True end ->
  (forall j d, getDownload (storage w) j = Some d -> untouched d) ->
  forall j d, getDownload (storage (fst (onResponse w f r now))) j = Some d -> untouched d.
Proof.
  intros Hf Hr Hw. unfold onResponse.
  destruct r as [text|code text len]; cbn [fst]; [now apply catch_untouched|].
  destruct (negb ((200 <=? code)%Z && (code <=? 299)%Z) && negb (code =? 206)%Z);
    cbn [fst]; [now apply catch_untouched|].
  apply catch_untouched. cbn [setActive setFiles storage].
  destruct (totalSize_unset (fe_download f)); cbn [setStorage storage]; [|exact Hw].
  apply untouched_update; [|exact Hw].
  intros d. apply untouched_sized. rewrite Hf. destruct len; lia.
Qed.

Lemma pause_untouched abortError w i :
  (forall j d, getDownload (storage w) j = Some d -> untouched d) ->
  forall j d, getDownload (storage (fst (pauseDownload abortError w i))) j = Some d ->
              untouched d.
Proof.
  intros Hw. destruct (activeDownloads w !! i) as [h|] eqn:E.
  - rewrite (ControlFacts.pauseDownload_some _ _ _ _ E). cbn [fst storage].
    intros j d. destruct (decide (j = i)) as [->|Hne].
    + destruct (getDownload (storage w) i) as [d0|] eqn:Hd.
      * rewrite (getDownload_update _ _ _ _
                   (getDownload_update _ _ [f_status "paused"] _ Hd)).
        intros [= <-]. apply untouched_paused_error. eauto.
      * rewrite (update_missing_same _ _ [f_status "paused"] Hd).
        rewrite (update_missing_same _ _ _ Hd), Hd. discriminate.
    + rewrite !getDownload_update_other by exact Hne. apply Hw.
  - now rewrite (ControlFacts.pauseDownload_none _ _ _ E).
Qed.

Lemma cancel_body_untouched unlinkSync_error w i :
  (forall j d, getDownload (storage w) j = Some d -> untouched d) ->
  forall j d,
    getDownload (storage (fst (cancelDownload_body unlinkSync_error w i))) j = Some d ->
    untouched d.
Proof.
  intros Hw. destruct (unlinked w i) as [p|] eqn:Hp.
  - destruct (unlinkSync_error p) as [message|] eqn:Hu.
    + now rewrite (ControlFacts.cancelDownload_body_threw _ _ _ _ _ Hp Hu).
    + rewrite ControlFacts.cancelDownload_body_eq by congruence. cbn [fst storage].
      apply untouched_update; [apply untouched_cancelled | exact Hw].
  - rewrite ControlFacts.cancelDownload_body_eq by congruence. cbn [fst storage].
    apply untouched_update; [apply untouched_cancelled | exact Hw].
Qed.

Lemma cancel_untouched abortError unlinkSync_error w i :
  (forall j d, getDownload (storage w) j = Some d -> untouched d) ->
  forall j d,
    getDownload (storage (fst (cancelDownload abortError unlinkSync_error w i))) j = Some d ->
    untouched d.
Proof.
  intros Hw. destruct (activeDownloads w !! i) as [h|] eqn:E.
  - rewrite (ControlFacts.cancelDownload_pending _ _ _ _ _ E). cbn [fst].
    apply catch_untouched. now apply cancel_body_untouched.
  - rewrite (ControlFacts.cancelDownload_idle _ _ _ _ E).
    now apply cancel_body_untouched.
Qed.

(** A start leaves every record untouched, and the fetch it issues asks
    for the whole media. *)
Lemma start_untouched path_join cwd w i now :
  (forall j d, getDownload (storage w) j = Some d -> untouched d) ->
  (forall j d, getDownload (storage (fst (startDownload path_join cwd w i now))) j = Some d ->
               untouched d) /\
  forall f, snd (startDownload path_join cwd w i now) = Some f -> whole f.
Proof.
  intros Hw.
  assert (Hcatch : forall text,
    (forall j d, getDownload (storage (startDownload_catch w i text)) j = Some d ->
                 untouched d)).
  { intros text. unfold startDownload_catch. cbn [setStorage storage].
    apply untouched_update; [apply (untouched_error text) | exact Hw]. }
  unfold startDownload.
  destruct (getDownload (storage w) i) as [d|] eqn:Hd;
    [|split; [apply Hcatch | discriminate]].
  destruct (getEpisode (storage w) (episodeId d)) as [e|];
    [|split; [apply Hcatch | discriminate]].
  destruct (negb (opt_truthy (downloadUrl e)));
    [split; [apply Hcatch | discriminate]|].
  destruct (getSeries (storage w) (seriesId e)) as [s|];
    [|split; [apply Hcatch | discriminate]].
  set (data := [f_filePath (Some (destination path_join cwd s e));
                f_status "downloading"; f_startedAt (Some now)]).
  unfold downloadFile. cbn [setStorage storage activeDownloads files].
  rewrite (getDownload_update _ _ data _ Hd).
  replace (status (spread d data)) with "downloading" by reflexivity.
  cbn [String.eqb Ascii.eqb Bool.eqb andb Z.ltb Z.compare fst snd setActive storage].
  split.
  - apply untouched_update; [|exact Hw]. intros d0. apply untouched_started.
  - intros f [= <-]. split; reflexivity.
Qed.

Lemma abortLast_keeps (P : Fetching -> Prop) i fs :
  Forall P fs -> Forall P (abortLast i fs).
Proof.
  induction 1 as [|f fs Hf Hfs IH]; cbn [abortLast]; [constructor|].
  destruct (existsb _ fs); [now constructor|].
  destruct (fe_downloadId f =? i)%Z; [exact Hfs | now constructor].
Qed.

Section Steps.

Variable path_join : list string -> string.
Variable cwd : string.
Variable abortError : string.
Variable unlinkSync_error : string -> option string.

Lemma exec_steady s ev :
  sane ev -> steady s ->
  steady (exec path_join cwd abortError unlinkSync_error s ev).
Proof.
  intros Hev [Hw Hp].
  destruct ev as [ins now|i now|i|i|i|k r now rs]; cbn [exec].
  - split; [|exact Hp]. cbn [world storage]. now apply created_untouched.
  - destruct (start_untouched path_join cwd (world s) i now Hw) as [Hw' Hf].
    destruct (startDownload path_join cwd (world s) i now) as [w' f].
    cbn [fst snd] in *. split; [exact Hw'|]. cbn [pending].
    apply Forall_app. split; [exact Hp|].
    destruct f as [f|]; cbn [issued]; [|constructor].
    constructor; [now apply Hf | constructor].
  - rewrite ResumeFacts.resume_not_paused.
    + split; [exact Hw|]. cbn [pending issued]. now rewrite app_nil_r.
    + intros d Hd. apply untouched_not_paused. eauto.
  - pose proof (pause_untouched abortError (world s) i Hw) as Hw'.
    destruct (pauseDownload abortError (world s) i) as [w' b]. cbn [fst] in Hw'.
    split; [exact Hw'|]. cbn [pending].
    destruct b; [now apply abortLast_keeps | exact Hp].
  - pose proof (cancel_untouched abortError unlinkSync_error (world s) i Hw) as Hw'.
    destruct (cancelDownload abortError unlinkSync_error (world s) i) as [w' o].
    cbn [fst] in Hw'. split; [exact Hw'|]. cbn [pending].
    destruct (activeDownloads (world s) !! i); [now apply abortLast_keeps | exact Hp].
  - destruct (pending s !! k) as [f|] eqn:Hk; [|now split].
    split; cbn [world pending]; [|now apply Forall_delete].
    rewrite respond_eq. apply onResponse_untouched; [| |exact Hw].
    + now destruct (proj1 (Forall_lookup _ _) Hp k f Hk).
    + cbn [sane] in Hev. destruct r as [|? ? [n|]]; auto.
Qed.

Lemma run_steady events : forall s,
  Forall sane events -> steady s ->
  steady (run path_join cwd abortError unlinkSync_error s events).
Proof.
  induction events as [|ev events IH]; intros s Hall Hs; [exact Hs|].
  apply Forall_cons in Hall. destruct Hall as [Hev Hall].
  cbn [run fold_left]. apply IH; [exact Hall|]. now apply exec_steady.
Qed.

Lemma idle_steady st fs : downloadsMap st = ∅ -> steady (idle st fs).
Proof.
  intros He. split; [|constructor].
  intros i d. unfold getDownload. cbn [idle world storage]. rewrite He.
  now rewrite lookup_empty.
Qed.

End Steps.

End RunFacts.




(** ** The batch download of a series *)

Module RoutesFacts.
Import JsString JsNumber Storage Routes.

Section Loop.
Variable URL_parses : string -> bool.
Variable getSourceHtml : string -> option string.
Variable parseEpisodePage : string -> option string.
Variable path_join : list string -> string.

Abbreviation ensure := (ensureDownloadUrl URL_parses getSourceHtml parseEpisodePage).
Abbreviation loop := (seriesLoop URL_parses getSourceHtml parseEpisodePage path_join).
Abbreviation usable := (hasOrObtainsUrl URL_parses getSourceHtml parseEpisodePage).
Abbreviation failing := (resolutionFails getSourceHtml parseEpisodePage).

Lemma failing_not_usable e : failing e = true -> usable e = false.
Proof.
  unfold resolutionFails, hasOrObtainsUrl.
  destruct (Downloader.opt_truthy (downloadUrl e)); cbn [negb andb orb];
    [discriminate|].
  destruct (getSourceHtml (sourceUrl e)) as [html|]; [|reflexivity].
  destruct (parseEpisodePage html); [discriminate | reflexivity].
Qed.

Lemma ensure_skip st e : ensure st e = None -> usable e = false.
Proof.
  unfold ensureDownloadUrl, hasOrObtainsUrl.
  destruct (Downloader.opt_truthy (downloadUrl e)); cbn [negb orb];
    [discriminate|].
  destruct (getSourceHtml (sourceUrl e)) as [html|]; [|reflexivity].
  destruct (parseEpisodePage html) as [u|]; [|reflexivity].
  now destruct (truthy u && Scraper.isValidVideoUrl URL_parses u).
Qed.

Lemma ensure_keep st e st1 e1 :
  ensure st e = Some (st1, e1) ->
  Downloader.opt_truthy (downloadUrl e1) = usable e /\
  e_id e1 = e_id e /\
  downloadsMap st1 = downloadsMap st /\
  downloadCurrentId st1 = downloadCurrentId st.
Proof.
  unfold ensureDownloadUrl, hasOrObtainsUrl.
  destruct (Downloader.opt_truthy (downloadUrl e)) eqn:Hu; cbn [negb orb].
  - intros [= <- <-]. now rewrite Hu.
  - destruct (getSourceHtml (sourceUrl e)) as [html|]; [|discriminate].
    destruct (parseEpisodePage html) as [u|]; [|discriminate].
    destruct (truthy u && Scraper.isValidVideoUrl URL_parses u) eqn:Hv.
    + intros [= <- <-]. cbn [with_downloadUrl downloadUrl e_id Downloader.opt_truthy].
      apply andb_true_iff in Hv. destruct Hv as [Ht _].
      repeat split; [now rewrite Ht| |];
        unfold updateEpisode_downloadUrl;
        now destruct (episodesMap st !! e_id e).
    + intros [= <- <-]. now rewrite Hu.
Qed.

Lemma stored_create st ds ins now :
  stored st ds ->
  stored (fst (createDownload st ins now))
         (ds ++ [snd (createDownload st ins now)]).
Proof.
  unfold stored. intros H. apply Forall_app. split.
  - eapply Forall_impl; [exact H|]. cbn beta.
    intros d (Hlt & Hq & Hg). unfold getDownload in *.
    cbn [createDownload fst with_downloads downloadCurrentId downloadsMap].
    split; [lia|]. split; [exact Hq|].
    rewrite lookup_insert_ne by lia. exact Hg.
  - constructor; [|constructor].
    cbn [createDownload fst snd with_downloads downloadCurrentId downloadsMap id status].
    unfold getDownload. cbn [downloadsMap].
    split; [lia|]. split; [reflexivity|]. apply lookup_insert_eq.
Qed.

Lemma stored_same st st1 ds :
  downloadsMap st1 = downloadsMap st ->
  downloadCurrentId st1 = downloadCurrentId st ->
  stored st ds -> stored st1 ds.
Proof.
  unfold stored, getDownload. intros -> ->. auto.
Qed.

Lemma staggered_push ds ts d :
  staggered ds ts ->
  staggered (ds ++ [d])
    (ts ++ [{| delay := Z.of_nat (List.length (ds ++ [d])) * 500; start := id d |}]).
Proof.
  intros [Hs Hd]. split.
  - rewrite !List.map_app, Hs. reflexivity.
  - rewrite List.map_app, Hd, List.length_app. cbn [List.length List.map delay].
    rewrite seq_app, List.map_app. cbn [seq List.map].
    now replace (1 + List.length ds)%nat with (List.length ds + 1)%nat by lia.
Qed.

Lemma seriesLoop_spec dp now eps : forall st ds ts st' ds' ts',
  loop st dp now eps ds ts = (st', ds', ts') ->
  stored st ds -> staggered ds ts ->
  List.map episodeId ds' =
    (List.map episodeId ds ++ List.map e_id (List.filter usable eps))%list /\
  stored st' ds' /\ staggered ds' ts'.
Proof.
  induction eps as [|e rest IH]; intros st ds ts st' ds' ts' H Hst Hsg.
  - cbn in H. injection H as <- <- <-. cbn. now rewrite app_nil_r.
  - cbn [seriesLoop] in H. cbn [List.filter].
    destruct (ensure st e) as [[st1 e1]|] eqn:He.
    + destruct (ensure_keep _ _ _ _ He) as (Hu & Hid & Hm & Hc).
      rewrite Hu in H. destruct (usable e) eqn:Hue.
      * destruct (createDownload st1 _ now) as [st2 d] eqn:Hcd in H.
        pose proof (stored_create st1 ds
                      (queued e1 (seriesFilePath path_join dp e1)) now
                      (stored_same _ _ _ Hm Hc Hst)) as Hst2.
        rewrite Hcd in Hst2. cbn [fst snd] in Hst2.
        destruct (IH _ _ _ _ _ _ H Hst2 (staggered_push _ _ d Hsg)) as (Hmap & R).
        split; [|exact R].
        rewrite Hmap, List.map_app, <- app_assoc. cbn [List.map app].
        assert (episodeId d = e_id e) as ->; [|reflexivity].
        change d with (snd (st2, d)). rewrite <- Hcd. cbn. exact Hid.
      * apply (IH _ _ _ _ _ _ H); [|exact Hsg].
        now apply (stored_same st st1).
    + rewrite (ensure_skip _ _ He). now apply (IH _ _ _ _ _ _ H).
Qed.

End Loop.
End RoutesFacts.

(** C8: in the batch download of a series, an episode whose page fetch or
    parse throws is skipped and the loop goes on: the reply lists one queued,
    stored download for every episode that has a media URL or obtains a valid
    one, in order and for no other episode, each with a timer that starts it;
    an episode whose resolution failed is not among them, and its failure
    keeps no sibling from being downloaded. *)
Theorem series_batch_survives_failures
    (URL_parses : string -> bool)
    (getSourceHtml parseEpisodePage : string -> option string)
    (path_join : list string -> string)
    (st : Storage.MemStorage) (sid : Z) (downloadPath : option string)
    (now : Storage.Date) (series : Storage.Series) :
  Storage.getSeries st sid = Some series ->
  Storage.getEpisodesBySeriesId st (Storage.s_id series) <> [] ->
  let episodes := Storage.getEpisodesBySeriesId st (Storage.s_id series) in
  let usable := Routes.hasOrObtainsUrl URL_parses getSourceHtml parseEpisodePage in
  exists st' downloads timers,
    Routes.downloadSeries URL_parses getSourceHtml parseEpisodePage path_join
      st sid downloadPath now = (st', Routes.Json downloads, timers) /\
    List.map Storage.episodeId downloads =
      List.map Storage.e_id (List.filter usable episodes) /\
    List.map Routes.start timers = List.map Storage.id downloads /\
    Forall (fun d => Storage.status d = "queued" /\
                     Storage.getDownload st' (Storage.id d) = Some d) downloads /\
    (forall e, In e episodes ->
       Routes.resolutionFails getSourceHtml parseEpisodePage e = true ->
       usable e = false) /\
    (forall e, In e episodes -> usable e = true ->
       exists d, In d downloads /\ Storage.episodeId d = Storage.e_id e /\
                 In (Storage.id d) (List.map Routes.start timers)).
Proof.
  intros Hs Hne episodes usable.
  unfold Routes.downloadSeries. rewrite Hs. fold episodes.
  destruct episodes as [|e0 rest] eqn:Heps; [now contradiction Hne|].
  rewrite <- Heps.
  destruct (Routes.seriesLoop URL_parses getSourceHtml parseEpisodePage path_join
              st downloadPath now episodes [] []) as [[st' ds] ts] eqn:Hl.
  destruct (RoutesFacts.seriesLoop_spec _ _ _ _ _ _ _ _ _ _ _ _ _ Hl)
    as (Hmap & Hst & Hsg & _).
  { constructor. }
  { split; reflexivity. }
  exists st', ds, ts. cbn [app List.map] in Hmap.
  split; [reflexivity|]. split; [exact Hmap|]. split; [exact Hsg|].
  split; [|split].
  - eapply Forall_impl; [exact Hst|]. cbn beta. tauto.
  - intros e _. apply RoutesFacts.failing_not_usable.
  - intros e Hin Hu.
    assert (Hid : In (Storage.e_id e) (List.map Storage.episodeId ds)).
    { rewrite Hmap. apply in_map. apply filter_In. now split. }
    apply in_map_iff in Hid. destruct Hid as (d & Hd & Hind).
    exists d. split; [exact Hind|]. split; [exact Hd|].
    rewrite Hsg. now apply in_map.
Qed.

Lemma series_batch_survives_failures_witness :
  exists st' downloads timers,
    Routes.downloadSeries Scraper.http_url_parses BatchExample.fetch BatchExample.parse
      BatchExample.join BatchExample.store 1%Z (Some "videos") 50%Z
    = (st', Routes.Json downloads, timers) /\
    List.map Storage.episodeId downloads = [1%Z; 3%Z].
Proof.
  destruct (series_batch_survives_failures Scraper.http_url_parses BatchExample.fetch
              BatchExample.parse BatchExample.join BatchExample.store 1%Z (Some "videos")
              50%Z BatchExample.show1)
    as (st' & ds & ts & H & Hmap & _).
  - vm_compute. reflexivity.
  - vm_compute. discriminate.
  - exists st', ds, ts. split; [exact H|]. rewrite Hmap. vm_compute. reflexivity.
Defined.

(* ===================================================================== *)
(** * Further properties of the store, the engine and the routes *)
(* ===================================================================== *)

(** ** The record store: listings, identifiers, deletion *)

Module StoreFacts.
Import JsString JsNumber Storage.

(** The values of a map are the stored values, each listed. *)
Lemma In_values {A} (m : gmap Z A) (x : A) :
  In x (values m) <-> exists k, m !! k = Some x.
Proof.
  unfold values. rewrite in_map_iff. split.
  - intros ([k y] & <- & Hin). exists k. cbn.
    apply list_elem_of_In in Hin. rewrite merge_sort_Permutation in Hin.
    now apply elem_of_map_to_list in Hin.
  - intros (k & Hk). exists (k, x). split; [reflexivity|].
    apply list_elem_of_In. rewrite merge_sort_Permutation.
    now apply elem_of_map_to_list.
Qed.

Lemma counters_ahead_empty : counters_ahead emptyStorage.
Proof.
  repeat split; intros i [x Hx]; cbn in Hx; now rewrite lookup_empty in Hx.
Qed.

Lemma insert_below {A} (m : gmap Z A) (k n : Z) (x : A) :
  (forall i, is_Some (m !! i) -> (i < n)%Z) -> (k < n)%Z ->
  forall i, is_Some (<[k := x]> m !! i) -> (i < n)%Z.
Proof.
  intros H Hk i Hi. destruct (decide (k = i)) as [<-|Hne]; [exact Hk|].
  rewrite lookup_insert_ne in Hi by exact Hne. now apply H.
Qed.

Lemma delete_below {A} (m : gmap Z A) (k n : Z) :
  (forall i, is_Some (m !! i) -> (i < n)%Z) ->
  forall i, is_Some (delete k m !! i) -> (i < n)%Z.
Proof.
  intros H i Hi. apply H. destruct (decide (k = i)) as [<-|Hne].
  - rewrite lookup_delete_eq in Hi. now destruct Hi.
  - now rewrite lookup_delete_ne in Hi by exact Hne.
Qed.

Lemma below_weaken {A} (m : gmap Z A) (n : Z) :
  (forall i, is_Some (m !! i) -> (i < n)%Z) ->
  forall i, is_Some (m !! i) -> (i < n + 1)%Z.
Proof. intros H i Hi. specialize (H i Hi). lia. Qed.

Lemma createSeries_ahead st ins now :
  counters_ahead st -> counters_ahead (fst (createSeries st ins now)).
Proof.
  intros (Hs & He & Hd). repeat split; cbn; intros i Hi; eauto.
  eapply insert_below; [| |exact Hi]; [apply below_weaken, Hs | lia].
Qed.

Lemma createEpisode_ahead st ins now :
  counters_ahead st -> counters_ahead (fst (createEpisode st ins now)).
Proof.
  intros (Hs & He & Hd). repeat split; cbn; intros i Hi; eauto.
  eapply insert_below; [| |exact Hi]; [apply below_weaken, He | lia].
Qed.

Lemma createDownload_ahead st ins now :
  counters_ahead st -> counters_ahead (fst (createDownload st ins now)).
Proof.
  intros (Hs & He & Hd). repeat split; cbn; intros i Hi; eauto.
  eapply insert_below; [| |exact Hi]; [apply below_weaken, Hd | lia].
Qed.

Lemma updateSeries_ahead st k data :
  counters_ahead st -> counters_ahead (fst (updateSeries st k data)).
Proof.
  intros (Hs & He & Hd). unfold updateSeries.
  destruct (seriesMap st !! k) eqn:E; [|now repeat split].
  repeat split; cbn; intros i Hi; eauto.
  eapply insert_below; [| |exact Hi]; [exact Hs | apply Hs; rewrite E; eauto].
Qed.

Lemma updateEpisode_ahead st k u :
  counters_ahead st -> counters_ahead (fst (updateEpisode_downloadUrl st k u)).
Proof.
  intros (Hs & He & Hd). unfold updateEpisode_downloadUrl.
  destruct (episodesMap st !! k) eqn:E; [|now repeat split].
  repeat split; cbn; intros i Hi; eauto.
  eapply insert_below; [| |exact Hi]; [exact He | apply He; rewrite E; eauto].
Qed.

Lemma updateDownload_ahead st k data :
  counters_ahead st -> counters_ahead (fst (updateDownload st k data)).
Proof.
  intros (Hs & He & Hd). unfold updateDownload.
  destruct (downloadsMap st !! k) eqn:E; [|now repeat split].
  repeat split; cbn; intros i Hi; eauto.
  eapply insert_below; [| |exact Hi]; [exact Hd | apply Hd; rewrite E; eauto].
Qed.

Lemma delete_ahead st k :
  counters_ahead st ->
  counters_ahead (fst (deleteSeries st k)) /\
  counters_ahead (fst (deleteEpisode st k)) /\
  counters_ahead (fst (deleteDownload st k)).
Proof.
  intros (Hs & He & Hd).
  repeat split; cbn; intros i Hi; eauto; eapply delete_below; eauto.
Qed.

End StoreFacts.

(** X1: the downloads listed for a status are exactly the stored downloads
    that have it. *)
Theorem getDownloadsByStatus_exact (st : Storage.MemStorage) (wanted : string)
    (d : Storage.Download) :
  In d (Storage.getDownloadsByStatus st wanted) <->
  Storage.status d = wanted /\ exists i, Storage.getDownload st i = Some d.
Proof.
  unfold Storage.getDownloadsByStatus, Storage.getDownload.
  rewrite filter_In, StoreFacts.In_values, String.eqb_eq. tauto.
Qed.

(** X2: the episodes listed for a series are exactly the stored episodes
    whose [seriesId] is that series. *)
Theorem getEpisodesBySeriesId_exact (st : Storage.MemStorage) (sid : Z)
    (e : Storage.Episode) :
  In e (Storage.getEpisodesBySeriesId st sid) <->
  Storage.seriesId e = sid /\ exists i, Storage.getEpisode st i = Some e.
Proof.
  unfold Storage.getEpisodesBySeriesId, Storage.getEpisode.
  rewrite filter_In, StoreFacts.In_values, Z.eqb_eq. tauto.
Qed.

(** X3: the store starts with every key below its counter and every
    operation on it keeps it so: creating, updating and deleting series,
    episodes and downloads. *)
Theorem counters_stay_ahead (st : Storage.MemStorage) :
  Storage.counters_ahead Storage.emptyStorage /\
  (Storage.counters_ahead st ->
   (forall ins now, Storage.counters_ahead (fst (Storage.createSeries st ins now))) /\
   (forall ins now, Storage.counters_ahead (fst (Storage.createEpisode st ins now))) /\
   (forall ins now, Storage.counters_ahead (fst (Storage.createDownload st ins now))) /\
   (forall i data, Storage.counters_ahead (fst (Storage.updateSeries st i data))) /\
   (forall i u, Storage.counters_ahead (fst (Storage.updateEpisode_downloadUrl st i u))) /\
   (forall i data, Storage.counters_ahead (fst (Storage.updateDownload st i data))) /\
   (forall i, Storage.counters_ahead (fst (Storage.deleteSeries st i))) /\
   (forall i, Storage.counters_ahead (fst (Storage.deleteEpisode st i))) /\
   (forall i, Storage.counters_ahead (fst (Storage.deleteDownload st i)))).
Proof.
  split; [apply StoreFacts.counters_ahead_empty|].
  intros H.
  split; [intros; now apply StoreFacts.createSeries_ahead|].
  split; [intros; now apply StoreFacts.createEpisode_ahead|].
  split; [intros; now apply StoreFacts.createDownload_ahead|].
  split; [intros; now apply StoreFacts.updateSeries_ahead|].
  split; [intros; now apply StoreFacts.updateEpisode_ahead|].
  split; [intros; now apply StoreFacts.updateDownload_ahead|].
  split; [|split]; intros i; now apply (StoreFacts.delete_ahead st i).
Qed.

Lemma counters_stay_ahead_witness :
  Storage.counters_ahead
    (fst (Storage.createDownload
            (fst (Storage.deleteDownload Storage.emptyStorage 4)) CreateExample.asked 10%Z)).
Proof.
  apply (counters_stay_ahead (fst (Storage.deleteDownload Storage.emptyStorage 4))).
  apply (counters_stay_ahead Storage.emptyStorage).
  apply (counters_stay_ahead Storage.emptyStorage).
Defined.

(** X4: in a store whose keys lie below its counters, a creation takes an
    identifier no stored record has and leaves every stored record as it
    was, for series, episodes and downloads alike. *)
Theorem create_never_overwrites (st : Storage.MemStorage) :
  Storage.counters_ahead st ->
  (forall ins now,
     Storage.getSeries st (Storage.s_id (snd (Storage.createSeries st ins now))) = None /\
     forall j x, Storage.getSeries st j = Some x ->
                 Storage.getSeries (fst (Storage.createSeries st ins now)) j = Some x) /\
  (forall ins now,
     Storage.getEpisode st (Storage.e_id (snd (Storage.createEpisode st ins now))) = None /\
     forall j x, Storage.getEpisode st j = Some x ->
                 Storage.getEpisode (fst (Storage.createEpisode st ins now)) j = Some x) /\
  (forall ins now,
     Storage.getDownload st (Storage.id (snd (Storage.createDownload st ins now))) = None /\
     forall j x, Storage.getDownload st j = Some x ->
                 Storage.getDownload (fst (Storage.createDownload st ins now)) j = Some x).
Proof.
  intros (Hs & He & Hd).
  assert (fresh : forall {A} (m : gmap Z A) n,
             (forall i, is_Some (m !! i) -> (i < n)%Z) -> m !! n = None).
  { intros A m n H. destruct (m !! n) eqn:E; [|reflexivity].
    assert (n < n)%Z by (apply H; rewrite E; eauto). lia. }
  assert (kept : forall {A} (m : gmap Z A) n (y : A) j x,
             (forall i, is_Some (m !! i) -> (i < n)%Z) -> m !! j = Some x ->
             <[n := y]> m !! j = Some x).
  { intros A m n y j x H Hj. rewrite lookup_insert_ne; [exact Hj|].
    assert (j < n)%Z by (apply H; rewrite Hj; eauto). lia. }
  unfold Storage.getSeries, Storage.getEpisode, Storage.getDownload.
  repeat split; cbn; intros; eauto.
Qed.

Lemma create_never_overwrites_witness :
  Storage.getDownload Storage.emptyStorage
    (Storage.id (snd (Storage.createDownload Storage.emptyStorage CreateExample.asked 10%Z)))
  = None.
Proof.
  apply (create_never_overwrites Storage.emptyStorage).
  apply StoreFacts.counters_ahead_empty.
Defined.

(** X5: a lookup by source URL answers with a stored series of that URL, and
    with nothing exactly when no stored series has it; a series created under
    a URL that no stored series had is the one the lookup then finds. *)
Theorem getSeriesBySourceUrl_finds (st : Storage.MemStorage) (u : string) :
  (forall s, Storage.getSeriesBySourceUrl st u = Some s ->
     Storage.s_sourceUrl s = u /\ exists i, Storage.getSeries st i = Some s) /\
  (Storage.getSeriesBySourceUrl st u = None <->
     forall i s, Storage.getSeries st i = Some s -> Storage.s_sourceUrl s <> u) /\
  (forall ins now,
     Storage.is_sourceUrl ins = u ->
     Storage.getSeriesBySourceUrl st u = None ->
     Storage.getSeriesBySourceUrl (fst (Storage.createSeries st ins now)) u
     = Some (snd (Storage.createSeries st ins now))).
Proof.
  unfold Storage.getSeriesBySourceUrl, Storage.getSeries.
  assert (Hhit : forall st' s,
            find (fun series => String.eqb (Storage.s_sourceUrl series) u)
              (Storage.values (Storage.seriesMap st')) = Some s ->
            Storage.s_sourceUrl s = u /\ exists i, Storage.seriesMap st' !! i = Some s).
  { intros st' s H. apply find_some in H. destruct H as [Hin Hu].
    split; [now apply String.eqb_eq|]. now apply StoreFacts.In_values. }
  assert (Hmiss : forall st',
            find (fun series => String.eqb (Storage.s_sourceUrl series) u)
              (Storage.values (Storage.seriesMap st')) = None <->
            forall i s, Storage.seriesMap st' !! i = Some s -> Storage.s_sourceUrl s <> u).
  { intros st'. split.
    - intros H i s Hs Hu.
      assert (Hin : In s (Storage.values (Storage.seriesMap st')))
        by (apply StoreFacts.In_values; eauto).
      pose proof (find_none _ _ H s Hin) as Hf. cbn beta in Hf.
      apply String.eqb_neq in Hf. contradiction.
    - intros H.
      destruct (find _ (Storage.values (Storage.seriesMap st'))) as [s|] eqn:E;
        [|reflexivity].
      destruct (Hhit st' s E) as [Hu [i Hi]]. now destruct (H i s Hi). }
  split; [apply Hhit|]. split; [apply Hmiss|].
  intros ins now Hu Hnone.
  destruct (find _ (Storage.values
                      (Storage.seriesMap (fst (Storage.createSeries st ins now)))))
    as [s|] eqn:E.
  - destruct (Hhit _ s E) as [Hsu [i Hi]]. cbn in Hi.
    destruct (decide (Storage.seriesCurrentId st = i)) as [<-|Hne].
    + rewrite lookup_insert_eq in Hi. now injection Hi as <-.
    + rewrite lookup_insert_ne in Hi by exact Hne.
      now destruct (proj1 (Hmiss st) Hnone i s Hi).
  - exfalso. apply (proj1 (Hmiss _) E (Storage.seriesCurrentId st)
                      (snd (Storage.createSeries st ins now))).
    + cbn. apply lookup_insert_eq.
    + cbn. exact Hu.
Qed.

Lemma getSeriesBySourceUrl_finds_witness :
  Storage.getSeriesBySourceUrl
    (fst (Storage.createSeries Storage.emptyStorage StoreExample.foo 5%Z))
    "https://site/cartoon/foo"
  = Some (snd (Storage.createSeries Storage.emptyStorage StoreExample.foo 5%Z)).
Proof.
  apply (getSeriesBySourceUrl_finds Storage.emptyStorage "https://site/cartoon/foo").
  - reflexivity.
  - vm_compute. reflexivity.
Defined.

(** X6: deleting a download answers whether it was stored, leaves no record
    under that id and every other record in place, and a second deletion
    answers false. *)
Theorem deleteDownload_removes (st : Storage.MemStorage) (i : Z) :
  (snd (Storage.deleteDownload st i) = true <-> is_Some (Storage.getDownload st i)) /\
  Storage.getDownload (fst (Storage.deleteDownload st i)) i = None /\
  (forall j, j <> i ->
     Storage.getDownload (fst (Storage.deleteDownload st i)) j = Storage.getDownload st j) /\
  snd (Storage.deleteDownload (fst (Storage.deleteDownload st i)) i) = false.
Proof.
  unfold Storage.deleteDownload, Storage.getDownload. cbn.
  split; [|split; [|split]].
  - destruct (Storage.downloadsMap st !! i); split; eauto; try discriminate.
    intros [? ?]; discriminate.
  - apply lookup_delete_eq.
  - intros j Hj. now apply lookup_delete_ne.
  - now rewrite lookup_delete_eq.
Qed.

Lemma deleteDownload_removes_witness :
  Storage.getDownload
    (fst (Storage.deleteDownload
            (fst (Storage.createDownload Storage.emptyStorage CreateExample.asked 10%Z)) 2))
    1 = Some (snd (Storage.createDownload Storage.emptyStorage CreateExample.asked 10%Z)).
Proof.
  rewrite (proj1 (proj2 (proj2 (deleteDownload_removes
             (fst (Storage.createDownload Storage.emptyStorage CreateExample.asked 10%Z))
             2))) 1%Z); [|lia].
  vm_compute. reflexivity.
Defined.

(** ** The engine: pause, resume, cancel, start, and the settled fetch *)

Module EngineFacts.
Import JsString JsNumber Storage Downloader StorageFacts.

(** The statements of a pause or of a cancel keep a stored record
    stored. *)
Lemma control_keeps_record unlinkSync_error w i d :
  getDownload (storage w) i = Some d ->
  is_Some (getDownload (storage (fst (pauseDownload_body w i))) i) /\
  is_Some (getDownload (storage (fst (cancelDownload_body unlinkSync_error w i))) i).
Proof.
  intros Hd. split.
  - unfold pauseDownload_body.
    destruct (activeDownloads w !! i); cbn [fst]; [|rewrite Hd; eauto].
    cbn [setStorage setActive storage]. rewrite (getDownload_update _ _ _ _ Hd). eauto.
  - destruct (unlinked w i) as [p|] eqn:Hp.
    + destruct (unlinkSync_error p) as [message|] eqn:Hu.
      * rewrite (ControlFacts.cancelDownload_body_threw _ _ _ _ _ Hp Hu).
        cbn [fst storage]. rewrite Hd. eauto.
      * rewrite ControlFacts.cancelDownload_body_eq by congruence.
        cbn [fst storage]. rewrite (getDownload_update _ _ _ _ Hd). eauto.
    + rewrite ControlFacts.cancelDownload_body_eq by congruence.
      cbn [fst storage]. rewrite (getDownload_update _ _ _ _ Hd). eauto.
Qed.

End EngineFacts.

(** X7: a pause answers false exactly when the id has no handle, and then
    changes nothing.  A pause never touches the disk, another id's handle or
    another download's record.  When it answers true, the handle of the id
    is gone and its record differs from before in two fields: the status,
    which is "error" and not "paused", and the error, which is the text of
    the abort. *)
Theorem pauseDownload_effect (abortError : string) (w : Downloader.World)
    (downloadId : Z) :
  let w' := fst (Downloader.pauseDownload abortError w downloadId) in
  (snd (Downloader.pauseDownload abortError w downloadId) = false <->
   Downloader.activeDownloads w !! downloadId = None) /\
  (snd (Downloader.pauseDownload abortError w downloadId) = false -> w' = w) /\
  Downloader.files w' = Downloader.files w /\
  (forall j, j <> downloadId ->
     Downloader.activeDownloads w' !! j = Downloader.activeDownloads w !! j /\
     Storage.getDownload (Downloader.storage w') j =
     Storage.getDownload (Downloader.storage w) j) /\
  (snd (Downloader.pauseDownload abortError w downloadId) = true ->
   Downloader.activeDownloads w' !! downloadId = None /\
   forall d, Storage.getDownload (Downloader.storage w) downloadId = Some d ->
     Storage.getDownload (Downloader.storage w') downloadId =
     Some (Storage.assign (Storage.assign d (Storage.f_status "error"))
             (Storage.f_error (Some abortError)))).
Proof.
  destruct (Downloader.activeDownloads w !! downloadId) as [h|] eqn:E.
  - pose proof (ControlFacts.pause_record abortError w downloadId h) as Hrec.
    rewrite (ControlFacts.pauseDownload_some _ _ _ _ E) in *.
    cbn [fst snd Downloader.storage Downloader.activeDownloads Downloader.files] in *.
    split; [split; discriminate|]. split; [discriminate|]. split; [reflexivity|].
    split.
    + intros j Hj. split; [now apply lookup_delete_ne|].
      now rewrite !StorageFacts.getDownload_update_other.
    + intros _. split; [apply lookup_delete_eq|]. intros d Hd. now apply Hrec.
  - rewrite (ControlFacts.pauseDownload_none _ _ _ E). cbn [fst snd].
    split; [split; reflexivity|]. split; [reflexivity|]. split; [reflexivity|].
    split; [intros; split; reflexivity | discriminate].
Qed.

Lemma pauseDownload_effect_witness :
  Storage.status <$>
    Storage.getDownload
      (Downloader.storage
         (fst (Downloader.pauseDownload RunExample.aborted_text
                 (Downloader.world RunExample.requested) 7))) 7
  = Some "error" /\
  fst (Downloader.pauseDownload RunExample.aborted_text
         (Downloader.world RunExample.requested) 8)
  = Downloader.world RunExample.requested.
Proof.
  destruct (pauseDownload_effect RunExample.aborted_text
              (Downloader.world RunExample.requested) 7) as (_ & _ & _ & _ & H).
  destruct (pauseDownload_effect RunExample.aborted_text
              (Downloader.world RunExample.requested) 8) as (_ & H8 & _).
  split.
  - destruct H as [_ H]; [vm_compute; reflexivity|].
    erewrite H; [reflexivity | vm_compute; reflexivity].
  - apply H8. vm_compute. reflexivity.
Defined.

(** X8: a resume answers true exactly when the download is stored with
    status "paused" and its episode is stored with a media URL; when it
    answers false, nothing is fetched and nothing has changed. *)
Theorem resumeDownload_refuses (w : Downloader.World) (downloadId : Z) :
  (snd (fst (Downloader.resumeDownload w downloadId)) = true <->
   exists d e,
     Storage.getDownload (Downloader.storage w) downloadId = Some d /\
     Storage.status d = "paused" /\
     Storage.getEpisode (Downloader.storage w) (Storage.episodeId d) = Some e /\
     Downloader.opt_truthy (Storage.downloadUrl e) = true) /\
  (snd (fst (Downloader.resumeDownload w downloadId)) = false ->
   Downloader.resumeDownload w downloadId = (w, false, None)).
Proof.
  unfold Downloader.resumeDownload.
  destruct (Storage.getDownload (Downloader.storage w) downloadId) as [d|] eqn:Hd.
  2: { split; [|reflexivity]. split; [discriminate|]. intros (? & ? & [=] & _). }
  destruct (String.eqb (Storage.status d) "paused") eqn:Hs; cbn [negb].
  2: { split; [|reflexivity]. split; [discriminate|].
       intros (d' & e & [= <-] & Hp & _). rewrite Hp in Hs. discriminate. }
  apply String.eqb_eq in Hs.
  destruct (Storage.getEpisode (Downloader.storage w) (Storage.episodeId d))
    as [e|] eqn:He.
  2: { split; [|reflexivity]. split; [discriminate|].
       intros (d' & e & [= <-] & _ & He' & _). congruence. }
  destruct (Downloader.opt_truthy (Storage.downloadUrl e)) eqn:Hu; cbn [negb].
  2: { split; [|reflexivity]. split; [discriminate|].
       intros (d' & e' & [= <-] & _ & He' & Hu'). congruence. }
  destruct (Downloader.downloadFile _ downloadId e _) as [w2 f]. cbn [fst snd].
  split; [|discriminate]. split; [|reflexivity].
  intros _. exists d, e. auto.
Qed.

Lemma resumeDownload_refuses_witness :
  Downloader.resumeDownload ControlExample.inFlight 7
  = (ControlExample.inFlight, false, None).
Proof.
  apply (resumeDownload_refuses ControlExample.inFlight 7).
  vm_compute. reflexivity.
Defined.

(** X9: in the world a cancel leaves when it returns, with nothing started
    in between, a pause of the same id answers false and a resume answers
    false, and neither changes anything. *)
Theorem pause_and_resume_refused_after_cancel (abortError : string)
    (unlinkSync_error : string -> option string) (w : Downloader.World)
    (downloadId : Z) :
  let w' := fst (Downloader.cancelDownload abortError unlinkSync_error w downloadId) in
  snd (Downloader.cancelDownload abortError unlinkSync_error w downloadId)
    = Downloader.Returned true ->
  Downloader.pauseDownload abortError w' downloadId = (w', false) /\
  Downloader.resumeDownload w' downloadId = (w', false, None).
Proof.
  cbv zeta. intros Hret.
  assert (Hbody : Downloader.cancelDownload_body unlinkSync_error w downloadId =
    ({| Downloader.storage :=
          fst (Storage.updateDownload (Downloader.storage w) downloadId
                 Downloader.cancelled);
        Downloader.activeDownloads := delete downloadId (Downloader.activeDownloads w);
        Downloader.files := Downloader.filesAfterCancel w downloadId |},
     Downloader.Returned true)).
  { apply ControlFacts.cancelDownload_body_eq. intros p Hp.
    destruct (unlinkSync_error p) as [message|] eqn:Hu; [|reflexivity].
    pose proof (ControlFacts.cancelDownload_body_threw _ _ _ _ _ Hp Hu) as Ht.
    destruct (Downloader.activeDownloads w !! downloadId) as [h|] eqn:E.
    - rewrite (ControlFacts.cancelDownload_pending _ _ _ _ _ E), Ht in Hret.
      discriminate.
    - rewrite (ControlFacts.cancelDownload_idle _ _ _ _ E), Ht in Hret. discriminate. }
  assert (Hcancelled : forall d',
    Storage.getDownload
      (fst (Storage.updateDownload (Downloader.storage w) downloadId Downloader.cancelled))
      downloadId = Some d' -> Storage.status d' = "cancelled").
  { intros d'. destruct (Storage.getDownload (Downloader.storage w) downloadId)
      as [d|] eqn:Hd.
    - rewrite (StorageFacts.getDownload_update _ _ Downloader.cancelled _ Hd).
      now intros [= <-].
    - rewrite (StorageFacts.update_missing_same _ _ _ Hd), Hd. discriminate. }
  destruct (Downloader.activeDownloads w !! downloadId) as [h|] eqn:E.
  - rewrite (ControlFacts.cancelDownload_pending _ _ _ _ _ E), Hbody. cbn [fst].
    split.
    + apply ControlFacts.pauseDownload_none. unfold Downloader.downloadFile_catch.
      cbn [Downloader.setStorage Downloader.setActive Downloader.activeDownloads].
      apply lookup_delete_eq.
    + apply ResumeFacts.resume_not_paused. intros d'.
      unfold Downloader.downloadFile_catch.
      cbn [Downloader.setStorage Downloader.setActive Downloader.storage].
      destruct (Storage.getDownload
                  (fst (Storage.updateDownload (Downloader.storage w) downloadId
                          Downloader.cancelled)) downloadId) as [d1|] eqn:Hd1.
      * rewrite (StorageFacts.getDownload_update _ _ _ _ Hd1). now intros [= <-].
      * rewrite (StorageFacts.update_missing_same _ _ _ Hd1), Hd1. discriminate.
  - rewrite (ControlFacts.cancelDownload_idle _ _ _ _ E), Hbody. cbn [fst].
    split.
    + apply ControlFacts.pauseDownload_none. cbn [Downloader.activeDownloads].
      apply lookup_delete_eq.
    + apply ResumeFacts.resume_not_paused. cbn [Downloader.storage].
      intros d' Hd' Hp. now rewrite (Hcancelled d' Hd') in Hp.
Qed.

Lemma pause_and_resume_refused_after_cancel_witness :
  snd (Downloader.pauseDownload RunExample.aborted_text
         (fst (Downloader.cancelDownload RunExample.aborted_text RunExample.removes
                 (Downloader.world RunExample.requested) 7)) 7) = false.
Proof.
  destruct (pause_and_resume_refused_after_cancel RunExample.aborted_text RunExample.removes
              (Downloader.world RunExample.requested) 7) as [Hp _].
  - vm_compute. reflexivity.
  - now rewrite Hp.
Defined.

(** X31: for an id without a handle, and a file the platform removes, a
    cancel returns true and a second cancel returns true and changes nothing
    more.  When a download is stored under the id, its record afterwards has
    status "cancelled", progress 0 and downloadedSize 0, its other fields as
    before, and no file exists at its path. *)
Theorem cancel_without_fetch (abortError : string)
    (unlinkSync_error : string -> option string) (w : Downloader.World)
    (downloadId : Z) :
  Downloader.activeDownloads w !! downloadId = None ->
  (forall p, Downloader.unlinked w downloadId = Some p -> unlinkSync_error p = None) ->
  let once := Downloader.cancelDownload abortError unlinkSync_error w downloadId in
  snd once = Downloader.Returned true /\
  Downloader.cancelDownload abortError unlinkSync_error (fst once) downloadId
    = (fst once, Downloader.Returned true) /\
  (forall d, Storage.getDownload (Downloader.storage w) downloadId = Some d ->
     Storage.getDownload (Downloader.storage (fst once)) downloadId =
       Some (Storage.spread d Downloader.cancelled) /\
     forall p, Storage.filePath d = Some p -> JsString.truthy p = true ->
               Downloader.existsSync (Downloader.files (fst once)) p = false).
Proof.
  intros Hn Hok once. subst once.
  rewrite (ControlFacts.cancelDownload_idle _ _ _ _ Hn).
  pose proof (ControlFacts.cancelDownload_body_twice _ _ _ Hok) as Htwice.
  pose proof (ControlFacts.cancelDownload_body_eq _ _ _ Hok) as Hb.
  split; [now rewrite Hb|]. split.
  - rewrite ControlFacts.cancelDownload_idle; [exact Htwice|].
    rewrite Hb. cbn [fst Downloader.activeDownloads]. apply lookup_delete_eq.
  - intros d Hd. rewrite Hb. cbn [fst Downloader.storage Downloader.files].
    split; [now apply StorageFacts.getDownload_update|].
    intros p Hp Ht. unfold Downloader.existsSync.
    now rewrite (ControlFacts.filesAfterCancel_gone w downloadId d p Hd Hp Ht).
Qed.

Lemma cancel_without_fetch_witness :
  Downloader.existsSync (Downloader.files (Downloader.world RunExample.unsized))
    "/srv/downloads/foo/season-1/episode-1.mp4" = true /\
  Downloader.existsSync
    (Downloader.files
       (fst (Downloader.cancelDownload RunExample.aborted_text RunExample.removes
               (Downloader.world RunExample.unsized) 7)))
    "/srv/downloads/foo/season-1/episode-1.mp4" = false.
Proof.
  split; [vm_compute; reflexivity|].
  destruct (cancel_without_fetch RunExample.aborted_text RunExample.removes
              (Downloader.world RunExample.unsized) 7) as (_ & _ & H);
    [vm_compute; reflexivity | reflexivity |].
  edestruct H as [_ Hf]; [vm_compute; reflexivity|].
  apply Hf; vm_compute; reflexivity.
Defined.

(** X12: when the fetch is rejected, or answered with a status outside
    200..299, no task starts, the disk is left as it was (no file is created
    or emptied), the handle is removed, and the stored record gets status
    "error" with the failure's text. *)
Theorem failed_fetch_marks_error (w : Downloader.World) (f : Downloader.Fetching)
    (r : Downloader.FetchResult) (now : Z) :
  match r with
  | Downloader.Rejected _ => True
  | Downloader.Response code _ _ => (code < 200)%Z \/ (299 < code)%Z
  end ->
  let w' := fst (Downloader.onResponse w f r now) in
  snd (Downloader.onResponse w f r now) = None /\
  Downloader.files w' = Downloader.files w /\
  Downloader.activeDownloads w' !! Downloader.fe_downloadId f = None /\
  forall d, Storage.getDownload (Downloader.storage w) (Downloader.fe_downloadId f) = Some d ->
    exists d',
      Storage.getDownload (Downloader.storage w') (Downloader.fe_downloadId f) = Some d' /\
      Storage.status d' = "error" /\
      Storage.error d' = Some (Downloader.failureText r) /\
      Storage.downloadedSize d' = Storage.downloadedSize d /\
      Storage.filePath d' = Storage.filePath d.
Proof.
  intros Hr.
  assert (Hcatch : forall text,
    let w' := Downloader.downloadFile_catch w (Downloader.fe_downloadId f) text in
    Downloader.files w' = Downloader.files w /\
    Downloader.activeDownloads w' !! Downloader.fe_downloadId f = None /\
    forall d, Storage.getDownload (Downloader.storage w) (Downloader.fe_downloadId f) = Some d ->
      exists d',
        Storage.getDownload (Downloader.storage w') (Downloader.fe_downloadId f) = Some d' /\
        Storage.status d' = "error" /\ Storage.error d' = Some text /\
        Storage.downloadedSize d' = Storage.downloadedSize d /\
        Storage.filePath d' = Storage.filePath d).
  { intros text. unfold Downloader.downloadFile_catch.
    cbn [Downloader.setStorage Downloader.setActive Downloader.files
         Downloader.activeDownloads Downloader.storage].
    split; [reflexivity|]. split; [apply lookup_delete_eq|].
    intros d Hd. eexists.
    split; [apply (StorageFacts.getDownload_update _ _ _ _ Hd)|]. repeat split. }
  destruct r as [text|code text len]; cbn [Downloader.onResponse Downloader.failureText].
  - cbn [fst snd]. split; [reflexivity|]. apply Hcatch.
  - assert (Hbad : negb ((200 <=? code)%Z && (code <=? 299)%Z) && negb (code =? 206)%Z = true).
    { destruct Hr as [Hlt|Hgt].
      - replace (200 <=? code)%Z with false by (symmetry; apply Z.leb_gt; lia).
        replace (code =? 206)%Z with false by (symmetry; apply Z.eqb_neq; lia).
        reflexivity.
      - replace (code <=? 299)%Z with false by (symmetry; apply Z.leb_gt; lia).
        replace (code =? 206)%Z with false by (symmetry; apply Z.eqb_neq; lia).
        now rewrite andb_false_r. }
    rewrite Hbad. cbn [fst snd]. split; [reflexivity|]. apply Hcatch.
Qed.

Lemma failed_fetch_marks_error_witness :
  Storage.error <$>
    Storage.getDownload
      (Downloader.storage
         (fst (Downloader.onResponse (fst FetchExample.requested) FetchExample.fetching
                 (Downloader.Response 404 "Not Found" None) 0))) 7
  = Some (Some "Error: Failed to download: 404 Not Found").
Proof.
  destruct (failed_fetch_marks_error (fst FetchExample.requested) FetchExample.fetching
              (Downloader.Response 404 "Not Found" None) 0) as (_ & _ & _ & H).
  - right. lia.
  - destruct (H Scenario.download) as (d' & Hg & _ & He & _).
    + vm_compute. reflexivity.
    + change (Downloader.fe_downloadId FetchExample.fetching) with 7%Z in Hg.
      rewrite Hg. cbn [fmap option_fmap option_map]. rewrite He. reflexivity.
Defined.

(** X13: a start that finds no episode, no media URL on it, or no series
    stops there: nothing is fetched, no handle is registered, the disk is
    untouched, and the record gets status "error" with the text that names
    what was missing. *)
Theorem startDownload_refuses (path_join : list string -> string) (cwd : string)
    (w : Downloader.World) (downloadId : Z) (now : Z) (d : Storage.Download) :
  Storage.getDownload (Downloader.storage w) downloadId = Some d ->
  let r := Downloader.startDownload path_join cwd w downloadId now in
  let failed (text : string) :=
    snd r = None /\
    Downloader.activeDownloads (fst r) = Downloader.activeDownloads w /\
    Downloader.files (fst r) = Downloader.files w /\
    Storage.getDownload (Downloader.storage (fst r)) downloadId =
      Some (Storage.spread d [Storage.f_status "error"; Storage.f_error (Some text)]) in
  (Storage.getEpisode (Downloader.storage w) (Storage.episodeId d) = None ->
   failed ("Error: Episode with ID " ++ Downloader.string_of_Z (Storage.episodeId d)
           ++ " not found")) /\
  (forall e,
     Storage.getEpisode (Downloader.storage w) (Storage.episodeId d) = Some e ->
     Downloader.opt_truthy (Storage.downloadUrl e) = false ->
     failed ("Error: No download URL for episode with ID "
             ++ Downloader.string_of_Z (Storage.episodeId d))) /\
  (forall e,
     Storage.getEpisode (Downloader.storage w) (Storage.episodeId d) = Some e ->
     Downloader.opt_truthy (Storage.downloadUrl e) = true ->
     Storage.getSeries (Downloader.storage w) (Storage.seriesId e) = None ->
     failed ("Error: Series with ID " ++ Downloader.string_of_Z (Storage.seriesId e)
             ++ " not found")).
Proof.
  intros Hd r failed. subst r failed. cbv beta.
  unfold Downloader.startDownload. rewrite Hd.
  assert (Hcatch : forall text,
    Downloader.activeDownloads (Downloader.startDownload_catch w downloadId text)
      = Downloader.activeDownloads w /\
    Downloader.files (Downloader.startDownload_catch w downloadId text)
      = Downloader.files w /\
    Storage.getDownload
      (Downloader.storage (Downloader.startDownload_catch w downloadId text)) downloadId
      = Some (Storage.spread d [Storage.f_status "error"; Storage.f_error (Some text)])).
  { intros text. unfold Downloader.startDownload_catch.
    cbn [Downloader.setStorage Downloader.activeDownloads Downloader.files
         Downloader.storage].
    repeat split. apply (StorageFacts.getDownload_update _ _ _ _ Hd). }
  split; [|split].
  - intros ->. cbn [fst snd]. split; [reflexivity | apply Hcatch].
  - intros e -> ->. cbn [negb fst snd]. split; [reflexivity | apply Hcatch].
  - intros e -> -> ->. cbn [negb fst snd]. split; [reflexivity | apply Hcatch].
Qed.

Lemma startDownload_refuses_witness :
  Storage.error <$>
    Storage.getDownload
      (Downloader.storage
         (fst (Downloader.startDownload EngineExample.join "/srv" Scenario.started 7 0))) 7
  = Some (Some "Error: Series with ID 1 not found").
Proof.
  destruct (startDownload_refuses EngineExample.join "/srv" Scenario.started 7 0
              Scenario.download) as (_ & _ & H).
  - vm_compute. reflexivity.
  - destruct (H Scenario.episode) as (_ & _ & _ & Hg);
      [vm_compute; reflexivity..|].
    rewrite Hg. reflexivity.
Defined.

(** X14: a start that finds the episode with a media URL and its series
    registers a fresh handle (whatever handle the id had), stores status
    "downloading", the start time and the destination derived from the
    series title, season and episode number (whatever path the record had),
    and asks for the whole media: the request has no Range and the offset is
    0, even when a file already sits at the destination. *)
Theorem startDownload_starts_afresh (path_join : list string -> string) (cwd : string)
    (w : Downloader.World) (downloadId : Z) (now : Z) (d : Storage.Download)
    (e : Storage.Episode) (s : Storage.Series) :
  Storage.getDownload (Downloader.storage w) downloadId = Some d ->
  Storage.getEpisode (Downloader.storage w) (Storage.episodeId d) = Some e ->
  Downloader.opt_truthy (Storage.downloadUrl e) = true ->
  Storage.getSeries (Downloader.storage w) (Storage.seriesId e) = Some s ->
  let r := Downloader.startDownload path_join cwd w downloadId now in
  let dest := Downloader.destination path_join cwd s e in
  (exists f,
     snd r = Some f /\ Downloader.fe_filePath f = dest /\
     Downloader.req_url (Downloader.fe_request f) = Storage.downloadUrl e /\
     Downloader.req_range (Downloader.fe_request f) = None /\
     Downloader.fe_resumePosition f = 0%Z) /\
  Downloader.activeDownloads (fst r) !! downloadId =
    Some {| Downloader.aborted := false; Downloader.resumePosition := 0;
            Downloader.stream := None |} /\
  Downloader.files (fst r) = Downloader.files w /\
  Storage.getDownload (Downloader.storage (fst r)) downloadId =
    Some (Storage.spread d [Storage.f_filePath (Some dest);
                            Storage.f_status "downloading";
                            Storage.f_startedAt (Some now)]).
Proof.
  intros Hd He Hu Hs r dest. subst r dest.
  unfold Downloader.startDownload. rewrite Hd, He, Hu, Hs. cbn [negb].
  set (dest := Downloader.destination path_join cwd s e).
  set (data := [Storage.f_filePath (Some dest); Storage.f_status "downloading";
                Storage.f_startedAt (Some now)]).
  unfold Downloader.downloadFile.
  cbn [Downloader.setStorage Downloader.storage Downloader.files
       Downloader.activeDownloads].
  rewrite (StorageFacts.getDownload_update _ _ data _ Hd).
  replace (Storage.status (Storage.spread d data)) with "downloading" by reflexivity.
  cbn [String.eqb Ascii.eqb Bool.eqb andb Z.ltb Z.compare fst snd
       Downloader.setActive Downloader.storage Downloader.files
       Downloader.activeDownloads].
  split; [eexists; repeat split|].
  split; [apply lookup_insert_eq|]. split; [reflexivity|].
  apply (StorageFacts.getDownload_update _ _ data _ Hd).
Qed.

Lemma startDownload_starts_afresh_witness :
  Storage.filePath <$>
    Storage.getDownload
      (Downloader.storage
         (fst (Downloader.startDownload EngineExample.join "/srv"
                 EngineExample.withSeries 7 9))) 7
  = Some (Some "/srv/downloads/foo/season-1/episode-1.mp4").
Proof.
  destruct (startDownload_starts_afresh EngineExample.join "/srv"
              EngineExample.withSeries 7 9 Scenario.download Scenario.episode
              BatchExample.show1) as (_ & _ & _ & Hg);
    [vm_compute; reflexivity..|].
  rewrite Hg. vm_compute. reflexivity.
Defined.

(** X25: a pause or a cancel issued while the fetch is still pending does
    not stick: when the aborted fetch rejects, the record of the download
    ends with status "error" and the rejection's text, not "paused" or
    "cancelled". *)
Theorem abort_while_fetching_ends_in_error
    (unlinkSync_error : string -> option string) (w : Downloader.World)
    (f : Downloader.Fetching) (text : string) (now : Z) (d : Storage.Download) :
  Storage.getDownload (Downloader.storage w) (Downloader.fe_downloadId f) = Some d ->
  forall w',
    w' = fst (Downloader.pauseDownload_body w (Downloader.fe_downloadId f)) \/
    w' = fst (Downloader.cancelDownload_body unlinkSync_error w
                (Downloader.fe_downloadId f)) ->
    exists d',
      Storage.getDownload
        (Downloader.storage (fst (Downloader.onResponse w' f (Downloader.Rejected text) now)))
        (Downloader.fe_downloadId f) = Some d' /\
      Storage.status d' = "error" /\ Storage.error d' = Some text.
Proof.
  intros Hd w' Hw'.
  destruct (EngineFacts.control_keeps_record unlinkSync_error w _ d Hd)
    as [[dp Hp] [dc Hc]].
  cbn [Downloader.onResponse fst].
  destruct Hw' as [->| ->]; eexists;
    (split; [eapply ControlFacts.catch_marks_error; eassumption|]); split; reflexivity.
Qed.

Lemma abort_while_fetching_ends_in_error_witness :
  exists d',
    Storage.getDownload
      (Downloader.storage
         (fst (Downloader.onResponse
                 (fst (Downloader.cancelDownload_body RunExample.removes
                         (fst FetchExample.requested) 7))
                 FetchExample.fetching (Downloader.Rejected "AbortError: aborted") 0)))
      7 = Some d' /\
    Storage.status d' = "error".
Proof.
  destruct (abort_while_fetching_ends_in_error RunExample.removes
              (fst FetchExample.requested)
              FetchExample.fetching "AbortError: aborted" 0 Scenario.download)
    with (w' := fst (Downloader.cancelDownload_body RunExample.removes
                       (fst FetchExample.requested) 7))
    as (d' & Hg & Hs & _).
  - vm_compute. reflexivity.
  - right. reflexivity.
  - exists d'. split; [exact Hg | exact Hs].
Defined.

(** X29: no response starts a transfer.  A response with a status in
    200..299 is taken as far as the [getReader()] call on its body, which
    throws: whatever the body would deliver, no task comes out, the handle
    is removed, and the record ends with status "error" and the text of that
    error, its downloadedSize and progress as they were; the totalSize
    announced has been recorded if none was known when the download was
    read. *)
Theorem taken_response_ends_in_error (w : Downloader.World) (f : Downloader.Fetching)
    (code : Z) (text : string) (len : option Z) (now : Z)
    (rs : list Downloader.ReadResult) (d : Storage.Download) :
  (200 <= code <= 299)%Z ->
  Storage.getDownload (Downloader.storage w) (Downloader.fe_downloadId f) = Some d ->
  let r := Downloader.respond w f (Downloader.Response code text len) now rs in
  snd r = None /\
  Downloader.activeDownloads (fst r) !! Downloader.fe_downloadId f = None /\
  exists d',
    Storage.getDownload (Downloader.storage (fst r)) (Downloader.fe_downloadId f)
      = Some d' /\
    Storage.status d' = "error" /\
    Storage.error d' = Some Downloader.getReader_error /\
    Storage.downloadedSize d' = Storage.downloadedSize d /\
    Storage.progress d' = Storage.progress d /\
    Storage.totalSize d' =
      (if Downloader.totalSize_unset (Downloader.fe_download f)
       then Some (Downloader.fe_resumePosition f
                  + match len with Some n => n | None => 0 end)%Z
       else Storage.totalSize d).
Proof.
  intros Hcode Hd r. subst r. rewrite RunFacts.respond_eq.
  unfold Downloader.onResponse.
  replace (negb ((200 <=? code)%Z && (code <=? 299)%Z) && negb (code =? 206)%Z)
    with false.
  2: { replace (200 <=? code)%Z with true by (symmetry; apply Z.leb_le; lia).
       replace (code <=? 299)%Z with true by (symmetry; apply Z.leb_le; lia).
       reflexivity. }
  cbn [fst snd]. split; [reflexivity|].
  unfold Downloader.downloadFile_catch.
  cbn [Downloader.setStorage Downloader.setActive Downloader.setFiles
       Downloader.storage Downloader.activeDownloads Downloader.files].
  split; [apply lookup_delete_eq|].
  destruct (Downloader.totalSize_unset (Downloader.fe_download f));
    cbn [Downloader.setStorage Downloader.storage].
  - eexists. split.
    + apply StorageFacts.getDownload_update.
      apply (StorageFacts.getDownload_update _ _ _ _ Hd).
    + repeat split.
  - eexists. split; [apply (StorageFacts.getDownload_update _ _ _ _ Hd)|].
    repeat split.
Qed.

Lemma taken_response_ends_in_error_witness :
  Storage.status <$>
    Storage.getDownload
      (Downloader.storage
         (fst (Downloader.respond (fst FetchExample.requested) FetchExample.fetching
                 (Downloader.Response 200 "OK" (Some 1000%Z)) 50
                 [Downloader.Chunk 400 1200; Downloader.Done 1300]))) 7
  = Some "error".
Proof.
  destruct (taken_response_ends_in_error (fst FetchExample.requested)
              FetchExample.fetching 200 "OK" (Some 1000%Z) 50
              [Downloader.Chunk 400 1200; Downloader.Done 1300] Scenario.download)
    as (_ & _ & d' & Hg & Hs & _).
  - lia.
  - vm_compute. reflexivity.
  - change (Downloader.fe_downloadId FetchExample.fetching) with 7%Z in Hg.
    rewrite Hg. cbn [fmap option_fmap option_map]. now rewrite Hs.
Defined.

(** X30: no run of the engine from a store without downloads reaches a
    paused or a completed download.  Every stored download has status
    "queued", "downloading", "cancelled" or "error" and a downloadedSize of
    0, every pending fetch asks for the whole media, and every resume is
    refused and changes nothing. *)
Theorem no_download_is_paused_or_completed (path_join : list string -> string)
    (cwd abortError : string) (unlinkSync_error : string -> option string)
    (st : Storage.MemStorage) (fs : gmap string Z) (events : list Downloader.Event) :
  Storage.downloadsMap st = ∅ ->
  Forall Downloader.sane events ->
  let s := Downloader.run path_join cwd abortError unlinkSync_error
             (Downloader.idle st fs) events in
  (forall i d,
     Storage.getDownload (Downloader.storage (Downloader.world s)) i = Some d ->
     In (Storage.status d) ["queued"; "downloading"; "cancelled"; "error"] /\
     Storage.downloadedSize d = Some 0%Z) /\
  Forall (fun f => Downloader.fe_resumePosition f = 0%Z /\
                   Downloader.req_range (Downloader.fe_request f) = None)
    (Downloader.pending s) /\
  forall i, Downloader.resumeDownload (Downloader.world s) i
            = (Downloader.world s, false, None).
Proof.
  intros He Hall s.
  destruct (RunFacts.run_steady path_join cwd abortError unlinkSync_error events
              (Downloader.idle st fs) Hall (RunFacts.idle_steady st fs He)) as [Hw Hp].
  fold s in Hw, Hp. split; [|split].
  - intros i d Hd. destruct (Hw i d Hd) as (H1 & _ & _ & H4). auto.
  - exact Hp.
  - intros i. apply ResumeFacts.resume_not_paused. intros d Hd.
    apply RunFacts.untouched_not_paused. eauto.
Qed.

Lemma no_download_is_paused_or_completed_witness :
  Downloader.resumeDownload (Downloader.world RunExample.unsized) 7
  = (Downloader.world RunExample.unsized, false, None).
Proof.
  apply (no_download_is_paused_or_completed EngineExample.join "/srv"
           RunExample.aborted_text RunExample.removes RunExample.store ∅
           [Downloader.Create RunExample.asked 0%Z; Downloader.Start 7 0;
            Downloader.Settle 0 (Downloader.Response 200 "OK" None) 50
              [Downloader.Chunk 1000 1050]] eq_refl).
  repeat constructor.
Defined.

(** ** The routes: control and single-episode download *)

(** X15: the control route answers 404 for an id without a record and
    changes nothing.  For a stored download: a pause of an id without a
    handle answers 400 and changes nothing, and a pause of an id with a
    handle answers with the record as the aborted fetch left it, status
    "error"; a cancel whose file removal the platform refuses answers 500,
    otherwise it answers with the record, "cancelled" for an id without a
    handle and "error" for one with a handle; a resume of a download that is
    not paused answers 400 and changes nothing. *)
Theorem controlDownload_replies (abortError : string)
    (unlinkSync_error : string -> option string) (w : Downloader.World)
    (downloadId : Z) :
  let control := Routes.controlDownload abortError unlinkSync_error w downloadId in
  (Storage.getDownload (Downloader.storage w) downloadId = None ->
   forall action, control action = (w, Routes.ControlNotFound, None)) /\
  (forall d,
     Storage.getDownload (Downloader.storage w) downloadId = Some d ->
     (Downloader.activeDownloads w !! downloadId = None ->
      control Routes.pause =
        (w, Routes.ControlBadRequest
              ("Could not pause download " ++ Downloader.string_of_Z downloadId), None)) /\
     (is_Some (Downloader.activeDownloads w !! downloadId) ->
      snd (fst (control Routes.pause)) =
        Routes.ControlJson
          (Some (Storage.spread d [Storage.f_status "error";
                                   Storage.f_error (Some abortError)]))) /\
     (forall p message,
        Downloader.unlinked w downloadId = Some p ->
        unlinkSync_error p = Some message ->
        snd (fst (control Routes.cancel)) =
          Routes.ControlServerError ("Error controlling download: " ++ message)) /\
     ((forall p, Downloader.unlinked w downloadId = Some p ->
                 unlinkSync_error p = None) ->
      (Downloader.activeDownloads w !! downloadId = None ->
       snd (fst (control Routes.cancel)) =
         Routes.ControlJson (Some (Storage.spread d Downloader.cancelled))) /\
      (is_Some (Downloader.activeDownloads w !! downloadId) ->
       snd (fst (control Routes.cancel)) =
         Routes.ControlJson
           (Some (Storage.spread (Storage.spread d Downloader.cancelled)
                    [Storage.f_status "error"; Storage.f_error (Some abortError)])))) /\
     (Storage.status d <> "paused" ->
      control Routes.resume =
        (w, Routes.ControlBadRequest
              ("Could not resume download " ++ Downloader.string_of_Z downloadId), None))).
Proof.
  cbv zeta. split.
  - intros Hn action. unfold Routes.controlDownload. now rewrite Hn.
  - intros d Hd. unfold Routes.controlDownload. rewrite Hd.
    pose proof (StorageFacts.getDownload_update _ _ Downloader.cancelled _ Hd) as Hc.
    split; [|split; [|split; [|split]]].
    + intros Hn. now rewrite (ControlFacts.pauseDownload_none _ _ _ Hn).
    + intros [h Hh]. pose proof (ControlFacts.pause_record abortError w downloadId h d Hh Hd)
        as Hrec.
      destruct (Downloader.pauseDownload abortError w downloadId) as [w' b] eqn:E.
      rewrite (ControlFacts.pauseDownload_some _ _ _ _ Hh) in E. injection E as <- <-.
      cbn [fst snd] in *. now rewrite Hrec.
    + intros p message Hp Hu.
      pose proof (ControlFacts.cancelDownload_body_threw _ _ _ _ _ Hp Hu) as Ht.
      destruct (Downloader.activeDownloads w !! downloadId) as [h|] eqn:E.
      * now rewrite (ControlFacts.cancelDownload_pending _ _ _ _ _ E), Ht.
      * now rewrite (ControlFacts.cancelDownload_idle _ _ _ _ E), Ht.
    + intros Hok. pose proof (ControlFacts.cancelDownload_body_eq _ _ _ Hok) as Hb.
      split.
      * intros E. rewrite (ControlFacts.cancelDownload_idle _ _ _ _ E), Hb.
        cbn [fst snd Downloader.storage]. now rewrite Hc.
      * intros [h E]. rewrite (ControlFacts.cancelDownload_pending _ _ _ _ _ E), Hb.
        cbn [fst snd].
        match goal with
        | |- context [Downloader.downloadFile_catch ?a _ _] =>
            now rewrite (ControlFacts.catch_marks_error a downloadId abortError _ Hc)
        end.
    + intros Hs. rewrite (ResumeFacts.resume_not_paused w downloadId); [reflexivity|].
      intros d' Hd'. congruence.
Qed.

Lemma controlDownload_replies_witness :
  snd (fst (Routes.controlDownload RunExample.aborted_text RunExample.refuses
              (Downloader.world RunExample.unsized) 7 Routes.cancel)) =
    Routes.ControlServerError
      "Error controlling download: EPERM: operation not permitted, unlink"
  /\
  Routes.controlDownload RunExample.aborted_text RunExample.removes
    (Downloader.world RunExample.requested) 9 Routes.cancel
    = (Downloader.world RunExample.requested, Routes.ControlNotFound, None).
Proof.
  destruct (controlDownload_replies RunExample.aborted_text RunExample.refuses
              (Downloader.world RunExample.unsized) 7) as [_ H7].
  destruct (controlDownload_replies RunExample.aborted_text RunExample.removes
              (Downloader.world RunExample.requested) 9) as [H9 _].
  split.
  - edestruct H7 as (_ & _ & Hc & _); [vm_compute; reflexivity|].
    apply (Hc "/srv/downloads/foo/season-1/episode-1.mp4"); vm_compute; reflexivity.
  - apply H9. vm_compute. reflexivity.
Defined.

(** X16: the single-episode download answers 404 for an unknown episode.  For
    an episode without a media URL, a page fetch or parse that throws makes
    it answer 500, and an empty resolution 400, in both cases with the store
    untouched and nothing started; any non-empty resolution is stored on the
    episode as it is.  Otherwise exactly one download is created, queued and
    stored for the episode, and handed to the engine. *)
Theorem downloadEpisode_replies
    (getSourceHtml parseEpisodePage : string -> option string)
    (path_join : list string -> string)
    (st : Storage.MemStorage) (i : Z) (downloadPath : option string)
    (now : Storage.Date) :
  let r := Routes.downloadEpisode getSourceHtml parseEpisodePage path_join
             st i downloadPath now in
  (Storage.getEpisode st i = None -> r = (st, Routes.EpisodeNotFound, [])) /\
  (forall e,
     Storage.getEpisode st i = Some e -> Storage.e_id e = i ->
     (Downloader.opt_truthy (Storage.downloadUrl e) = false ->
      (getSourceHtml (Storage.sourceUrl e) = None ->
       r = (st, Routes.EpisodeServerError, [])) /\
      (forall html, getSourceHtml (Storage.sourceUrl e) = Some html ->
         (parseEpisodePage html = None -> r = (st, Routes.EpisodeServerError, [])) /\
         (forall u, parseEpisodePage html = Some u ->
            (JsString.truthy u = false ->
             r = (st, Routes.EpisodeBadRequest
                        "Could not extract download URL for this episode", [])) /\
            (JsString.truthy u = true ->
             Storage.downloadUrl <$> Storage.getEpisode (fst (fst r)) i
               = Some (Some u))))) /\
     ((Downloader.opt_truthy (Storage.downloadUrl e) = true \/
       exists html u, getSourceHtml (Storage.sourceUrl e) = Some html /\
                      parseEpisodePage html = Some u /\ JsString.truthy u = true) ->
      exists d,
        snd (fst r) = Routes.EpisodeJson d /\ snd r = [Storage.id d] /\
        Storage.status d = "queued" /\ Storage.episodeId d = i /\
        Storage.id d = Storage.downloadCurrentId st /\
        Storage.getDownload (fst (fst r)) (Storage.id d) = Some d)).
Proof.
  intros r. subst r. unfold Routes.downloadEpisode. split.
  - now intros ->.
  - intros e He Hid. rewrite He. split.
    + intros Hu. rewrite Hu. cbn [negb]. split.
      * now intros ->.
      * intros html ->. split; [now intros ->|].
        intros u ->. split; [now intros ->|].
        intros Ht. rewrite Ht. cbn [negb fst snd].
        unfold Storage.createDownload, Storage.getEpisode. cbn [fst Storage.with_downloads
          Storage.episodesMap].
        unfold Storage.updateEpisode_downloadUrl. rewrite Hid.
        unfold Storage.getEpisode in He. rewrite He.
        cbn [fst Storage.with_episodes Storage.episodesMap].
        rewrite lookup_insert_eq. reflexivity.
    + intros Hok.
      assert (Hres : exists st1 e1,
        (if negb (Downloader.opt_truthy (Storage.downloadUrl e))
         then match getSourceHtml (Storage.sourceUrl e) with
              | None => None
              | Some html =>
                  match parseEpisodePage html with
                  | None => None
                  | Some downloadUrl =>
                      if negb (JsString.truthy downloadUrl) then Some None
                      else Some (Some (fst (Storage.updateEpisode_downloadUrl st
                                               (Storage.e_id e) downloadUrl),
                                       Routes.with_downloadUrl e downloadUrl))
                  end
              end
         else Some (Some (st, e))) = Some (Some (st1, e1)) /\
        Storage.e_id e1 = i /\
        Storage.downloadCurrentId st1 = Storage.downloadCurrentId st).
      { destruct (Downloader.opt_truthy (Storage.downloadUrl e)) eqn:Hu; cbn [negb].
        - exists st, e. auto.
        - destruct Hok as [[=]|(html & u & -> & -> & ->)]. cbn [negb].
          eexists. eexists. split; [reflexivity|]. split; [exact Hid|].
          unfold Storage.updateEpisode_downloadUrl.
          now destruct (Storage.episodesMap st !! Storage.e_id e). }
      destruct Hres as (st1 & e1 & -> & Hid1 & Hc).
      cbn [Storage.createDownload fst snd Routes.queued Storage.i_episodeId
           Storage.id Storage.status Storage.episodeId].
      eexists. split; [reflexivity|]. split; [reflexivity|].
      cbn [Storage.id Storage.status Storage.episodeId].
      split; [reflexivity|]. split; [exact Hid1|]. split; [exact Hc|].
      unfold Storage.getDownload. cbn [Storage.with_downloads Storage.downloadsMap].
      apply lookup_insert_eq.
Qed.

Lemma downloadEpisode_replies_witness :
  Routes.downloadEpisode BatchExample.fetch BatchExample.parse BatchExample.join
    BatchExample.store 2 None 50%Z
  = (BatchExample.store, Routes.EpisodeServerError, []) /\
  Storage.downloadUrl <$>
    Storage.getEpisode
      (fst (fst (Routes.downloadEpisode BatchExample.fetch BatchExample.parse
                   BatchExample.join BatchExample.store 3 None 50%Z))) 3
  = Some (Some "https://cdn.example.com/video/ep3.mp4").
Proof.
  split.
  - apply (downloadEpisode_replies BatchExample.fetch BatchExample.parse
             BatchExample.join BatchExample.store 2 None 50%Z)
      with (e := BatchExample.ep 2 "https://site/watch/foo-episode-2" None);
      vm_compute; reflexivity.
  - eapply (downloadEpisode_replies BatchExample.fetch BatchExample.parse
              BatchExample.join BatchExample.store 3 None 50%Z)
      with (e := BatchExample.ep 3 "https://site/watch/foo-episode-3" None);
      vm_compute; reflexivity.
Defined.

(** ** The upload service *)

Module RcloneFacts.
Import JsString Storage Downloader Rclone EpisodeList.

Section Uploads.
Variable System : Type.
Variable exec : System -> string -> System * option (string * string).
Variable path_basename : string -> string.

Abbreviation upload := (uploadFile System exec path_basename).
Abbreviation uploadAll := (uploadMultipleFiles_from System exec path_basename).

(** What an upload that answers true found and did. *)
Lemma upload_true w sys i remote :
  snd (upload w sys i remote) = true ->
  exists d p,
    getDownload (storage w) i = Some d /\ status d = "completed" /\
    filePath d = Some p /\ truthy p = true /\ existsSync (files w) p = true /\
    fst (fst (upload w sys i remote)) =
      setStorage w (updateDownload (storage w) i [f_status "uploaded"]).
Proof.
  unfold uploadFile.
  destruct (getDownload (storage w) i) as [d|]; [|discriminate].
  destruct (String.eqb (status d) "completed") eqn:Hs; cbn [negb orb]; [|discriminate].
  destruct (filePath d) as [p|] eqn:Hp; cbn [opt_truthy negb]; [|discriminate].
  destruct (truthy p) eqn:Ht; cbn [negb]; [|discriminate].
  destruct (existsSync (files w) p) eqn:He; cbn [negb]; [|discriminate].
  destruct (exec sys _) as [sys' [[out err]|]]; [|discriminate].
  destruct (truthy err && negb (includes err "Transferred:")); [discriminate|].
  intros _. exists d, p. apply String.eqb_eq in Hs. cbn [fst].
  repeat split; try assumption; reflexivity.
Qed.

Lemma upload_false w sys i remote :
  snd (upload w sys i remote) = false -> fst (fst (upload w sys i remote)) = w.
Proof.
  unfold uploadFile.
  destruct (getDownload (storage w) i) as [d|]; [|reflexivity].
  destruct (negb (String.eqb (status d) "completed") || negb (opt_truthy (filePath d)));
    [reflexivity|].
  destruct (negb (existsSync (files w) _)); [reflexivity|].
  destruct (exec sys _) as [sys' [[out err]|]]; [|reflexivity].
  destruct (truthy err && negb (includes err "Transferred:")); [reflexivity|].
  discriminate.
Qed.

Lemma upload_refused w sys i remote :
  not_completed w i -> snd (upload w sys i remote) = false.
Proof.
  intros H. destruct (snd (upload w sys i remote)) eqn:E; [|reflexivity].
  destruct (upload_true _ _ _ _ E) as (d & p & Hd & Hs & _).
  now destruct (H d Hd).
Qed.

Lemma upload_keeps_not_completed w sys j remote i :
  not_completed w i -> not_completed (fst (fst (upload w sys j remote))) i.
Proof.
  intros H. destruct (snd (upload w sys j remote)) eqn:E.
  - destruct (upload_true _ _ _ _ E) as (d & p & Hd & _ & _ & _ & _ & ->).
    intros d'. cbn [setStorage storage].
    destruct (decide (i = j)) as [->|Hne].
    + rewrite (StorageFacts.getDownload_update _ _ _ _ Hd). intros [= <-]. discriminate.
    + rewrite (StorageFacts.getDownload_update_other _ _ _ _ Hne). apply H.
  - now rewrite (upload_false _ _ _ _ E).
Qed.

Lemma classic_in (i : Z) (ids : list Z) : In i ids \/ ~ In i ids.
Proof. destruct (in_dec Z.eq_dec i ids); tauto. Qed.

Lemma uploadAll_refused ids : forall w sys remote results i,
  not_completed w i ->
  (In i ids -> snd (uploadAll w sys ids remote results) !! i = Some false) /\
  (~ In i ids -> snd (uploadAll w sys ids remote results) !! i = results !! i).
Proof.
  induction ids as [|j ids IH]; intros w sys remote results i H.
  - cbn. tauto.
  - cbn [uploadMultipleFiles_from].
    pose proof (upload_keeps_not_completed w sys j remote i H) as H'.
    pose proof (upload_refused w sys i remote H) as Hno.
    destruct (upload w sys j remote) as [[w' sys'] ok] eqn:E. cbn [fst] in H'.
    destruct (IH w' sys' remote (<[j := ok]> results) i H') as [IH1 IH2].
    split.
    + intros Hin. destruct (classic_in i ids) as [Hi|Hni]; [now apply IH1|].
      rewrite (IH2 Hni). destruct Hin as [->|Hin]; [|contradiction].
      rewrite lookup_insert_eq. f_equal. rewrite E in Hno. exact Hno.
    + intros Hnin. rewrite IH2 by (intros ?; apply Hnin; now right).
      apply lookup_insert_ne. intros ->. apply Hnin. now left.
Qed.

Lemma uploadAll_keys ids : forall w sys remote results i,
  is_Some (snd (uploadAll w sys ids remote results) !! i) <->
  In i ids \/ is_Some (results !! i).
Proof.
  induction ids as [|j ids IH]; intros w sys remote results i.
  - cbn. tauto.
  - cbn [uploadMultipleFiles_from].
    destruct (upload w sys j remote) as [[w' sys'] ok].
    rewrite IH. cbn [In].
    destruct (decide (j = i)) as [->|Hne].
    + rewrite lookup_insert_eq. split; eauto.
    + rewrite lookup_insert_ne by exact Hne. tauto.
Qed.

End Uploads.

Lemma trimStart_head s : head_kept (trimStart s).
Proof.
  induction s as [|c r IH]; cbn; [exact I|].
  destruct (is_space c) eqn:E; [exact IH | exact E].
Qed.

Lemma trimStart_kept s : head_kept s -> trimStart s = s.
Proof. destruct s as [|c r]; cbn; [reflexivity|]. now intros ->. Qed.

Lemma trimEnd_head s : head_kept s -> head_kept (trimEnd s).
Proof.
  destruct s as [|c r]; cbn; [auto|]. intros H.
  destruct (trimEnd r); [rewrite H|]; exact H.
Qed.

Lemma trimEnd_twice s : trimEnd (trimEnd s) = trimEnd s.
Proof.
  induction s as [|c r IH]; cbn [trimEnd]; [reflexivity|].
  destruct (trimEnd r) as [|c' r'] eqn:E.
  - destruct (is_space c) eqn:Hc; [reflexivity|]. cbn [trimEnd]. now rewrite Hc.
  - cbn [trimEnd]. cbn [trimEnd] in IH. now rewrite IH.
Qed.

Lemma trim_twice s : trim (trim s) = trim s.
Proof.
  unfold trim.
  rewrite (trimStart_kept (trimEnd (trimStart s))).
  - apply trimEnd_twice.
  - apply trimEnd_head, trimStart_head.
Qed.

End RcloneFacts.

(** X17: an upload answers true only for a stored download that is
    "completed" and whose file exists, and then changes one thing, the
    status of that record, to "uploaded"; an upload that answers false
    changes nothing in the store, the handles or the disk. *)
Theorem uploadFile_effect (System : Type)
    (exec : System -> string -> System * option (string * string))
    (path_basename : string -> string)
    (w : Downloader.World) (sys : System) (downloadId : Z) (remotePath : string) :
  let r := Rclone.uploadFile System exec path_basename w sys downloadId remotePath in
  (snd r = false -> fst (fst r) = w) /\
  (snd r = true ->
   exists d p,
     Storage.getDownload (Downloader.storage w) downloadId = Some d /\
     Storage.status d = "completed" /\
     Storage.filePath d = Some p /\
     Downloader.existsSync (Downloader.files w) p = true /\
     Storage.getDownload (Downloader.storage (fst (fst r))) downloadId =
       Some (Storage.assign d (Storage.f_status "uploaded")) /\
     Downloader.files (fst (fst r)) = Downloader.files w /\
     Downloader.activeDownloads (fst (fst r)) = Downloader.activeDownloads w /\
     forall j, j <> downloadId ->
       Storage.getDownload (Downloader.storage (fst (fst r))) j =
       Storage.getDownload (Downloader.storage w) j).
Proof.
  intros r. subst r. split; [apply RcloneFacts.upload_false|].
  intros H. destruct (RcloneFacts.upload_true _ _ _ _ _ _ _ H)
    as (d & p & Hd & Hs & Hp & _ & He & ->).
  exists d, p. cbn [Downloader.setStorage Downloader.storage Downloader.files
                    Downloader.activeDownloads].
  repeat split; try assumption.
  - apply (StorageFacts.getDownload_update _ _ [Storage.f_status "uploaded"] _ Hd).
  - intros j Hj. now apply StorageFacts.getDownload_update_other.
Qed.

(** X18: an upload cannot be repeated.  After an upload of an id answered
    true, every further upload of that id answers false, whatever the command
    would do; so when a list of ids names one twice and its first upload
    succeeds, the report says false for it. *)
Theorem upload_not_repeatable (System : Type)
    (exec : System -> string -> System * option (string * string))
    (path_basename : string -> string)
    (w : Downloader.World) (sys : System) (downloadId : Z) (remotePath : string) :
  let r := Rclone.uploadFile System exec path_basename w sys downloadId remotePath in
  snd r = true ->
  (forall sys' remotePath',
     snd (Rclone.uploadFile System exec path_basename (fst (fst r)) sys' downloadId
            remotePath') = false) /\
  (forall rest, In downloadId rest ->
     snd (Rclone.uploadMultipleFiles System exec path_basename w sys
            (downloadId :: rest) remotePath) !! downloadId = Some false).
Proof.
  intros r H. subst r.
  assert (Hnc : Rclone.not_completed
                  (fst (fst (Rclone.uploadFile System exec path_basename w sys
                               downloadId remotePath))) downloadId).
  { destruct (RcloneFacts.upload_true _ _ _ _ _ _ _ H) as (d & p & Hd & _ & _ & _ & _ & ->).
    intros d'. cbn [Downloader.setStorage Downloader.storage].
    rewrite (StorageFacts.getDownload_update _ _ _ _ Hd). intros [= <-]. discriminate. }
  split.
  - intros sys' remotePath'. now apply RcloneFacts.upload_refused.
  - intros rest Hin. unfold Rclone.uploadMultipleFiles.
    cbn [Rclone.uploadMultipleFiles_from].
    destruct (Rclone.uploadFile System exec path_basename w sys downloadId remotePath)
      as [[w1 sys1] ok]. cbn [fst] in Hnc.
    now apply RcloneFacts.uploadAll_refused.
Qed.

(** X19: the report of a batch upload has an entry for every id asked and
    for no other. *)
Theorem uploadMultipleFiles_keys (System : Type)
    (exec : System -> string -> System * option (string * string))
    (path_basename : string -> string)
    (w : Downloader.World) (sys : System) (downloadIds : list Z) (remotePath : string)
    (i : Z) :
  is_Some (snd (Rclone.uploadMultipleFiles System exec path_basename w sys
                  downloadIds remotePath) !! i) <-> In i downloadIds.
Proof.
  unfold Rclone.uploadMultipleFiles. rewrite RcloneFacts.uploadAll_keys.
  rewrite lookup_empty. split; [intros [H|[? [=]]]; exact H | auto].
Qed.

(** X20: every remote listed is a line of the command's output with the
    whitespace at both ends removed, and none is empty; when the command
    throws the list is empty. *)
Theorem getRemotes_trimmed (System : Type)
    (exec : System -> string -> System * option (string * string)) (sys : System) :
  Forall (fun remote => remote <> EmptyString /\ EpisodeList.trim remote = remote /\
                        exists out err line,
                          snd (exec sys "rclone listremotes") = Some (out, err) /\
                          In line (JsString.split Rclone.newline out) /\
                          remote = EpisodeList.trim line)
    (snd (Rclone.getRemotes System exec sys)).
Proof.
  unfold Rclone.getRemotes.
  destruct (exec sys "rclone listremotes") as [sys' [[out err]|]]; cbn [snd];
    [|constructor].
  apply List.Forall_forall. intros remote Hin.
  apply filter_In in Hin. destruct Hin as [Hin Hlen].
  apply in_map_iff in Hin. destruct Hin as (line & <- & Hline).
  split; [|split].
  - intros E. rewrite E in Hlen. discriminate.
  - apply RcloneFacts.trim_twice.
  - exists out, err, line. auto.
Qed.

Lemma uploadFile_effect_witness :
  Storage.status <$>
    Storage.getDownload
      (Downloader.storage
         (fst (fst (Rclone.uploadFile nat RcloneExample.exec RcloneExample.basename
                      Scenario.finished 0%nat 7 "remote:anime")))) 7
  = Some "uploaded" /\
  fst (fst (Rclone.uploadFile nat RcloneExample.exec RcloneExample.basename
              Scenario.paused 0%nat 7 "remote:anime")) = Scenario.paused.
Proof.
  split.
  - destruct (uploadFile_effect nat RcloneExample.exec RcloneExample.basename
                Scenario.finished 0%nat 7 "remote:anime") as [_ H].
    destruct H as (d & p & _ & _ & _ & _ & Hg & _); [vm_compute; reflexivity|].
    rewrite Hg. reflexivity.
  - apply (uploadFile_effect nat RcloneExample.exec RcloneExample.basename
             Scenario.paused 0%nat 7 "remote:anime").
    vm_compute. reflexivity.
Defined.

Lemma upload_not_repeatable_witness :
  snd (Rclone.uploadMultipleFiles nat RcloneExample.exec RcloneExample.basename
         Scenario.finished 0%nat [7%Z; 7%Z] "remote:anime") !! 7%Z = Some false.
Proof.
  apply (upload_not_repeatable nat RcloneExample.exec RcloneExample.basename
           Scenario.finished 0%nat 7 "remote:anime").
  - vm_compute. reflexivity.
  - now left.
Defined.

(** ** The episode list *)

Module EpisodeListFacts.
Import JsString Storage EpisodeList.

Lemma fullUrl_http u : startsWith (fullUrl u) "http" = true.
Proof.
  unfold fullUrl. destruct (startsWith u "http") eqn:E; [exact E | reflexivity].
Qed.

Lemma listed_iff u (eps : list InsertEpisode) :
  existsb (fun e => String.eqb (ie_sourceUrl e) u) eps = true <->
  In u (List.map ie_sourceUrl eps).
Proof.
  rewrite existsb_exists, in_map_iff.
  split; intros (e & H1 & H2); exists e.
  - apply String.eqb_eq in H2. auto.
  - split; [exact H2 | now apply String.eqb_eq].
Qed.

Lemma NoDup_snoc {A} (l : list A) (x : A) :
  List.NoDup l -> ~ In x l -> List.NoDup (l ++ [x]).
Proof.
  induction l as [|y l IH]; intros Hnd Hx; cbn.
  - constructor; [auto | constructor].
  - inversion Hnd as [|? ? Hy Hl]; subst. constructor.
    + rewrite in_app_iff. intros [H|[H|[]]]; [contradiction|]. subst. apply Hx. now left.
    + apply IH; [exact Hl|]. intros H. apply Hx. now right.
Qed.

(** What [collect] keeps and adds. *)
Lemma collect_spec sid els : forall index eps,
  let out := collect sid index els eps in
  (List.NoDup (List.map ie_sourceUrl eps) -> List.NoDup (List.map ie_sourceUrl out)) /\
  (forall u, In u (List.map ie_sourceUrl eps) -> In u (List.map ie_sourceUrl out)) /\
  (forall a, In a els -> truthy (href a) = true ->
             In (fullUrl (href a)) (List.map ie_sourceUrl out)) /\
  (forall e, In e out ->
     In e eps \/
     (ie_seriesId e = sid /\ ie_downloadUrl e = Some EmptyString /\
      ie_duration e = Some EmptyString /\
      exists a, In a els /\ truthy (href a) = true /\
                ie_sourceUrl e = fullUrl (href a))) /\
  (List.length out <= List.length eps + List.length els)%nat.
Proof.
  induction els as [|a els IH]; intros index eps; cbn [collect].
  - cbn. repeat split; auto; [intros ? [] | lia].
  - destruct (truthy (href a)) eqn:Ht; cbn [negb].
    + destruct (existsb _ eps) eqn:Hex.
      * destruct (IH (index + 1)%Z eps) as (H1 & H2 & H3 & H4 & H5).
        cbv zeta. split; [exact H1|]. split; [exact H2|]. split; [|split].
        -- intros b [<-|Hb] Hb'; [|now apply H3].
           apply H2. now apply listed_iff.
        -- intros e He. destruct (H4 e He) as [?|(?&?&?&b&?&?&?)]; [now left|].
           right. repeat split; auto. exists b. split; [now right|auto].
        -- cbn [List.length]. lia.
      * destruct (IH (index + 1)%Z (eps ++ [episodeOf sid index a])%list)
          as (H1 & H2 & H3 & H4 & H5).
        cbv zeta. split; [|split; [|split; [|split]]].
        -- intros Hnd. apply H1. rewrite List.map_app. cbn [List.map].
           apply NoDup_snoc; [exact Hnd|]. intros Hin.
           apply listed_iff in Hin. cbn [episodeOf ie_sourceUrl] in Hin. congruence.
        -- intros u Hu. apply H2. rewrite List.map_app, in_app_iff. now left.
        -- intros b [<-|Hb] Hb'; [|now apply H3].
           apply H2. rewrite List.map_app, in_app_iff. right. now left.
        -- intros e He. destruct (H4 e He) as [Hin|(?&?&?&b&?&?&?)].
           ++ apply in_app_iff in Hin. destruct Hin as [?|[<-|[]]]; [now left|].
              right. cbn [episodeOf ie_seriesId ie_downloadUrl ie_duration ie_sourceUrl].
              repeat split. exists a. split; [now left | auto].
           ++ right. repeat split; auto. exists b. split; [now right | auto].
        -- rewrite List.length_app in H5. cbn [List.length] in *. lia.
    + destruct (IH (index + 1)%Z eps) as (H1 & H2 & H3 & H4 & H5).
      cbv zeta. split; [exact H1|]. split; [exact H2|]. split; [|split].
      * intros b [<-|Hb] Hb'; [congruence | now apply H3].
      * intros e He. destruct (H4 e He) as [?|(?&?&?&b&?&?&?)]; [now left|].
        right. repeat split; auto. exists b. split; [now right|auto].
      * cbn [List.length]. lia.
Qed.

(** The digits a number prints as, read back. *)
Lemma digits_acc d : forall acc,
  parseInt_from (Z.pos acc) (NilEmpty.string_of_uint d) = Z.pos (Pos.of_uint_acc d acc).
Proof.
  induction d; intros acc;
    cbn [NilEmpty.string_of_uint parseInt_from Pos.of_uint_acc];
    [reflexivity|..]; rewrite <- IHd; f_equal; cbn; lia.
Qed.

Lemma digits_zero d :
  parseInt_from 0 (NilEmpty.string_of_uint d) = Z.of_N (Pos.of_uint d).
Proof.
  induction d; cbn [NilEmpty.string_of_uint parseInt_from Pos.of_uint];
    [reflexivity | exact IHd | ..]; apply digits_acc.
Qed.

Lemma printed_digits d : all_chars is_digit (NilEmpty.string_of_uint d) = true.
Proof. induction d; cbn [NilEmpty.string_of_uint all_chars]; [reflexivity|..]; exact IHd. Qed.

Lemma printed_nonzero d :
  Pos.of_uint d <> 0%N -> NilZero.string_of_uint d = NilEmpty.string_of_uint d.
Proof. destruct d; [intros H; now destruct H | reflexivity..]. Qed.

Lemma printed_nonempty d :
  Pos.of_uint d <> 0%N -> truthy (NilEmpty.string_of_uint d) = true.
Proof. destruct d; [intros H; now destruct H | reflexivity..]. Qed.

Lemma string_of_Z_digits n :
  (0 <= n)%Z ->
  all_chars is_digit (Downloader.string_of_Z n) = true /\
  truthy (Downloader.string_of_Z n) = true /\
  parseInt (Downloader.string_of_Z n) = n.
Proof.
  intros Hn. destruct n as [|p|p]; [repeat split | | lia].
  unfold Downloader.string_of_Z, parseInt.
  cbn [Z.to_int NilZero.string_of_int].
  pose proof (DecimalPos.Unsigned.of_to p) as Hp.
  assert (Hnz : Pos.of_uint (Pos.to_uint p) <> 0%N) by (rewrite Hp; discriminate).
  rewrite (printed_nonzero _ Hnz).
  split; [apply printed_digits|]. split; [now apply printed_nonempty|].
  now rewrite digits_zero, Hp.
Qed.

Lemma span_full p s : all_chars p s = true -> span p s = (s, EmptyString).
Proof.
  induction s as [|c r IH]; cbn [all_chars span]; [reflexivity|].
  intros H. apply andb_true_iff in H. destruct H as [Hc Hr].
  now rewrite Hc, (IH Hr).
Qed.

Lemma span_all p s : all_chars p (fst (span p s)) = true.
Proof.
  induction s as [|c r IH]; cbn [span]; [reflexivity|].
  destruct (p c) eqn:E; [|reflexivity].
  destruct (span p r) as [a b]. cbn [fst all_chars] in *. now rewrite E, IH.
Qed.

Lemma parseInt_from_nonneg s : forall acc,
  all_chars is_digit s = true -> (0 <= acc)%Z -> (0 <= parseInt_from acc s)%Z.
Proof.
  induction s as [|c r IH]; intros acc H Hacc; cbn [parseInt_from]; [exact Hacc|].
  cbn [all_chars] in H. apply andb_true_iff in H. destruct H as [Hc Hr].
  apply IH; [exact Hr|].
  unfold is_digit in Hc. apply andb_true_iff in Hc. destruct Hc as [H1 H2].
  apply N.leb_le in H1. lia.
Qed.

Lemma search_some {A} (here : string -> option A) (P : A -> Prop) :
  (forall s x, here s = Some x -> P x) ->
  forall s x, search here s = Some x -> P x.
Proof.
  intros H s. induction s as [|c r IH]; intros x; cbn [search].
  - destruct (here EmptyString) eqn:E; [intros [= <-]; eauto | discriminate].
  - destruct (here (String c r)) eqn:E; [intros [= <-]; eauto | apply IH].
Qed.

Lemma word_number_digits kw sep s ds :
  search (word_number_at kw sep) s = Some ds -> all_chars is_digit ds = true.
Proof.
  revert s ds. apply (search_some _ (fun ds => all_chars is_digit ds = true)).
  intros s ds. unfold word_number_at.
  destruct (after_ci kw s) as [rest|]; [|discriminate].
  destruct (truthy _); [|discriminate]. intros [= <-]. apply span_all.
Qed.

Lemma match_english_digits s ds :
  match_english s = Some ds -> all_chars is_digit ds = true.
Proof.
  unfold match_english. revert s ds.
  apply (search_some _ (fun ds => all_chars is_digit ds = true)). intros s ds.
  destruct s as [|c r]; [discriminate|].
  destruct (Ascii.eqb c "-") eqn:E.
  - apply Ascii.eqb_eq in E. subst c.
    pose proof (span_all is_digit r) as Hd.
    destruct (span is_digit r) as [digits rest]. cbn [fst] in Hd.
    destruct (truthy digits); [|discriminate].
    destruct (after_ci "-english" rest); [|discriminate]. now intros [= <-].
  - destruct c as [[] [] [] [] [] [] [] []]; try discriminate E; discriminate.
Qed.

Lemma titled_match ds :
  all_chars is_digit ds = true -> truthy ds = true ->
  match_spaced "episode" ("Episode " ++ ds) = Some ds.
Proof.
  intros Hd Ht. unfold match_spaced.
  assert (Hat : word_number_at "episode" is_space ("Episode " ++ ds) = Some ds).
  { unfold word_number_at.
    replace (after_ci "episode" ("Episode " ++ ds)) with (Some (String " " ds))
      by reflexivity.
    destruct ds as [|c r]; [discriminate|].
    assert (Hc : is_space c = false).
    { cbn [all_chars] in Hd. apply andb_true_iff in Hd. destruct Hd as [Hc _].
      revert Hc. clear. destruct c as [[] [] [] [] [] [] [] []]; vm_compute; congruence. }
    replace (span is_space (String " " (String c r)))
      with (String " " EmptyString, String c r)
      by (cbn [span]; replace (is_space " ") with true by reflexivity;
          now rewrite Hc).
    cbn [snd]. rewrite (span_full is_digit _ Hd). cbn [fst]. now rewrite Ht. }
  destruct ds as [|c r]; [discriminate|].
  change ("Episode " ++ String c r) with (String "E" ("pisode " ++ String c r)) in *.
  cbn [search]. now rewrite Hat.
Qed.

Lemma episodeOf_shape sid index a :
  (0 <= index)%Z ->
  truthy (ie_title (episodeOf sid index a)) = true /\
  exists n s,
    ie_episodeNumber (episodeOf sid index a) = Some n /\ (0 <= n)%Z /\
    ie_season (episodeOf sid index a) = Some s /\ (0 <= s)%Z.
Proof.
  intros Hi. unfold episodeOf. cbn [ie_title ie_episodeNumber ie_season].
  assert (Hnum : forall o : option string,
            (forall ds, o = Some ds -> all_chars is_digit ds = true) ->
            forall fallback, (0 <= fallback)%Z ->
            (0 <= match o with Some d => parseInt d | None => fallback end)%Z).
  { intros [ds|] H fallback Hf; [|exact Hf].
    apply parseInt_from_nonneg; [now apply H | lia]. }
  assert (Hfirst : forall a b : option string,
            (forall ds, a = Some ds -> all_chars is_digit ds = true) ->
            (forall ds, b = Some ds -> all_chars is_digit ds = true) ->
            forall ds, first_of a b = Some ds -> all_chars is_digit ds = true).
  { intros [x|] b Ha Hb ds; cbn; [apply Ha | apply Hb]. }
  split.
  - unfold or_else. destruct (truthy (trim (a_text a))) eqn:E; [exact E | reflexivity].
  - eexists. eexists. split; [reflexivity|]. split; [|split; [reflexivity|]].
    + apply Hnum; [|lia]. apply Hfirst; [apply word_number_digits|].
      apply Hfirst; [apply word_number_digits | apply match_english_digits].
    + apply Hnum; [|lia]. apply Hfirst; apply word_number_digits.
Qed.

Lemma collect_forall sid (Q : InsertEpisode -> Prop) :
  (forall index a, (0 <= index)%Z -> Q (episodeOf sid index a)) ->
  forall els index eps, (0 <= index)%Z -> Forall Q eps ->
                        Forall Q (collect sid index els eps).
Proof.
  intros HQ. induction els as [|a els IH]; intros index eps Hi He; cbn [collect].
  - exact He.
  - destruct (negb (truthy (href a))); [apply IH; [lia | exact He]|].
    destruct (existsb _ eps); [apply IH; [lia | exact He]|].
    apply IH; [lia|]. apply Forall_app. split; [exact He|].
    constructor; [now apply HQ | constructor].
Qed.

End EpisodeListFacts.

(** X21: the episodes parsed from a page carry each linked address once:
    no two of them share a source URL, every source URL is absolute (it
    starts with "http"), every anchor with a link is represented, and every
    episode comes from such an anchor, belongs to the series asked, and has
    an empty media URL and duration; there are no more episodes than
    anchors. *)
Theorem parseEpisodeList_links (listing catlist cateps all : list EpisodeList.Anchor)
    (seriesId : Z) :
  let elements := EpisodeList.episodeElements listing catlist cateps all in
  let episodes := EpisodeList.parseEpisodeList listing catlist cateps all seriesId in
  List.NoDup (List.map Storage.ie_sourceUrl episodes) /\
  (forall a, In a elements -> JsString.truthy (EpisodeList.href a) = true ->
     In (EpisodeList.fullUrl (EpisodeList.href a))
        (List.map Storage.ie_sourceUrl episodes)) /\
  (forall e, In e episodes ->
     JsString.startsWith (Storage.ie_sourceUrl e) "http" = true /\
     Storage.ie_seriesId e = seriesId /\
     Storage.ie_downloadUrl e = Some EmptyString /\
     Storage.ie_duration e = Some EmptyString /\
     exists a, In a elements /\ JsString.truthy (EpisodeList.href a) = true /\
               Storage.ie_sourceUrl e = EpisodeList.fullUrl (EpisodeList.href a)) /\
  (List.length episodes <= List.length elements)%nat.
Proof.
  intros elements episodes. subst episodes. unfold EpisodeList.parseEpisodeList.
  fold elements.
  destruct (EpisodeListFacts.collect_spec seriesId elements 0%Z [])
    as (H1 & _ & H3 & H4 & H5).
  split; [apply H1; constructor|]. split; [exact H3|]. split; [|exact H5].
  intros e He. destruct (H4 e He) as [[]|(Hs & Hd & Hu & a & Ha & Ht & Hsrc)].
  split; [rewrite Hsrc; apply EpisodeListFacts.fullUrl_http|].
  repeat split; auto. exists a. auto.
Qed.

Lemma parseEpisodeList_links_witness :
  In "https://www.wcofun.net/foo-season-3-episode-9"
     (List.map Storage.ie_sourceUrl
        (EpisodeList.parseEpisodeList EpisodeListExample.anchors [] [] [] 4)).
Proof.
  destruct (parseEpisodeList_links EpisodeListExample.anchors [] [] [] 4)
    as (_ & H & _).
  apply (H {| EpisodeList.a_text := EmptyString;
              EpisodeList.a_href := Some "foo-season-3-episode-9" |}).
  - vm_compute. tauto.
  - reflexivity.
Defined.

(** X22: the batch download staggers its starts: the k-th download it
    creates (from 1) is handed to the engine k times 500 ms later. *)
Theorem series_batch_staggers
    (URL_parses : string -> bool)
    (getSourceHtml parseEpisodePage : string -> option string)
    (path_join : list string -> string)
    (st st' : Storage.MemStorage) (sid : Z) (downloadPath : option string)
    (now : Storage.Date) (downloads : list Storage.Download)
    (timers : list Routes.Timer) :
  Routes.downloadSeries URL_parses getSourceHtml parseEpisodePage path_join
    st sid downloadPath now = (st', Routes.Json downloads, timers) ->
  List.map Routes.start timers = List.map Storage.id downloads /\
  List.map Routes.delay timers =
    List.map (fun k => (Z.of_nat k * 500)%Z) (seq 1 (List.length downloads)).
Proof.
  unfold Routes.downloadSeries.
  destruct (Storage.getSeries st sid) as [series|]; [|discriminate].
  destruct (Storage.getEpisodesBySeriesId st (Storage.s_id series)) as [|e0 rest] eqn:He;
    [discriminate|].
  destruct (Routes.seriesLoop _ _ _ _ st downloadPath now (e0 :: rest) [] [])
    as [[st1 ds] ts] eqn:Hl.
  intros [= <- <- <-].
  destruct (RoutesFacts.seriesLoop_spec _ _ _ _ _ _ _ _ _ _ _ _ _ Hl)
    as (_ & _ & Hsg); [constructor | split; reflexivity | exact Hsg].
Qed.

Lemma series_batch_staggers_witness :
  List.map Routes.delay
    (snd (Routes.downloadSeries Scraper.http_url_parses BatchExample.fetch
            BatchExample.parse BatchExample.join BatchExample.store 1 (Some "videos") 50%Z))
  = [500%Z; 1000%Z].
Proof.
  destruct (Routes.downloadSeries Scraper.http_url_parses BatchExample.fetch
              BatchExample.parse BatchExample.join BatchExample.store 1 (Some "videos") 50%Z)
    as [[st' reply] ts] eqn:E.
  assert (Hr : exists ds, reply = Routes.Json ds /\ List.length ds = 2%nat).
  { change reply with (snd (fst (st', reply, ts))). rewrite <- E.
    vm_compute. eexists. split; reflexivity. }
  destruct Hr as (ds & -> & Hlen).
  destruct (series_batch_staggers _ _ _ _ _ _ _ _ _ _ _ E) as [_ Hd].
  cbn [snd]. rewrite Hd, Hlen. reflexivity.
Defined.

(** X23: every parsed episode has a title that is not empty (an untitled
    anchor is titled after its number) and an episode number and a season
    that are not negative. *)
Theorem parseEpisodeList_fields (listing catlist cateps all : list EpisodeList.Anchor)
    (seriesId : Z) (e : Storage.InsertEpisode) :
  In e (EpisodeList.parseEpisodeList listing catlist cateps all seriesId) ->
  JsString.truthy (Storage.ie_title e) = true /\
  exists n s,
    Storage.ie_episodeNumber e = Some n /\ (0 <= n)%Z /\
    Storage.ie_season e = Some s /\ (0 <= s)%Z.
Proof.
  unfold EpisodeList.parseEpisodeList. intros Hin.
  assert (H : Forall
                (fun e => JsString.truthy (Storage.ie_title e) = true /\
                          exists n s,
                            Storage.ie_episodeNumber e = Some n /\ (0 <= n)%Z /\
                            Storage.ie_season e = Some s /\ (0 <= s)%Z)
                (EpisodeList.collect seriesId 0
                   (EpisodeList.episodeElements listing catlist cateps all) [])).
  { apply EpisodeListFacts.collect_forall; [|lia|constructor].
    intros index a Hi. now apply EpisodeListFacts.episodeOf_shape. }
  rewrite List.Forall_forall in H. exact (H e Hin).
Qed.

Lemma parseEpisodeList_fields_witness :
  exists e,
    In e (EpisodeList.parseEpisodeList EpisodeListExample.anchors [] [] [] 4) /\
    Storage.ie_title e = "Episode 9" /\
    JsString.truthy (Storage.ie_title e) = true.
Proof.
  eexists. split; [vm_compute; right; left; reflexivity|]. split; [reflexivity|].
  eapply (parseEpisodeList_fields EpisodeListExample.anchors [] [] [] 4).
  vm_compute. right. left. reflexivity.
Defined.

(** X24: numbers survive printing and parsing: an anchor whose text is
    "Episode " followed by the decimal digits of a number from 0 up to 2^53
    (the integers the platform holds exactly) gets that number as its
    episode number, and keeps the text as its title. *)
Theorem titled_episode_number (seriesId index : Z) (a : EpisodeList.Anchor) (n : Z) :
  (0 <= n <= 2 ^ 53)%Z ->
  EpisodeList.trim (EpisodeList.a_text a) = "Episode " ++ Downloader.string_of_Z n ->
  EpisodeList.parseInt (Downloader.string_of_Z n) = n /\
  Storage.ie_episodeNumber (EpisodeList.episodeOf seriesId index a) = Some n /\
  Storage.ie_title (EpisodeList.episodeOf seriesId index a)
    = "Episode " ++ Downloader.string_of_Z n.
Proof.
  intros [Hn _] Ht.
  destruct (EpisodeListFacts.string_of_Z_digits n Hn) as (Hd & Hne & Hp).
  split; [exact Hp|].
  unfold EpisodeList.episodeOf.
  cbn [Storage.ie_episodeNumber Storage.ie_title]. rewrite Ht.
  rewrite (EpisodeListFacts.titled_match _ Hd Hne).
  cbn [EpisodeList.first_of]. rewrite Hp. split; reflexivity.
Qed.

Lemma titled_episode_number_witness :
  Storage.ie_episodeNumber
    (EpisodeList.episodeOf 4 0
       {| EpisodeList.a_text := "  Episode 120 "; EpisodeList.a_href := Some "/x" |})
  = Some 120%Z.
Proof.
  apply (titled_episode_number 4 0
           {| EpisodeList.a_text := "  Episode 120 "; EpisodeList.a_href := Some "/x" |}
           120).
  - lia.
  - vm_compute. reflexivity.
Defined.

(** ** The series page *)

Module SeriesInfoFacts.
Import JsString Storage EpisodeList SeriesInfo.

Example title_from_tag :
  is_title (parseSeriesInfo SeriesInfoExample.page "https://www.wcofun.net/anime/foo-bar")
  = "Foo Bar".
Proof. reflexivity. Qed.

Example title_from_url :
  is_title (parseSeriesInfo SeriesInfoExample.blank "https://www.wcofun.net/anime/foo-bar")
  = "Foo Bar".
Proof. reflexivity. Qed.

Example title_empty_after_slash :
  is_title (parseSeriesInfo SeriesInfoExample.blank "https://www.wcofun.net/anime/foo-bar/")
  = EmptyString.
Proof. reflexivity. Qed.

Lemma split_nonempty sep s : split sep s <> [].
Proof.
  destruct s as [|c r]; cbn [split]; [discriminate|].
  destruct (Ascii.eqb c sep); [discriminate|].
  destruct (split sep r); discriminate.
Qed.

Lemma last_part_nonempty sep c :
  c <> sep ->
  forall pre, truthy (List.last (split sep (pre ++ String c EmptyString)) EmptyString) = true.
Proof.
  intros Hc. apply Ascii.eqb_neq in Hc.
  induction pre as [|a r IH].
  - change (EmptyString ++ String c EmptyString) with (String c EmptyString).
    cbn [split]. rewrite Hc. reflexivity.
  - change (String a r ++ String c EmptyString) with (String a (r ++ String c EmptyString)).
    cbn [split].
    pose proof (split_nonempty sep (r ++ String c EmptyString)) as Hne.
    destruct (Ascii.eqb a sep).
    + destruct (split sep (r ++ String c EmptyString)) as [|h t] eqn:E; [congruence|].
      exact IH.
    + destruct (split sep (r ++ String c EmptyString)) as [|h t] eqn:E; [congruence|].
      destruct t as [|h' t']; [reflexivity | exact IH].
Qed.

Lemma titleFromUrl_nonempty pre c :
  c <> "/"%char -> truthy (titleFromUrl (pre ++ String c EmptyString)) = true.
Proof.
  intros Hc. unfold titleFromUrl.
  pose proof (last_part_nonempty "/" c Hc pre) as H.
  destruct (List.last _ _) as [|a r]; [discriminate | reflexivity].
Qed.

Lemma collect_length sid els : forall index eps,
  (length (collect sid index els eps) <= length eps + length els)%nat.
Proof.
  induction els as [|a els IH]; intros index eps; cbn [collect length]; [lia|].
  destruct (negb (truthy (href a))); [specialize (IH (index + 1)%Z eps); lia|].
  destruct (existsb _ eps); [specialize (IH (index + 1)%Z eps); lia|].
  match goal with
  | |- (length (collect _ _ _ ?e) <= _)%nat =>
      specialize (IH (index + 1)%Z e); rewrite length_app in IH; cbn [length] in IH; lia
  end.
Qed.

Lemma counted {A} (a : A) (l : list A) : (Z.of_nat (length (a :: l)) =? 0)%Z = false.
Proof. apply Z.eqb_neq. cbn [length]. lia. Qed.

Lemma countEpisodes_selected p :
  nonempty (listing p) || nonempty (catlist p) || nonempty (catEps p) = true ->
  countEpisodes p =
  Z.of_nat (length (episodeElements (listing p) (catlist p) (catEps p) (allAnchors p))).
Proof.
  unfold countEpisodes, episodeElements.
  assert (Hnil : (Z.of_nat (length (@nil Anchor)) =? 0)%Z = true) by reflexivity.
  destruct (listing p) as [|a1 l1]; [|intros _; now rewrite counted].
  rewrite Hnil.
  destruct (catlist p) as [|a2 l2]; [|intros _; now rewrite !counted].
  rewrite Hnil.
  destruct (catEps p) as [|a3 l3]; [discriminate|].
  intros _. now rewrite !counted.
Qed.

End SeriesInfoFacts.

(** X27: a series always gets a title when the address of its page does not
    end in a slash: whatever the page holds, the title [parseSeriesInfo]
    returns is not empty. *)
Theorem series_title_nonempty (p : SeriesInfo.Page) (pre : string) (c : ascii) :
  c <> "/"%char ->
  JsString.truthy
    (Storage.is_title (SeriesInfo.parseSeriesInfo p (pre ++ String c EmptyString))) = true.
Proof.
  intros Hc. unfold SeriesInfo.parseSeriesInfo. cbn [Storage.is_title].
  repeat match goal with
         | |- context [if JsString.truthy ?t then _ else _] =>
             let E := fresh "E" in destruct (JsString.truthy t) eqn:E
         end; try assumption; try congruence;
    now apply SeriesInfoFacts.titleFromUrl_nonempty.
Qed.

Lemma series_title_nonempty_witness :
  JsString.truthy
    (Storage.is_title
       (SeriesInfo.parseSeriesInfo SeriesInfoExample.blank
          "https://www.wcofun.net/anime/foo-bar")) = true.
Proof.
  apply (series_title_nonempty SeriesInfoExample.blank
           "https://www.wcofun.net/anime/foo-ba" "r").
  discriminate.
Defined.

(** X28: when one of the three list selectors selects anything, the
    episodes [parseEpisodeList] returns for a page are at most as many as
    the [totalEpisodes] that [parseSeriesInfo] reports for it. *)
Theorem episode_list_within_total (p : SeriesInfo.Page) (sourceUrl : string) (seriesId : Z) :
  EpisodeList.nonempty (SeriesInfo.listing p) || EpisodeList.nonempty (SeriesInfo.catlist p)
    || EpisodeList.nonempty (SeriesInfo.catEps p) = true ->
  exists total,
    Storage.is_totalEpisodes (SeriesInfo.parseSeriesInfo p sourceUrl) = Some total /\
    (Z.of_nat (length (EpisodeList.parseEpisodeList (SeriesInfo.listing p)
                         (SeriesInfo.catlist p) (SeriesInfo.catEps p)
                         (SeriesInfo.allAnchors p) seriesId)) <= total)%Z.
Proof.
  intros H. eexists. split; [reflexivity|].
  rewrite (SeriesInfoFacts.countEpisodes_selected p H).
  unfold EpisodeList.parseEpisodeList.
  pose proof (SeriesInfoFacts.collect_length seriesId
                (EpisodeList.episodeElements (SeriesInfo.listing p) (SeriesInfo.catlist p)
                   (SeriesInfo.catEps p) (SeriesInfo.allAnchors p)) 0%Z []) as Hl.
  cbn [length] in Hl. lia.
Qed.

Lemma episode_list_within_total_witness :
  exists total,
    Storage.is_totalEpisodes
      (SeriesInfo.parseSeriesInfo SeriesInfoExample.page "https://www.wcofun.net/anime/foo")
    = Some total /\
    (Z.of_nat (length (EpisodeList.parseEpisodeList EpisodeListExample.anchors [] []
                         EpisodeListExample.anchors 1)) <= total)%Z.
Proof.
  apply (episode_list_within_total SeriesInfoExample.page
           "https://www.wcofun.net/anime/foo" 1).
  reflexivity.
Defined.
